(** * Hourly price acquisition: the two EnergyZero fetch scripts

    A shallow embedding of [scripts/fetch_energyzero_data.py] (the windowed
    GraphQL client, module [GraphQL]) and [scripts/fetch_energyzero_rest.py]
    (the whole-year REST client, module [Rest]), with the parts of Python's
    [datetime], [round], [sorted] and [list.sort] that they call.
    The generator of the synthetic profiles, [generate_test_data.py], is
    embedded after them (module [Generator]) as far as it does not depend
    on [math] and [random].

    What lies outside the two scripts is taken as a parameter of the
    development: the pricing service (a function of the requests made so
    far), the projection of an instant into the Europe/Amsterdam zone, and
    [int] on a command-line token.  Concrete instances of each are given
    after the generic development and are used for the worked examples.

    Of what the scripts print, the [console] of the [world] keeps the first
    line of every per-year run, the errors, and the warnings about years
    and counts.  The hours counted per day ([days_by_date]) and the lists
    printed from them are functions of the series that is returned; they
    are modelled as such, apart from the [world] (modules [GraphQLReport]
    and [RestReport]).  The other progress lines are not modelled. *)

From Stdlib Require Import ZArith String Ascii List Bool Lia Floats.
From Stdlib Require Import Sorting.Sorted Sorting.Permutation.
From stdpp Require Import base option list sorting gmap pretty.
From Equations Require Import Equations.
From Equations.Prop Require Import Logic.
Import ListNotations.

Local Open Scope Z_scope.

(** ** Python's proleptic Gregorian calendar ([datetime.date]) *)

Module Calendar.

Definition MINYEAR : Z := 1.
Definition MAXYEAR : Z := 9999.

(** [_is_leap] of [datetime]; the scripts spell the same test out. *)
Definition is_leap (year : Z) : bool :=
  ((year mod 4 =? 0) && negb (year mod 100 =? 0)) || (year mod 400 =? 0).

Definition days_before_year (year : Z) : Z :=
  let y := year - 1 in
  y * 365 + y / 4 - y / 100 + y / 400.

Definition days_in_month (year month : Z) : Z :=
  if month =? 2 then (if is_leap year then 29 else 28)
  else if (month =? 4) || (month =? 6) || (month =? 9) || (month =? 11)
       then 30 else 31.

Definition DAYS_BEFORE_MONTH (month : Z) : Z :=
  match month with
  | 1 => 0 | 2 => 31 | 3 => 59 | 4 => 90 | 5 => 120 | 6 => 151
  | 7 => 181 | 8 => 212 | 9 => 243 | 10 => 273 | 11 => 304 | 12 => 334
  | _ => 0
  end.

Definition days_before_month (year month : Z) : Z :=
  DAYS_BEFORE_MONTH month + (if (2 <? month) && is_leap year then 1 else 0).

Definition ymd2ord (year month day : Z) : Z :=
  days_before_year year + days_before_month year month + day.

(** [date.max.toordinal()], the ordinal of 9999-12-31. *)
Definition MAXORDINAL : Z := 3652059.

(** A [date] is held by its ordinal.  [date(y, m, d)] raises [ValueError]
    ([None]) outside the supported range. *)
Definition date (year month day : Z) : option Z :=
  if (MINYEAR <=? year) && (year <=? MAXYEAR)
     && (1 <=? month) && (month <=? 12)
     && (1 <=? day) && (day <=? days_in_month year month)
  then Some (ymd2ord year month day) else None.

Definition toordinal (d : Z) : Z := d.

(** [date.fromordinal]: [ValueError] below day 1 and beyond 9999-12-31. *)
Definition fromordinal (n : Z) : option Z :=
  if (1 <=? n) && (n <=? MAXORDINAL) then Some n else None.

(** [_ord2ymd]. *)
Definition ord2ymd (n : Z) : Z * Z * Z :=
  let n := n - 1 in
  let n400 := n / 146097 in
  let n := n mod 146097 in
  let year := n400 * 400 + 1 in
  let n100 := n / 36524 in
  let n := n mod 36524 in
  let n4 := n / 1461 in
  let n := n mod 1461 in
  let n1 := n / 365 in
  let n := n mod 365 in
  let year := year + n100 * 100 + n4 * 4 + n1 in
  if (n1 =? 4) || (n100 =? 4) then (year - 1, 12, 31)
  else
    let leapyear := (n1 =? 3) && (negb (n4 =? 24) || (n100 =? 3)) in
    let month := Z.shiftr (n + 50) 5 in
    let preceding :=
      DAYS_BEFORE_MONTH month + (if (2 <? month) && leapyear then 1 else 0) in
    if n <? preceding then
      let month := month - 1 in
      let preceding :=
        preceding
        - ((if month =? 2 then 28
            else if (month =? 4) || (month =? 6) || (month =? 9) || (month =? 11)
                 then 30 else 31)
           + (if (month =? 2) && leapyear then 1 else 0)) in
      (year, month, n - preceding + 1)
    else (year, month, n - preceding + 1).

End Calendar.

(** ** Wall-clock date-times and [strftime('%Y-%m-%dT%H:%M:%S')]

    The fields of a [datetime], and their rendering with four digits for
    the year and two for every other field.  This is what every platform
    prints for the years 1000 to 9999.  Below 1000 the C library decides
    whether [%Y] is padded; what depends on the places of the characters
    in the text of such a year (the slice [t[11:13]] of the report of
    incomplete days) is therefore stated for years of four digits. *)

Module DateTime.

Record datetime := {
  year : Z; month : Z; day : Z;
  hour : Z; minute : Z; second : Z
}.

End DateTime.
Export DateTime.

Definition digit (d : Z) : ascii := ascii_of_N (Z.to_N (48 + d mod 10)).

Definition pad2 (n : Z) : string :=
  String (digit (n / 10)) (String (digit n) EmptyString).

Definition pad4 (n : Z) : string :=
  String (digit (n / 1000)) (String (digit (n / 100)) (pad2 n)).

Definition strftime (dt : datetime) : string :=
  (pad4 (year dt) ++ "-" ++ pad2 (month dt) ++ "-" ++ pad2 (day dt) ++ "T"
   ++ pad2 (hour dt) ++ ":" ++ pad2 (minute dt) ++ ":" ++ pad2 (second dt))%string.

(** An Instant is a UTC date-time, held as seconds since 1970-01-01T00:00:00Z
    (the scripts only meet whole hours). *)
Definition EPOCH_ORDINAL : Z := 719163.

Definition utc_seconds (y m d h : Z) : Z :=
  (Calendar.ymd2ord y m d - EPOCH_ORDINAL) * 86400 + h * 3600.

Definition datetime_of_seconds (s : Z) : datetime :=
  let '(y, m, d) := Calendar.ord2ymd (s / 86400 + EPOCH_ORDINAL) in
  let r := s mod 86400 in
  {| year := y; month := m; day := d;
     hour := r / 3600; minute := r mod 3600 / 60; second := r mod 60 |}.

(** *** Europe/Amsterdam under the rule in force since 1996

    Summer time (UTC+2) runs from 01:00 UTC on the last Sunday of March to
    01:00 UTC on the last Sunday of October; otherwise the zone is at UTC+1.
    Ordinal day 1 is a Monday, so Sundays are the ordinals divisible by 7.
    This is the instance of the zone projection used in the examples. *)

Definition last_sunday (y m : Z) : Z :=
  let o := Calendar.ymd2ord y m 31 in o - o mod 7.

Definition dst_start (y : Z) : Z :=
  (last_sunday y 3 - EPOCH_ORDINAL) * 86400 + 3600.

Definition dst_end (y : Z) : Z :=
  (last_sunday y 10 - EPOCH_ORDINAL) * 86400 + 3600.

Definition amsterdam_offset (utc : Z) : Z :=
  let y := year (datetime_of_seconds utc) in
  if (dst_start y <=? utc) && (utc <? dst_end y) then 7200 else 3600.

Definition amsterdam (utc : Z) : datetime :=
  datetime_of_seconds (utc + amsterdam_offset utc).

(** ** Python floats: [price * 1000] and [round(x, 1)]

    A Python float is an IEEE 754 binary64 number, here a primitive float.
    [round(x, 1)] rounds the exact value of [x] to one decimal, ties to the
    even digit, and returns the binary64 number nearest to that decimal. *)

(** [a / b] for [0 < b], to the nearest integer, ties to even. *)
Definition div_half_even (a b : Z) : Z :=
  let q := a / b in
  let r := a mod b in
  if 2 * r <? b then q
  else if b <? 2 * r then q + 1
  else if Z.even q then q else q + 1.

(** The binary64 number nearest to [n / d], for [0 < n] and [0 < d]
    with a quotient in the normal range. *)
Definition nearest_float (n d : Z) : float :=
  let k := 53 - (Z.log2 n - Z.log2 d) in
  let scaled (k : Z) := (n * 2 ^ Z.max k 0, d * 2 ^ Z.max (- k) 0) in
  let k := if 2 ^ 53 <=? fst (scaled k) / snd (scaled k) then k - 1 else k in
  let m := div_half_even (fst (scaled k)) (snd (scaled k)) in
  SF2Prim (S754_finite false (Z.to_pos m) (- k)).

Definition round1 (x : float) : float :=
  match Prim2SF x with
  | S754_finite s m e =>
      if 0 <=? e then x
      else
        let n := div_half_even (10 * Z.pos m) (2 ^ (- e)) in
        if n =? 0 then (if s then neg_zero else zero)
        else if s then PrimFloat.opp (nearest_float n 10)
             else nearest_float n 10
  | _ => x
  end.

(** [round(price * 1000, 1)]: EUR/kWh to EUR/MWh, one decimal. *)
Definition eur_mwh (price : float) : float :=
  round1 (PrimFloat.mul price 1000%float).

(** ** Python's stable sort ([sorted] and [list.sort(key=...)])

    Both sort ascending with [<] on the keys and keep the arrival order of
    elements whose keys are equal.  Insertion from the right does the same:
    an element moves past those to its right whose key is strictly smaller. *)

Section StableSort.
Context {A K : Type} (ltb : K -> K -> bool) (key : A -> K).

Fixpoint insert_by (x : A) (l : list A) : list A :=
  match l with
  | [] => [x]
  | y :: l' => if ltb (key y) (key x) then y :: insert_by x l' else x :: l
  end.

Definition sort_by (l : list A) : list A := foldr insert_by [] l.

End StableSort.

(** [sorted(years)] on integers. *)
Definition sorted (years : list Z) : list Z := sort_by Z.ltb id years.

(** ** The data model shared by the two scripts *)

(** One element of the [prices] array: [{'timestamp': ..., 'price': ...}]. *)
Record PricePoint := { timestamp : string; price_mwh : float }.

(** The dictionary a per-year fetch returns and [json.dump] persists. *)
Record year_series := { series_year : Z; count : Z; prices : list PricePoint }.

(** A Python call either returns or lets an exception escape. *)
Inductive result (A : Type) : Type :=
| Raise : result A
| Return : A -> result A.
Arguments Raise {A}.
Arguments Return {A} _.

(** How [main] ends: [sys.exit(1)], falling off its end, or an exception
    that nothing catches. *)
Inductive status := Exit1 | Completed | Uncaught.

(** Warnings and errors written to the console, and [Started], the first
    line of every per-year run. *)
Inductive message :=
| Usage
| WarnNoData (y : Z)
| InvalidYear (arg : string)
| NoYears
| NoOutputDir
| Started (y : Z)
| FetchError
| HttpError (code : Z)
| CountOk (expected : Z)
| CountOneLess (n expected : Z)
| CountMismatch (n expected : Z)
| Skipped (y : Z)
| Saved (y : Z).

(** What a run can touch: the requests sent to the service so far, the
    destination directory (whether it exists, and the file each year's
    fixed path [prices_<year>.json] holds), and the console. *)
Record world (Req : Type) := {
  requests : list Req;
  output_dir_exists : bool;
  files : gmap Z year_series;
  console : list message
}.
Arguments requests {Req} _.
Arguments output_dir_exists {Req} _.
Arguments files {Req} _.
Arguments console {Req} _.

Definition send {Req} (q : Req) (w : world Req) : world Req :=
  {| requests := requests w ++ [q]; output_dir_exists := output_dir_exists w;
     files := files w; console := console w |}.

Definition print {Req} (m : message) (w : world Req) : world Req :=
  {| requests := requests w; output_dir_exists := output_dir_exists w;
     files := files w; console := console w ++ [m] |}.

(** [json.dump] into the file of the year.  [open] is taken to succeed in
    the output directory, as it does for the name [prices_<year>.json] of
    a year of four digits; a name that the file system refuses (a year of
    some 250 digits) would end [main] with an [OSError] at this place. *)
Definition dump {Req} (y : Z) (data : year_series) (w : world Req) : world Req :=
  {| requests := requests w; output_dir_exists := output_dir_exists w;
     files := <[y := data]> (files w); console := console w |}.

(** The expected number of hourly entries, as both scripts compute it. *)
Definition expected_count (year : Z) : Z :=
  let is_leap :=
    ((year mod 4 =? 0) && negb (year mod 100 =? 0)) || (year mod 400 =? 0) in
  let expected_days := if is_leap then 366 else 365 in
  expected_days * 24.

(** The argument loop of [main], the same in both scripts but for the
    data-availability floor (2019 and 2015).  [None] is [sys.exit(1)]. *)
Section ParseYears.
Context {Req : Type} (int : string -> option Z) (floor : Z).

Fixpoint parse_years (args : list string) (years : list Z) (w : world Req)
  : option (list Z) * world Req :=
  match args with
  | [] => (Some years, w)
  | arg :: args' =>
      match int arg with
      | Some year =>
          let w := if year <? floor then print (WarnNoData year) w else w in
          parse_years args' (years ++ [year]) w
      | None => (None, print (InvalidYear arg) w)
      end
  end.

End ParseYears.

(** The rest of [main], the same in both scripts: [fetch] is the script's
    per-year function. *)
Section Driver.
Context {Req : Type} (int : string -> option Z) (floor : Z).
Context (fetch : Z -> world Req -> result (option year_series) * world Req).

(** [for year in sorted(years)] with its body. *)
Fixpoint run_years (years : list Z) (w : world Req) : status * world Req :=
  match years with
  | [] => (Completed, w)
  | year :: rest =>
      match fetch year w with
      | (Raise, w) => (Uncaught, w)
      | (Return None, w) => run_years rest (print (Skipped year) w)
      | (Return (Some data), w) =>
          run_years rest (print (Saved year) (dump year data w))
      end
  end.

Definition batch (args : list string) (w : world Req) : status * world Req :=
  match args with
  | [] => (Exit1, print Usage w)
  | _ =>
      match parse_years int floor args [] w with
      | (None, w) => (Exit1, w)
      | (Some years, w) =>
          match years with
          | [] => (Exit1, print NoYears w)
          | _ =>
              if negb (output_dir_exists w) then (Exit1, print NoOutputDir w)
              else run_years (sorted years) w
          end
      end
  end.

End Driver.

(** ** Reading a console

    The years of the per-year runs that were started, and the years whose
    run reached its end in [main]'s loop, with [true] for a file written. *)

Fixpoint runs (c : list message) : list Z :=
  match c with
  | [] => []
  | Started y :: c' => y :: runs c'
  | _ :: c' => runs c'
  end.

Fixpoint verdicts (c : list message) : list (Z * bool) :=
  match c with
  | [] => []
  | Saved y :: c' => (y, true) :: verdicts c'
  | Skipped y :: c' => (y, false) :: verdicts c'
  | _ :: c' => verdicts c'
  end.

(** ** [fetch_energyzero_data.py]: week by week through the GraphQL client *)

Module GraphQL.

(** One element of [energy.timestamp_prices]: the start of its time range,
    an Instant, and the price in EUR/kWh. *)
Record timestamp_price := { start_including : Z; price : float }.

(** The [start_date] and [end_date] of one [get_electricity_prices] call,
    both civil dates. *)
Record window := { start_date : Z; end_date : Z }.

Section Script.

(** [utc_ts.astimezone(ZoneInfo('Europe/Amsterdam'))]. *)
Variable astimezone : Z -> datetime.

(** [client.get_electricity_prices]: the answer to a request, given the
    requests made before it; [None] when the call raises. *)
Variable get_electricity_prices :
  list window -> window -> option (list timestamp_price).

(** [int(arg)]; [None] is [ValueError]. *)
Variable int : string -> option Z.

(** The body of [for price_point in energy.timestamp_prices], on the pair
    of [last_utc] and [prices]. *)
Definition convert (year : Z) (st : option Z * list PricePoint)
  (price_point : timestamp_price) : option Z * list PricePoint :=
  let '(last_utc, prices) := st in
  let utc_ts := start_including price_point in
  let local_ts := astimezone utc_ts in
  if negb (DateTime.year local_ts =? year) then st
  else if match last_utc with Some l => utc_ts =? l | None => false end then st
  else
    (Some utc_ts,
     prices ++ [{| timestamp := strftime local_ts;
                   price_mwh := round1 (PrimFloat.mul (price price_point) 1000) |}]).

(** One turn of the [while] loop: either the next [current_date] with the
    grown [prices], or the way the function is left.  The two
    [date.fromordinal] calls stand outside the [try], so their [ValueError]
    escapes; inside it only the call to the service can raise here, the
    records being well formed. *)
Definition week (year end_of_year current_date : Z) (prices : list PricePoint)
  (w : world window)
  : (Z * list PricePoint * world window)
    + (result (option (list PricePoint)) * world window) :=
  match Calendar.fromordinal
          (Z.min (Calendar.toordinal current_date + 7)
                 (Calendar.toordinal end_of_year)) with
  | None => inr (Raise, w)
  | Some end_date =>
      let q := {| start_date := current_date; end_date := end_date |} in
      match get_electricity_prices (requests w) q with
      | None => inr (Return None, print FetchError (send q w))
      | Some timestamp_prices =>
          let prices :=
            snd (fold_left (convert year) timestamp_prices (None, prices)) in
          match Calendar.fromordinal (Calendar.toordinal end_date + 1) with
          | None => inr (Raise, send q w)
          | Some next => inl (next, prices, send q w)
          end
      end
  end.

(** [while current_date <= end_of_year]: [Return (Some prices)] when the
    loop runs to its end, [Return None] on the early [return None]. *)
Equations? weeks (year end_of_year current_date : Z) (prices : list PricePoint)
  (w : world window) : result (option (list PricePoint)) * world window
  by wf (Z.to_nat (end_of_year + 1 - current_date)) lt :=
weeks year end_of_year current_date prices w
  with inspect (current_date <=? end_of_year) := {
  | exist _ false _ => (Return (Some prices), w)
  | exist _ true Hle
      with inspect (week year end_of_year current_date prices w) := {
      | exist _ (inl (next, prices', w')) Hweek =>
          weeks year end_of_year next prices' w'
      | exist _ (inr r) _ => r } }.
Proof.
  apply Z.leb_le in Hle.
  unfold week, Calendar.fromordinal, Calendar.toordinal in Hweek.
  repeat case_match; try discriminate.
  injection Hweek as <- _ _.
  repeat match goal with
         | H : Some _ = Some _ |- _ => injection H as H
         end.
  lia.
Qed.

Definition fetch_year (year : Z) (w : world window)
  : result (option year_series) * world window :=
  let w := print (Started year) w in
  match Calendar.date year 1 1 with
  | None => (Raise, w)
  | Some current_date =>
      match Calendar.date year 12 31 with
      | None => (Raise, w)
      | Some end_of_year =>
          match weeks year end_of_year current_date [] w with
          | (Raise, w) => (Raise, w)
          | (Return None, w) => (Return None, w)
          | (Return (Some prices), w) =>
              let count := Z.of_nat (length prices) in
              let w :=
                if count =? expected_count year
                then print (CountOk (expected_count year)) w
                else print (CountMismatch count (expected_count year)) w in
              (Return (Some {| series_year := year; count := count;
                               prices := prices |}), w)
          end
      end
  end.

(** [main], on [sys.argv[1:]], with the floor of 2019. *)
Definition main (args : list string) (w : world window)
  : status * world window :=
  batch int 2019 fetch_year args w.

(** *** The loops as functions on lists *)

(** What [convert] appends for a record it keeps. *)
Definition to_point (price_point : timestamp_price) : PricePoint :=
  {| timestamp := strftime (astimezone (start_including price_point));
     price_mwh := round1 (PrimFloat.mul (price price_point) 1000) |}.

(** The year filter: [local_ts.year == year]. *)
Definition in_year (year : Z) (price_point : timestamp_price) : bool :=
  DateTime.year (astimezone (start_including price_point)) =? year.

(** The [last_utc] test: a record is skipped when its Instant is that of
    the record kept just before it. *)
Fixpoint drop_repeats (last_utc : option Z) (l : list timestamp_price)
  : list timestamp_price :=
  match l with
  | [] => []
  | p :: l' =>
      if match last_utc with
         | Some u => start_including p =? u
         | None => false
         end
      then drop_repeats last_utc l'
      else p :: drop_repeats (Some (start_including p)) l'
  end.

(** The records of one answer that reach [prices]. *)
Definition kept (year : Z) (l : list timestamp_price) : list timestamp_price :=
  drop_repeats None (List.filter (in_year year) l).

(** The windows the [while] loop asks for, one after the other. *)
Equations? plan (end_of_year current_date : Z) : list window
  by wf (Z.to_nat (end_of_year + 1 - current_date)) lt :=
plan end_of_year current_date
  with inspect (current_date <=? end_of_year) := {
  | exist _ false _ => []
  | exist _ true Hle =>
      {| start_date := current_date;
         end_date := Z.min (current_date + 7) end_of_year |}
      :: plan end_of_year (Z.min (current_date + 7) end_of_year + 1) }.
Proof.
  apply Z.leb_le in Hle. lia.
Qed.

(** The answers to the windows [ws] asked in turn after the requests [h],
    or [None] as soon as one call raises. *)
Fixpoint answers (h : list window) (ws : list window)
  : option (list (list timestamp_price)) :=
  match ws with
  | [] => Some []
  | q :: ws' =>
      match get_electricity_prices h q with
      | None => None
      | Some a =>
          match answers (h ++ [q]) ws' with
          | None => None
          | Some rest => Some (a :: rest)
          end
      end
  end.

(** The windows of [ws] actually asked: those up to the first call that
    raises. *)
Fixpoint issued (h : list window) (ws : list window) : list window :=
  match ws with
  | [] => []
  | q :: ws' =>
      q :: match get_electricity_prices h q with
           | None => []
           | Some _ => issued (h ++ [q]) ws'
           end
  end.

(** The outcome of the count check, as printed. *)
Definition count_message (year count : Z) : message :=
  if count =? expected_count year then CountOk (expected_count year)
  else CountMismatch count (expected_count year).

(** The windows of a year, from January 1 to December 31. *)
Definition year_plan (year : Z) : list window :=
  plan (Calendar.ymd2ord year 12 31) (Calendar.ymd2ord year 1 1).

(** The dictionary [fetch_year] builds from the answers to its windows. *)
Definition series (year : Z) (rs : list (list timestamp_price)) : year_series :=
  let prices := flat_map (fun a => map to_point (kept year a)) rs in
  {| series_year := year; count := Z.of_nat (length prices); prices := prices |}.

End Script.
End GraphQL.

(** ** [fetch_energyzero_rest.py]: the whole year in one REST request *)

Module Rest.

(** One element of [data['Prices']]: [readingDate], parsed to its Instant,
    and the price in EUR/kWh. *)
Record reading := { readingDate : Z; price : float }.

(** The [fromDate] and [tillDate] parameters of the request. *)
Record query := { fromDate : string; tillDate : string }.

(** What [session.get] does: it raises, or it answers with a status and,
    as the body, the list under ['Prices']. *)
Inductive response :=
| ClientError
| Answer (status : Z) (Prices : list reading).

Section Script.

Variable astimezone : Z -> datetime.
Variable get : list query -> query -> response.
Variable int : string -> option Z.

(** The body of [for entry in data['Prices']]. *)
Definition convert (year : Z) (prices : list PricePoint) (entry : reading)
  : list PricePoint :=
  let utc_dt := readingDate entry in
  let local_dt := astimezone utc_dt in
  if negb (DateTime.year local_dt =? year) then prices
  else
    prices ++ [{| timestamp := strftime local_dt;
                  price_mwh := round1 (PrimFloat.mul (price entry) 1000) |}].

(** [fetch_year_rest].  The report of incomplete days, between the sort
    and the count check, is modelled apart ([RestReport]) and left out
    here: it prints, and it raises for no year of four digits, where the
    hour stands at the places 11 and 12 of every timestamp.  For a year
    below 1000 whose text the platform does not pad, [int] would meet other
    characters there and raise. *)
Definition fetch_year_rest (year : Z) (w : world query)
  : result (option year_series) * world query :=
  let w := print (Started year) w in
  let from_utc := (pretty (year - 1) ++ "-12-31T23:00:00.000Z")%string in
  let till_utc := (pretty year ++ "-12-31T22:59:59.999Z")%string in
  let params := {| fromDate := from_utc; tillDate := till_utc |} in
  match get (requests w) params with
  | ClientError => (Raise, send params w)
  | Answer status Prices =>
      let w := send params w in
      if negb (status =? 200) then (Return None, print (HttpError status) w)
      else
        let prices := fold_left (convert year) Prices [] in
        let prices := sort_by String.ltb timestamp prices in
        let count := Z.of_nat (length prices) in
        let w :=
          if count =? expected_count year
          then print (CountOk (expected_count year)) w
          else if count =? expected_count year - 1
               then print (CountOneLess count (expected_count year)) w
               else print (CountMismatch count (expected_count year)) w in
        (Return (Some {| series_year := year; count := count;
                         prices := prices |}), w)
  end.

(** [main], on [sys.argv[1:]], with the floor of 2015. *)
Definition main (args : list string) (w : world query)
  : status * world query :=
  batch int 2015 fetch_year_rest args w.

(** *** The loop as a function on lists *)

(** What [convert] appends for a record it keeps. *)
Definition to_point (entry : reading) : PricePoint :=
  {| timestamp := strftime (astimezone (readingDate entry));
     price_mwh := round1 (PrimFloat.mul (price entry) 1000) |}.

(** The year filter: [local_dt.year == year]. *)
Definition in_year (year : Z) (entry : reading) : bool :=
  DateTime.year (astimezone (readingDate entry)) =? year.

(** The request for a year. *)
Definition params (year : Z) : query :=
  {| fromDate := (pretty (year - 1) ++ "-12-31T23:00:00.000Z")%string;
     tillDate := (pretty year ++ "-12-31T22:59:59.999Z")%string |}.

(** The points in arrival order, before [prices.sort]. *)
Definition arrived (year : Z) (Prices : list reading) : list PricePoint :=
  map to_point (List.filter (in_year year) Prices).

(** The dictionary [fetch_year_rest] builds from an answer. *)
Definition series (year : Z) (Prices : list reading) : year_series :=
  let prices := sort_by String.ltb timestamp (arrived year Prices) in
  {| series_year := year; count := Z.of_nat (length prices); prices := prices |}.

(** The outcome of the count check, as printed. *)
Definition count_message (year count : Z) : message :=
  if count =? expected_count year then CountOk (expected_count year)
  else if count =? expected_count year - 1
       then CountOneLess count (expected_count year)
       else CountMismatch count (expected_count year).

End Script.
End Rest.

(** ** An instance of [int] for ASCII tokens

    Surrounding white space, an optional sign, then decimal digits that
    single underscores may separate. *)

Definition is_space (c : ascii) : bool :=
  let n := N_of_ascii c in ((9 <=? n) && (n <=? 13) || (n =? 32))%N.

Definition digit_value (c : ascii) : option Z :=
  let n := N_of_ascii c in
  if ((48 <=? n) && (n <=? 57))%N then Some (Z.of_N n - 48) else None.

Fixpoint lstrip (s : list ascii) : list ascii :=
  match s with
  | c :: s' => if is_space c then lstrip s' else s
  | [] => []
  end.

Definition strip (s : list ascii) : list ascii :=
  rev (lstrip (rev (lstrip s))).

(** Digits after the first; [sep] tells that the last character read was
    an underscore. *)
Fixpoint digits (acc : Z) (sep : bool) (s : list ascii) : option Z :=
  match s with
  | [] => if sep then None else Some acc
  | c :: s' =>
      match digit_value c with
      | Some d => digits (10 * acc + d) false s'
      | None =>
          if Ascii.eqb c "_" && negb sep then digits acc true s' else None
      end
  end.

Definition unsigned (s : list ascii) : option Z :=
  match s with
  | c :: s' =>
      match digit_value c with
      | Some d => digits d false s'
      | None => None
      end
  | [] => None
  end.

Definition int_ascii (arg : string) : option Z :=
  match strip (list_ascii_of_string arg) with
  | c :: s =>
      if Ascii.eqb c "-" then option_map Z.opp (unsigned s)
      else if Ascii.eqb c "+" then unsigned s
      else unsigned (c :: s)
  | [] => None
  end.

(** ** Worlds, records and services for the worked examples *)

(** A run that starts with nothing requested, nothing written and nothing
    printed, the output directory in place. *)
Definition fresh {Req : Type} : world Req :=
  {| requests := []; output_dir_exists := true; files := ∅; console := [] |}.

(** A window as two civil dates (year, month, day). *)
Definition window_days (q : GraphQL.window) : (Z * Z * Z) * (Z * Z * Z) :=
  (Calendar.ord2ymd (GraphQL.start_date q), Calendar.ord2ymd (GraphQL.end_date q)).

(** Pairs of consecutive elements. *)
Definition neighbours {A : Type} (l : list A) : list (A * A) :=
  combine l (drop 1 l).

(** The number of distinct Instants in a list. *)
Definition distinct (l : list Z) : nat := length (remove_dups l).

(** The series a per-year function returned, if it returned one. *)
Definition returned {Req : Type}
  (r : result (option year_series) * world Req) : year_series :=
  match fst r with
  | Return (Some s) => s
  | _ => {| series_year := 0; count := 0; prices := [] |}
  end.

Definition hourly (y m d h : Z) (p : float) : GraphQL.timestamp_price :=
  {| GraphQL.start_including := utc_seconds y m d h; GraphQL.price := p |}.

Definition rest_hourly (y m d h : Z) (p : float) : Rest.reading :=
  {| Rest.readingDate := utc_seconds y m d h; Rest.price := p |}.

(** A GraphQL service told what to answer to the window that starts on a
    given day; it answers every other window with no record. *)
Definition answering (table : list (Z * list GraphQL.timestamp_price))
  (h : list GraphQL.window) (q : GraphQL.window)
  : option (list GraphQL.timestamp_price) :=
  match List.find (fun e => fst e =? GraphQL.start_date q) table with
  | Some e => Some (snd e)
  | None => Some []
  end.

(** The service that has no record at all. *)
Definition quiet := answering [].

(** The hour from 23:00 UTC on January 8 (midnight of January 9 in
    Amsterdam) comes with the window that ends on January 8 and again with
    the window that starts on January 9; the two hours of the repeated
    02:00 of October 29 come with the window of that day. *)
Definition boundary_twice := answering
  [ (Calendar.ymd2ord 2023 1 1,
     [hourly 2023 1 8 22 0.25; hourly 2023 1 8 23 0.5]);
    (Calendar.ymd2ord 2023 1 9,
     [hourly 2023 1 8 23 0.5; hourly 2023 1 9 0 0.125]);
    (Calendar.ymd2ord 2023 10 24,
     [hourly 2023 10 29 0 0.0625; hourly 2023 10 29 1 0.375]) ].

(** Two hours of January 2, the later one first. *)
Definition later_first := answering
  [ (Calendar.ymd2ord 2023 1 1,
     [hourly 2023 1 2 11 0.5; hourly 2023 1 2 10 0.25]) ].

(** The last hour of 2022 in Amsterdam comes with the first window of 2023,
    before the first hour of 2023. *)
Definition with_old_year := answering
  [ (Calendar.ymd2ord 2023 1 1,
     [hourly 2022 12 31 22 0.25; hourly 2022 12 31 23 0.5]) ].

(** A service whose call for the window that starts on January 17, 2023
    raises. *)
Definition failing_third (h : list GraphQL.window) (q : GraphQL.window)
  : option (list GraphQL.timestamp_price) :=
  if GraphQL.start_date q =? Calendar.ymd2ord 2023 1 17 then None
  else Some [hourly 2023 1 1 12 0.25].

(** A REST service that answers every request with status 200 and the
    same records. *)
Definition rest_answering (Prices : list Rest.reading)
  (h : list Rest.query) (q : Rest.query) : Rest.response :=
  Rest.Answer 200 Prices.

(** The two hours of the repeated 02:00 of October 29, 2023. *)
Definition fallback_early : Rest.reading := rest_hourly 2023 10 29 0 0.0625.
Definition fallback_late : Rest.reading := rest_hourly 2023 10 29 1 0.375.

(** ** More worlds for the worked examples *)

(** A run that starts without the output directory. *)
Definition without_dir {Req : Type} : world Req :=
  {| requests := []; output_dir_exists := false; files := ∅; console := [] |}.

(** A run that starts with one file in the output directory. *)
Definition with_file {Req : Type} (y : Z) (s : year_series) : world Req :=
  {| requests := []; output_dir_exists := true; files := {[ y := s ]};
     console := [] |}.

(** A series written by an earlier run of 2020. *)
Definition earlier_2020 : year_series :=
  {| series_year := 2020; count := 0; prices := [] |}.

(** A REST service that is down: every request is answered with status
    503 and no record. *)
Definition rest_unavailable (h : list Rest.query) (q : Rest.query)
  : Rest.response :=
  Rest.Answer 503 [].

(** A REST service whose call raises for the request of 2023 and that has
    no record for the other years. *)
Definition rest_raising_2023 (h : list Rest.query) (q : Rest.query)
  : Rest.response :=
  if String.eqb (Rest.fromDate q) "2022-12-31T23:00:00.000Z"
  then Rest.ClientError else Rest.Answer 200 [].

(** ** Further readings of a console *)

(** The years the argument loop warned about. *)
Fixpoint warned (c : list message) : list Z :=
  match c with
  | [] => []
  | WarnNoData y :: c' => y :: warned c'
  | _ :: c' => warned c'
  end.



(** ** The windows of a year in closed form *)


(** ** Date-times as values

    The ranges of the fields, and the order of two date-times, field by
    field from the year down to the second. *)

(** The ranges of the fields of a [datetime] object. *)
Definition fields_in_range (dt : datetime) : Prop :=
  0 <= year dt <= 9999 /\ 1 <= month dt <= 12 /\ 1 <= day dt <= 31
  /\ 0 <= hour dt <= 23 /\ 0 <= minute dt <= 59 /\ 0 <= second dt <= 59.

Definition datetime_compare (a b : datetime) : comparison :=
  match year a ?= year b with
  | Eq =>
      match month a ?= month b with
      | Eq =>
          match day a ?= day b with
          | Eq =>
              match hour a ?= hour b with
              | Eq =>
                  match minute a ?= minute b with
                  | Eq => second a ?= second b
                  | c => c
                  end
              | c => c
              end
          | c => c
          end
      | c => c
      end
  | c => c
  end.

Definition datetime_ltb (a b : datetime) : bool :=
  match datetime_compare a b with Lt => true | _ => false end.

(** ** Counting the hours of each day ([days_by_date]) *)

Section DaysByDate.
Context {V : Type}.

(** [if day not in days_by_date: days_by_date[day] = init], then
    [days_by_date[day] = f(days_by_date[day])], on a dictionary held in
    insertion order. *)
Fixpoint setdefault_update (init : V) (f : V -> V) (day : string)
  (days_by_date : list (string * V)) : list (string * V) :=
  match days_by_date with
  | [] => [(day, f init)]
  | (d, v) :: rest =>
      if String.eqb d day then (d, f v) :: rest
      else (d, v) :: setdefault_update init f day rest
  end.

(** [days_by_date[day]]; [None] is [KeyError]. *)
Fixpoint getitem (day : string) (days_by_date : list (string * V)) : option V :=
  match days_by_date with
  | [] => None
  | (d, v) :: rest => if String.eqb d day then Some v else getitem day rest
  end.

End DaysByDate.

Module GraphQLReport.

Definition days_by_date (prices : list PricePoint) : list (string * Z) :=
  fold_left
    (fun days_by_date p =>
       let day := substring 0 10 (timestamp p) in
       setdefault_update 0 (fun c => c + 1) day days_by_date)
    prices [].

Definition days_23h (prices : list PricePoint) : list string :=
  map fst (List.filter (fun dc => snd dc =? 23) (days_by_date prices)).

Definition days_25h (prices : list PricePoint) : list string :=
  map fst (List.filter (fun dc => snd dc =? 25) (days_by_date prices)).

End GraphQLReport.

Module RestReport.

Definition days_by_date (prices : list PricePoint) : list (string * list string) :=
  fold_left
    (fun days_by_date p =>
       let day := substring 0 10 (timestamp p) in
       setdefault_update [] (fun times => times ++ [timestamp p]) day
         days_by_date)
    prices [].

Definition days_23h (prices : list PricePoint) : list string :=
  map fst (List.filter (fun dt => Z.of_nat (length (snd dt)) =? 23)
             (days_by_date prices)).

Definition days_25h (prices : list PricePoint) : list string :=
  map fst (List.filter (fun dt => Z.of_nat (length (snd dt)) =? 25)
             (days_by_date prices)).

Definition days_incomplete (prices : list PricePoint) : list string :=
  map fst (List.filter (fun dt => Z.of_nat (length (snd dt)) <? 23)
             (days_by_date prices)).

Section Lines.
Variable int : string -> option Z.

(** [sorted(set(range(24)) - {int(t[11:13]) for t in times})]; [None] when
    [int] raises. *)
Definition missing_hours (times : list string) : option (list Z) :=
  match mapM (fun t => int (substring 11 2 t)) times with
  | None => None
  | Some present =>
      Some (List.filter (fun h => negb (existsb (Z.eqb h) present))
              (map Z.of_nat (seq 0 24)))
  end.

(** The lines printed under [Incomplete dagen]: the day, its number of
    entries and the hours it lacks. *)
Definition incomplete_lines (prices : list PricePoint)
  : option (list (string * Z * list Z)) :=
  mapM (fun day =>
          match getitem day (days_by_date prices) with
          | None => None
          | Some times =>
              match missing_hours times with
              | None => None
              | Some missing => Some (day, Z.of_nat (length times), missing)
              end
          end)
       (days_incomplete prices).

End Lines.
End RestReport.

(** The loop that fills [days_by_date], in general: [key] is the day of an
    entry and [f] what the entry does to the value held for its day. *)
Section Tally.
Context {P V : Type} (key : P -> string) (init : V) (f : P -> V -> V).

Definition tally (ps : list P) : list (string * V) :=
  fold_left (fun d p => setdefault_update init (f p) (key p) d) ps [].

End Tally.

(** ** Readings of a series and of an answer by day *)

(** The entries of a series that carry a given date. *)
Definition entries_on (day : string) (prices : list PricePoint)
  : list PricePoint :=
  List.filter (fun p => String.eqb (substring 0 10 (timestamp p)) day) prices.

(** The records of an answer that fall on a day of the target year, the
    day given as its text. *)
Definition readings_on (astimezone : Z -> datetime) (year : Z) (day : string)
  (Prices : list Rest.reading) : list Rest.reading :=
  List.filter
    (fun r => String.eqb
                (substring 0 10 (strftime (astimezone (Rest.readingDate r))))
                day)
    (List.filter (Rest.in_year astimezone year) Prices).

(** The hours from 0 to 23 at which none of the records falls. *)
Definition hours_without (astimezone : Z -> datetime) (l : list Rest.reading)
  : list Z :=
  List.filter
    (fun h => negb (existsb
                      (fun r => h =? hour (astimezone (Rest.readingDate r))) l))
    (map Z.of_nat (seq 0 24)).

(** ** The hours of a year *)

(** The first second of a year, as an Instant. *)
Definition year_start (y : Z) : Z :=
  (Calendar.ymd2ord y 1 1 - EPOCH_ORDINAL) * 86400.

(** The whole hours of a year in Europe/Amsterdam, as Instants. *)
Definition hours_of_year (year : Z) : list Z :=
  map (fun i => utc_seconds (year - 1) 12 31 23 + 3600 * Z.of_nat i)
      (seq 0 (Z.to_nat (expected_count year))).


(** ** [generate_test_data.py]: the synthetic profiles of 2024

    The two power functions draw on Python's global random generator and
    on [math]; they are parameters here, each a function of the date-time,
    of the profile and of the state of the generator.  What is modelled is
    what the script does around them: the hours it walks through, the
    dictionaries it builds and the files it writes.  Its progress lines are
    not modelled. *)

Module Generator.

Definition YEAR : Z := 2024.
Definition HOURS_IN_YEAR : Z := 8784.

(** [dt + timedelta(hours=hours)] on a naive [datetime]: the days and
    seconds are normalised and the date is rebuilt from its ordinal;
    [None] is [OverflowError]. *)
Definition add_hours (dt : datetime) (hours : Z) : option datetime :=
  let seconds :=
    hour dt * 3600 + minute dt * 60 + second dt + hours * 3600 in
  let days :=
    Calendar.ymd2ord (DateTime.year dt) (month dt) (day dt) + seconds / 86400 in
  let seconds := seconds mod 86400 in
  if (0 <? days) && (days <=? Calendar.MAXORDINAL) then
    let '(y, m, d) := Calendar.ord2ymd days in
    Some {| DateTime.year := y; month := m; day := d;
            hour := seconds / 3600; minute := seconds mod 3600 / 60;
            second := seconds mod 60 |}
  else None.

(** [dt.isoformat()] of a naive [datetime] without microseconds. *)
Definition isoformat (dt : datetime) : string := strftime dt.

(** [day_of_year]: [dt.timetuple().tm_yday]. *)
Definition day_of_year (dt : datetime) : Z :=
  Calendar.days_before_month (DateTime.year dt) (month dt) + day dt.

(** [dt.weekday()]: Monday is 0. *)
Definition weekday (dt : datetime) : Z :=
  (Calendar.toordinal
     (Calendar.ymd2ord (DateTime.year dt) (month dt) (day dt)) + 6) mod 7.

(** One element of a profile: [{"timestamp": ..., "kwh": ...}]. *)
Record sample := { timestamp : string; kwh : float }.

(** The dictionary [save_json] writes: ["year"], ["count"], and the data
    under the key [field_name]. *)
Record output := {
  year : Z;
  count : Z;
  field_name : string;
  data : list sample
}.

(** What [main] can touch: whether the directory [data] exists, and the
    content of the files by path. *)
Record disk := { data_dir_exists : bool; files : gmap string output }.

Section Script.

(** The state of Python's global random generator, with what
    [random.seed()] will draw from the system. *)
Context {Random : Type}.

Variable generate_consumption_power :
  datetime -> string -> Random -> float * Random.
Variable generate_solar_power : datetime -> Z -> Random -> float * Random.

(** [for hour_idx in range(HOURS_IN_YEAR)] with its body, the same in
    [generate_consumption_profile] and [generate_solar_profile] but for the
    power function; [None] when an exception escapes. *)
Fixpoint hours_loop (power : datetime -> Random -> float * Random)
  (start_date : datetime) (hours : list Z) (data : list sample) (g : Random)
  : option (list sample * Random) :=
  match hours with
  | [] => Some (data, g)
  | hour_idx :: hours' =>
      match add_hours start_date hour_idx with
      | None => None
      | Some current_time =>
          let timestamp := isoformat current_time in
          let '(kwh, g) := power current_time g in
          hours_loop power start_date hours'
            (data ++ [{| timestamp := timestamp; kwh := kwh |}]) g
      end
  end.

Definition start_date : datetime :=
  {| DateTime.year := YEAR; month := 1; day := 1;
     hour := 0; minute := 0; second := 0 |}.

Definition generate_consumption_profile (profile_name : string) (g : Random)
  : option (list sample * Random) :=
  hours_loop (fun dt => generate_consumption_power dt profile_name)
    start_date (seqZ 0 HOURS_IN_YEAR) [] g.

Definition generate_solar_profile (kwp : Z) (g : Random)
  : option (list sample * Random) :=
  hours_loop (fun dt => generate_solar_power dt kwp)
    start_date (seqZ 0 HOURS_IN_YEAR) [] g.

(** [save_json]: [open(filename, 'w')] raises when the directory is not
    there. *)
Definition save_json (data : list sample) (field_name filename : string)
  (w : disk) : option disk :=
  let output := {| year := YEAR; count := Z.of_nat (length data);
                   field_name := field_name; data := data |} in
  if data_dir_exists w
  then Some {| data_dir_exists := true;
               files := <[filename := output]> (files w) |}
  else None.

(** The keys of [consumption_profiles], in the order of the dictionary. *)
Definition consumption_profiles : list string := ["basis"; "wp"; "ev"; "wp_ev"].

Definition solar_profiles : list Z := [0; 1; 2; 3; 4; 5; 6; 7; 8; 9; 10].

Definition consumption_filename (profile_key : string) : string :=
  ("data/consumption_2024_" ++ profile_key ++ ".json")%string.

Definition solar_filename (kwp : Z) : string :=
  ("data/solar_2024_" ++ pretty kwp ++ "kwp.json")%string.

(** [for profile_key, profile_desc in consumption_profiles.items()]. *)
Fixpoint consumption_loop (keys : list string) (g : Random) (w : disk)
  : option (Random * disk) :=
  match keys with
  | [] => Some (g, w)
  | profile_key :: keys' =>
      match generate_consumption_profile profile_key g with
      | None => None
      | Some (data, g) =>
          match save_json data "consumption"
                  (consumption_filename profile_key) w with
          | None => None
          | Some w => consumption_loop keys' g w
          end
      end
  end.

(** [for kwp in solar_profiles]. *)
Fixpoint solar_loop (kwps : list Z) (g : Random) (w : disk)
  : option (Random * disk) :=
  match kwps with
  | [] => Some (g, w)
  | kwp :: kwps' =>
      match generate_solar_profile kwp g with
      | None => None
      | Some (data, g) =>
          match save_json data "solar" (solar_filename kwp) w with
          | None => None
          | Some w => solar_loop kwps' g w
          end
      end
  end.

Definition main (g : Random) (w : disk) : option (Random * disk) :=
  match consumption_loop consumption_profiles g w with
  | None => None
  | Some (g, w) => solar_loop solar_profiles g w
  end.

End Script.

(** The texts of the hours of 2024, without a clock change: entry [i] is
    hour [i mod 24] of the day [i / 24] days after January 1. *)
Definition hour_text (i : Z) : string :=
  let '(y, m, d) := Calendar.ord2ymd (Calendar.ymd2ord YEAR 1 1 + i / 24) in
  strftime {| DateTime.year := y; month := m; day := d;
              hour := i mod 24; minute := 0; second := 0 |}.

End Generator.

(** What [main] of the generator leaves in a file it writes. *)
Definition profile_file (field : string) (o : Generator.output) : Prop :=
  Generator.year o = Generator.YEAR
  /\ Generator.count o = Generator.HOURS_IN_YEAR
  /\ Generator.field_name o = field
  /\ Z.of_nat (length (Generator.data o)) = Generator.HOURS_IN_YEAR
  /\ map Generator.timestamp (Generator.data o)
     = map Generator.hour_text (seqZ 0 Generator.HOURS_IN_YEAR).


(** The order of two dates (year, month, day), the earlier one first. *)
Definition date_ltb (a b : Z * Z * Z) : bool :=
  let '(y, m, d) := a in
  let '(y', m', d') := b in
  match y ?= y' with
  | Lt => true
  | Gt => false
  | Eq => match m ?= m' with
          | Lt => true
          | Gt => false
          | Eq => d <? d'
          end
  end.

(** * Facts *)

(** ** Facts about a console *)

Lemma runs_app (c1 c2 : list message) : runs (c1 ++ c2) = runs c1 ++ runs c2.
Proof.
  induction c1 as [|m c1 IH]; [reflexivity|].
  destruct m; simpl; rewrite IH; reflexivity.
Qed.

Lemma verdicts_app (c1 c2 : list message) :
  verdicts (c1 ++ c2) = verdicts c1 ++ verdicts c2.
Proof.
  induction c1 as [|m c1 IH]; [reflexivity|].
  destruct m; simpl; rewrite IH; reflexivity.
Qed.

(** ** Facts about the argument loop *)

Section ParseYearsFacts.
Context {Req : Type} (int : string -> option Z) (floor : Z).

(** An unparseable token ends the loop with [sys.exit(1)]; nothing but the
    console has changed by then. *)
Lemma parse_years_invalid (args : list string) :
  forall (years : list Z) (w : world Req),
  (exists arg, arg ∈ args /\ int arg = None) ->
  exists w',
    parse_years int floor args years w = (None, w')
    /\ requests w' = requests w
    /\ files w' = files w
    /\ runs (console w') = runs (console w).
Proof.
  induction args as [|a args IH]; intros years w (arg & Hin & Hnone).
  - apply elem_of_nil in Hin. destruct Hin.
  - simpl. destruct (int a) as [y|] eqn:Ha.
    + apply elem_of_cons in Hin as [->|Hin]; [congruence|].
      destruct (IH (years ++ [y])
                  (if y <? floor then print (WarnNoData y) w else w))
        as (w' & Hp & Hr & Hf & Hc); [exists arg; auto|].
      exists w'. rewrite Hp, Hr, Hf, Hc.
      destruct (y <? floor); simpl; rewrite ?runs_app, ?app_nil_r; auto.
    + eexists; repeat split; simpl. rewrite runs_app, app_nil_r. reflexivity.
Qed.

(** When every token parses, the loop hands on the parsed years in argument
    order, and again only the console has changed. *)
Lemma parse_years_valid (args : list string) :
  forall (years vs : list Z) (w : world Req),
  mapM int args = Some vs ->
  exists w',
    parse_years int floor args years w = (Some (years ++ vs), w')
    /\ requests w' = requests w
    /\ output_dir_exists w' = output_dir_exists w
    /\ files w' = files w
    /\ runs (console w') = runs (console w)
    /\ verdicts (console w') = verdicts (console w).
Proof.
  induction args as [|a args IH]; intros years vs w Hm.
  - injection Hm as <-. exists w. rewrite app_nil_r. repeat split.
  - simpl in Hm. destruct (int a) as [y|] eqn:Ha; [|discriminate Hm].
    simpl in Hm. destruct (mapM int args) as [vs'|] eqn:Hm'; [|discriminate Hm].
    injection Hm as <-. simpl. rewrite Ha.
    destruct (IH (years ++ [y]) vs'
                (if y <? floor then print (WarnNoData y) w else w) eq_refl)
      as (w' & Hp & Hr & Hd & Hf & Hc & Hv).
    exists w'. rewrite Hp, Hr, Hd, Hf, Hc, Hv, <- app_assoc.
    destruct (y <? floor); simpl;
      rewrite ?runs_app, ?verdicts_app, ?app_nil_r; repeat split.
Qed.

End ParseYearsFacts.

(** ** Facts about the per-year loop of [main] *)

Section DriverFacts.
Context {Req : Type} (int : string -> option Z) (floor : Z).
Context (fetch : Z -> world Req -> result (option year_series) * world Req).

(** What the loop needs to know of the per-year function: it only appends
    requests and console lines, the first of which is its [Started], and
    it does not raise for the years that are [safe]. *)
Context (safe : Z -> Prop).
Hypothesis fetch_shape : forall year w,
  exists r ws tail,
    fetch year w
    = (r, {| requests := requests w ++ ws;
             output_dir_exists := output_dir_exists w;
             files := files w;
             console := console w ++ Started year :: tail |})
    /\ runs tail = [] /\ verdicts tail = []
    /\ (safe year -> r <> Raise).


(** With an unparseable token [main] leaves through [sys.exit(1)] having
    sent no request, written no file and started no run. *)
Lemma batch_invalid (args : list string) (w : world Req) :
  (exists arg, arg ∈ args /\ int arg = None) ->
  exists w',
    batch int floor fetch args w = (Exit1, w')
    /\ requests w' = requests w
    /\ files w' = files w
    /\ runs (console w') = runs (console w).
Proof.
  intros Hbad.
  destruct (parse_years_invalid int floor args [] w Hbad)
    as (w' & Hp & Hr & Hf & Hc).
  exists w'. unfold batch. rewrite Hp.
  destruct args as [|a args]; [|auto].
  destruct Hbad as (arg & Hin & _). apply elem_of_nil in Hin. destruct Hin.
Qed.

(** With parseable tokens and the output directory in place, [main] runs
    the loop over the sorted years. *)
Lemma batch_valid (args : list string) (vs : list Z) (w : world Req) :
  mapM int args = Some vs ->
  args <> [] ->
  output_dir_exists w = true ->
  exists w0,
    batch int floor fetch args w = run_years fetch (sorted vs) w0
    /\ requests w0 = requests w
    /\ files w0 = files w
    /\ runs (console w0) = runs (console w)
    /\ verdicts (console w0) = verdicts (console w).
Proof.
  intros Hm Hargs Hdir.
  destruct (parse_years_valid int floor args [] vs w Hm)
    as (w0 & Hp & Hr & Hd & Hf & Hc & Hv).
  exists w0. unfold batch. rewrite Hp. simpl app.
  destruct args as [|a args]; [destruct Hargs; reflexivity|].
  destruct vs as [|v vs].
  - simpl in Hm. destruct (int a); [|discriminate Hm].
    simpl in Hm. destruct (mapM int args); discriminate Hm.
  - rewrite Hd, Hdir. simpl. auto.
Qed.

End DriverFacts.

(** ** The runs of the loop and the files they write *)

Section DriverOutcomes.
Context {Req : Type}.
Context (fetch : Z -> world Req -> result (option year_series) * world Req).
Context (safe : Z -> Prop).
Hypothesis fetch_shape : forall year w,
  exists r ws tail,
    fetch year w
    = (r, {| requests := requests w ++ ws;
             output_dir_exists := output_dir_exists w;
             files := files w;
             console := console w ++ Started year :: tail |})
    /\ runs tail = [] /\ verdicts tail = []
    /\ (safe year -> r <> Raise).


End DriverOutcomes.

(** ** Facts about the stable sort *)

Section StableSortFacts.
Context {A K : Type} (ltb : K -> K -> bool) (key : A -> K).

Lemma insert_by_Permutation (x : A) (l : list A) :
  Permutation (insert_by ltb key x l) (x :: l).
Proof.
  induction l as [|y l IH]; simpl; [reflexivity|].
  destruct (ltb (key y) (key x)); [|reflexivity].
  rewrite IH. apply perm_swap.
Qed.

Lemma sort_by_Permutation (l : list A) : Permutation (sort_by ltb key l) l.
Proof.
  induction l as [|x l IH]; simpl; [reflexivity|].
  rewrite insert_by_Permutation, IH. reflexivity.
Qed.

Lemma sort_by_length (l : list A) : length (sort_by ltb key l) = length l.
Proof. apply Permutation_length, sort_by_Permutation. Qed.

(** Stability: elements none of which is below another keep their order. *)
Lemma insert_by_filter (p : A -> bool) (x : A) (l : list A) :
  (forall a b, p a = true -> p b = true -> ltb (key b) (key a) = false) ->
  List.filter p (insert_by ltb key x l) = List.filter p (x :: l).
Proof.
  intros Hp. induction l as [|y l IH]; [reflexivity|].
  simpl insert_by. destruct (ltb (key y) (key x)) eqn:E; [|reflexivity].
  simpl in *. rewrite IH.
  destruct (p x) eqn:Hx, (p y) eqn:Hy; try reflexivity.
  rewrite (Hp x y Hx Hy) in E. discriminate E.
Qed.

Lemma sort_by_filter (p : A -> bool) (l : list A) :
  (forall a b, p a = true -> p b = true -> ltb (key b) (key a) = false) ->
  List.filter p (sort_by ltb key l) = List.filter p l.
Proof.
  intros Hp. induction l as [|x l IH]; [reflexivity|].
  simpl sort_by. rewrite insert_by_filter by exact Hp.
  simpl. rewrite IH. reflexivity.
Qed.

(** Order: no element is followed by one with a smaller key. *)
Lemma insert_by_Sorted (x : A) (l : list A) :
  (forall a b, ltb a b = true -> ltb b a = false) ->
  Sorted (fun a b => ltb (key b) (key a) = false) l ->
  Sorted (fun a b => ltb (key b) (key a) = false) (insert_by ltb key x l).
Proof.
  intros Hasym. induction 1 as [|y l Hl IH Hhd]; simpl.
  - repeat constructor.
  - destruct (ltb (key y) (key x)) eqn:E.
    + constructor; [exact IH|].
      destruct Hhd as [|z l Hz]; simpl.
      * constructor. apply Hasym, E.
      * destruct (ltb (key z) (key x)); constructor; [exact Hz|apply Hasym, E].
    + repeat constructor; assumption.
Qed.

Lemma sort_by_Sorted (l : list A) :
  (forall a b, ltb a b = true -> ltb b a = false) ->
  Sorted (fun a b => ltb (key b) (key a) = false) (sort_by ltb key l).
Proof.
  intros Hasym. induction l as [|x l IH]; simpl.
  - constructor.
  - apply insert_by_Sorted; assumption.
Qed.

End StableSortFacts.

Lemma string_ltb_asym (a b : string) :
  String.ltb a b = true -> String.ltb b a = false.
Proof.
  unfold String.ltb. rewrite (String.compare_antisym a b).
  destruct (String.compare b a); simpl; congruence.
Qed.

Lemma string_ltb_irrefl (a : string) : String.ltb a a = false.
Proof.
  destruct (String.ltb a a) eqn:E; [|reflexivity].
  rewrite (string_ltb_asym a a E) in E. discriminate E.
Qed.

Lemma Sorted_weaken {A : Type} (R S : A -> A -> Prop) (l : list A) :
  (forall a b, R a b -> S a b) -> Sorted R l -> Sorted S l.
Proof.
  intros HRS. induction 1 as [|x l Hl IH Hhd]; constructor; [exact IH|].
  destruct Hhd; constructor. apply HRS. assumption.
Qed.

Lemma sorted_Sorted (years : list Z) : Sorted Z.le (sorted years).
Proof.
  unfold sorted.
  apply (Sorted_weaken (fun a b => Z.ltb (id b) (id a) = false)).
  - unfold id. intros a b H. apply Z.ltb_ge in H. exact H.
  - apply (sort_by_Sorted Z.ltb id).
    intros a b H. apply Z.ltb_lt in H. apply Z.ltb_ge. lia.
Qed.

Lemma sorted_Permutation (years : list Z) : Permutation (sorted years) years.
Proof. apply sort_by_Permutation. Qed.


(** ** Facts about the calendar *)

Lemma date_jan1 (y : Z) :
  Calendar.MINYEAR <= y <= Calendar.MAXYEAR ->
  Calendar.date y 1 1 = Some (Calendar.ymd2ord y 1 1).
Proof.
  unfold Calendar.date, Calendar.MINYEAR, Calendar.MAXYEAR. intros [H1 H2].
  apply Z.leb_le in H1, H2. rewrite H1, H2. reflexivity.
Qed.

Lemma date_dec31 (y : Z) :
  Calendar.MINYEAR <= y <= Calendar.MAXYEAR ->
  Calendar.date y 12 31 = Some (Calendar.ymd2ord y 12 31).
Proof.
  unfold Calendar.date, Calendar.MINYEAR, Calendar.MAXYEAR. intros [H1 H2].
  apply Z.leb_le in H1, H2. rewrite H1, H2. reflexivity.
Qed.

Lemma dec31_after_jan1 (y : Z) :
  Calendar.ymd2ord y 12 31 =
  Calendar.ymd2ord y 1 1 + (if Calendar.is_leap y then 365 else 364).
Proof.
  unfold Calendar.ymd2ord, Calendar.days_before_month. simpl.
  destruct (Calendar.is_leap y); lia.
Qed.

Lemma jan1_positive (y : Z) :
  Calendar.MINYEAR <= y -> 1 <= Calendar.ymd2ord y 1 1.
Proof.
  unfold Calendar.MINYEAR, Calendar.ymd2ord, Calendar.days_before_year,
    Calendar.days_before_month. simpl. intros Hy.
  Z.div_mod_to_equations. lia.
Qed.

Lemma dec31_bound (y : Z) :
  y <= Calendar.MAXYEAR ->
  Calendar.ymd2ord y 12 31 <= Calendar.MAXORDINAL
  /\ (Calendar.ymd2ord y 12 31 <? Calendar.MAXORDINAL) = (y <? Calendar.MAXYEAR).
Proof.
  unfold Calendar.MAXYEAR, Calendar.MAXORDINAL. intros Hy.
  rewrite dec31_after_jan1.
  unfold Calendar.ymd2ord, Calendar.days_before_year,
    Calendar.days_before_month, Calendar.is_leap. simpl.
  destruct (Z.ltb_spec y 9999) as [Hlt|Hge].
  - assert (H : (y mod 4 =? 0) && negb (y mod 100 =? 0) || (y mod 400 =? 0) = true
                -> y <= 9996).
    { intros H. apply orb_true_iff in H as [H|H].
      - apply andb_true_iff in H as [H _]. apply Z.eqb_eq in H.
        Z.div_mod_to_equations. lia.
      - apply Z.eqb_eq in H. Z.div_mod_to_equations. lia. }
    destruct ((y mod 4 =? 0) && negb (y mod 100 =? 0) || (y mod 400 =? 0)).
    + specialize (H eq_refl). split; [|apply Z.ltb_lt];
        Z.div_mod_to_equations; lia.
    + clear H. split; [|apply Z.ltb_lt]; Z.div_mod_to_equations; lia.
  - assert (y = 9999) by lia. subst y. split; reflexivity.
Qed.

(** ** Facts about counting distinct Instants *)

Lemma distinct_NoDup (l : list Z) : NoDup l -> distinct l = length l.
Proof.
  unfold distinct. induction 1 as [|x l Hx Hl IH]; [reflexivity|].
  simpl. destruct (decide_rel elem_of x l) as [Hin|_]; [destruct (Hx Hin)|].
  simpl. rewrite IH. reflexivity.
Qed.

Lemma distinct_le (l k : list Z) :
  (forall x, x ∈ l -> x ∈ k) -> (distinct l <= length k)%nat.
Proof.
  intros Hsub. unfold distinct. apply submseteq_length, NoDup_submseteq.
  - apply NoDup_remove_dups.
  - intros x Hx. apply Hsub, elem_of_remove_dups, Hx.
Qed.

(** ** The expected count and the length of the year *)

Lemma expected_count_is_leap (year : Z) :
  expected_count year = (if Calendar.is_leap year then 366 else 365) * 24.
Proof. reflexivity. Qed.

(** The leap-year test agrees with the calendar: a year has 366 days, from
    its January 1 to the next, exactly when the test holds. *)
Lemma days_of_year (year : Z) :
  Calendar.ymd2ord (year + 1) 1 1 - Calendar.ymd2ord year 1 1
  = if Calendar.is_leap year then 366 else 365.
Proof.
  unfold Calendar.ymd2ord, Calendar.days_before_year,
    Calendar.days_before_month, Calendar.is_leap. simpl.
  replace (year + 1 - 1) with year by lia.
  destruct (Z.eqb_spec (year mod 4) 0) as [H4|H4];
    destruct (Z.eqb_spec (year mod 100) 0) as [H100|H100];
    destruct (Z.eqb_spec (year mod 400) 0) as [H400|H400]; simpl;
    Z.div_mod_to_equations; lia.
Qed.

(** ** Facts about [fetch_energyzero_data.py] *)

Module GraphQLFacts.
Import GraphQL.

Section Facts.

Variable astimezone : Z -> datetime.
Variable get_electricity_prices :
  list window -> window -> option (list timestamp_price).

Local Abbreviation convert := (GraphQL.convert astimezone).
Local Abbreviation week := (GraphQL.week astimezone get_electricity_prices).
Local Abbreviation weeks := (GraphQL.weeks astimezone get_electricity_prices).
Local Abbreviation fetch_year :=
  (GraphQL.fetch_year astimezone get_electricity_prices).
Local Abbreviation to_point := (GraphQL.to_point astimezone).
Local Abbreviation in_year := (GraphQL.in_year astimezone).
Local Abbreviation kept := (GraphQL.kept astimezone).
Local Abbreviation answers := (GraphQL.answers get_electricity_prices).
Local Abbreviation issued := (GraphQL.issued get_electricity_prices).
Local Abbreviation series := (GraphQL.series astimezone).

Lemma weeks_step year end_of_year current_date prices w :
  weeks year end_of_year current_date prices w =
  if current_date <=? end_of_year then
    match week year end_of_year current_date prices w with
    | inl (next, prices', w') => weeks year end_of_year next prices' w'
    | inr r => r
    end
  else (Return (Some prices), w).
Proof.
  funelim (weeks year end_of_year current_date prices w).
  all: repeat match goal with
       | H : (_ <=? _) = _ |- _ => rewrite H
       | H : week _ _ _ _ _ = _ |- _ => rewrite H
       end; reflexivity.
Qed.

Lemma plan_step end_of_year current_date :
  plan end_of_year current_date =
  if current_date <=? end_of_year then
    {| start_date := current_date;
       end_date := Z.min (current_date + 7) end_of_year |}
    :: plan end_of_year (Z.min (current_date + 7) end_of_year + 1)
  else [].
Proof.
  funelim (plan end_of_year current_date).
  all: repeat match goal with
       | H : (_ <=? _) = _ |- _ => rewrite H
       end; reflexivity.
Qed.

Lemma world_eq (w1 w2 : world window) :
  requests w1 = requests w2 ->
  output_dir_exists w1 = output_dir_exists w2 ->
  files w1 = files w2 ->
  console w1 = console w2 ->
  w1 = w2.
Proof.
  destruct w1, w2; simpl; intros; subst; reflexivity.
Qed.

Lemma fold_convert year l : forall last_utc prices,
  snd (fold_left (convert year) l (last_utc, prices)) =
  prices ++ map to_point (drop_repeats last_utc (List.filter (in_year year) l)).
Proof.
  induction l as [|p l IH]; intros last_utc prices; simpl.
  - symmetry; apply app_nil_r.
  - unfold in_year at 1.
    destruct (DateTime.year (astimezone (start_including p)) =? year); simpl.
    + destruct (match last_utc with
                | Some u => start_including p =? u
                | None => false
                end); simpl.
      * apply IH.
      * rewrite IH, <- app_assoc. reflexivity.
    + apply IH.
Qed.

Lemma weeks_spec year end_of_year (n : nat) :
  forall current_date prices w,
  Z.to_nat (end_of_year + 1 - current_date) = n ->
  1 <= current_date <= end_of_year ->
  end_of_year <= Calendar.MAXORDINAL ->
  weeks year end_of_year current_date prices w =
  match answers (requests w) (plan end_of_year current_date) with
  | None =>
      (Return None,
       {| requests :=
            requests w ++ issued (requests w) (plan end_of_year current_date);
          output_dir_exists := output_dir_exists w;
          files := files w;
          console := console w ++ [FetchError] |})
  | Some rs =>
      (if end_of_year <? Calendar.MAXORDINAL
       then Return (Some (prices
                          ++ flat_map (fun a => map to_point (kept year a)) rs))
       else Raise,
       {| requests := requests w ++ plan end_of_year current_date;
          output_dir_exists := output_dir_exists w;
          files := files w;
          console := console w |})
  end.
Proof.
  induction n as [n IH] using lt_wf_ind.
  intros cur prices w Hn Hcur Hmax.
  rewrite weeks_step, plan_step.
  destruct (Z.leb_spec cur end_of_year) as [_|?]; [|lia].
  unfold week, Calendar.toordinal, Calendar.fromordinal.
  set (e := Z.min (cur + 7) end_of_year).
  assert (He : cur <= e <= end_of_year) by (unfold e; lia).
  destruct (Z.leb_spec 1 e) as [_|?]; [|lia].
  destruct (Z.leb_spec e Calendar.MAXORDINAL) as [_|?]; [|lia].
  simpl andb. cbv iota.
  simpl answers. simpl issued.
  destruct (get_electricity_prices (requests w)
              {| start_date := cur; end_date := e |}) as [a|] eqn:Hget.
  2: { f_equal. }
  rewrite fold_convert. fold (kept year a).
  destruct (Z.leb_spec 1 (e + 1)) as [_|?]; [|lia].
  destruct (Z.leb_spec (e + 1) Calendar.MAXORDINAL) as [Hnext|Hnext]; simpl andb; cbv iota.
  - destruct (Z_le_gt_dec (e + 1) end_of_year) as [Hmore|Hlast].
    + rewrite (IH (Z.to_nat (end_of_year + 1 - (e + 1)))); [|lia|reflexivity|lia|lia].
      simpl requests.
      destruct (answers (requests w ++ [{| start_date := cur; end_date := e |}])
                  (plan end_of_year (e + 1))) as [rs|].
      * f_equal.
        -- destruct (end_of_year <? Calendar.MAXORDINAL); [|reflexivity].
           simpl. rewrite <- app_assoc. reflexivity.
        -- apply world_eq; simpl; try reflexivity.
           rewrite <- app_assoc. reflexivity.
      * f_equal. apply world_eq; simpl; try reflexivity.
        rewrite <- app_assoc. reflexivity.
    + rewrite weeks_step, (plan_step end_of_year (e + 1)).
      destruct (Z.leb_spec (e + 1) end_of_year) as [?|_]; [lia|].
      simpl.
      destruct (Z.ltb_spec end_of_year Calendar.MAXORDINAL) as [_|?]; [|lia].
      rewrite app_nil_r. reflexivity.
  - rewrite (plan_step end_of_year (e + 1)).
    destruct (Z.leb_spec (e + 1) end_of_year) as [?|_]; [lia|].
    simpl.
    destruct (Z.ltb_spec end_of_year Calendar.MAXORDINAL) as [?|_]; [lia|].
    reflexivity.
Qed.

Lemma fetch_year_spec year w :
  Calendar.MINYEAR <= year <= Calendar.MAXYEAR ->
  fetch_year year w =
  match answers (requests w) (year_plan year) with
  | None =>
      (Return None,
       {| requests := requests w ++ issued (requests w) (year_plan year);
          output_dir_exists := output_dir_exists w;
          files := files w;
          console := console w ++ [Started year; FetchError] |})
  | Some rs =>
      if year <? Calendar.MAXYEAR then
        (Return (Some (series year rs)),
         {| requests := requests w ++ year_plan year;
            output_dir_exists := output_dir_exists w;
            files := files w;
            console := console w
                       ++ [Started year;
                           count_message year (count (series year rs))] |})
      else
        (Raise,
         {| requests := requests w ++ year_plan year;
            output_dir_exists := output_dir_exists w;
            files := files w;
            console := console w ++ [Started year] |})
  end.
Proof.
  intros Hy. unfold fetch_year.
  rewrite (date_jan1 year Hy), (date_dec31 year Hy).
  pose proof (jan1_positive year (proj1 Hy)) as Hjan.
  pose proof (dec31_after_jan1 year) as Hdec.
  destruct (dec31_bound year (proj2 Hy)) as [Hmax Hlt].
  rewrite (weeks_spec year _ _ _ [] _ eq_refl);
    [|destruct (Calendar.is_leap year); lia|exact Hmax].
  fold (year_plan year). simpl requests.
  destruct (answers (requests w) (year_plan year)) as [rs|].
  - rewrite Hlt. destruct (year <? Calendar.MAXYEAR).
    + simpl app. fold (series year rs). unfold count_message, series at 2. simpl count.
      destruct (Z.of_nat
                  (length (flat_map (fun a => map to_point (kept year a)) rs))
                =? expected_count year);
        (f_equal; apply world_eq; simpl; try reflexivity;
         rewrite <- app_assoc; reflexivity).
    + f_equal.
  - f_equal. apply world_eq; simpl; try reflexivity.
    rewrite <- app_assoc. reflexivity.
Qed.

Lemma fetch_year_out_of_range year w :
  ~ (Calendar.MINYEAR <= year <= Calendar.MAXYEAR) ->
  fetch_year year w = (Raise, print (Started year) w).
Proof.
  intros Hy. unfold fetch_year, Calendar.date, Calendar.MINYEAR, Calendar.MAXYEAR in *.
  destruct (Z.leb_spec 1 year), (Z.leb_spec year 9999); simpl; try reflexivity.
  lia.
Qed.

(** *** The windows of the planner *)









Lemma answers_always (h ws : list window) :
  (forall h q, get_electricity_prices h q <> None) ->
  answers h ws <> None /\ issued h ws = ws.
Proof.
  intros Hget. revert h. induction ws as [|q ws IH]; intros h; simpl.
  - split; [discriminate|reflexivity].
  - destruct (get_electricity_prices h q) eqn:E; [|destruct (Hget _ _ E)].
    destruct (IH (h ++ [q])) as [Hans Hiss].
    destruct (answers (h ++ [q]) ws); [|destruct Hans; reflexivity].
    split; [discriminate|rewrite Hiss; reflexivity].
Qed.

(** *** What the [last_utc] test keeps *)

Lemma drop_repeats_length last_utc l :
  (length (drop_repeats last_utc l) <= length l)%nat.
Proof.
  revert last_utc. induction l as [|p l IH]; intros last_utc; simpl; [lia|].
  destruct (match last_utc with
            | Some u => start_including p =? u
            | None => false
            end); simpl.
  - specialize (IH last_utc). lia.
  - specialize (IH (Some (start_including p))). lia.
Qed.

(** A record is skipped only when its Instant is already kept. *)
Lemma drop_repeats_instants last_utc l p :
  p ∈ l ->
  start_including p ∈ map start_including (drop_repeats last_utc l)
  \/ last_utc = Some (start_including p).
Proof.
  revert last_utc. induction l as [|x l IH]; intros last_utc Hin.
  - apply elem_of_nil in Hin. destruct Hin.
  - simpl.
    destruct (match last_utc with
              | Some u => start_including x =? u
              | None => false
              end) eqn:E.
    + apply elem_of_cons in Hin as [->|Hin]; [|apply IH; exact Hin].
      right. destruct last_utc as [u|]; [|discriminate E].
      apply Z.eqb_eq in E. rewrite E. reflexivity.
    + left. simpl. apply elem_of_cons in Hin as [->|Hin].
      * apply list_elem_of_here.
      * destruct (IH (Some (start_including x)) Hin) as [H|H].
        -- apply list_elem_of_further. exact H.
        -- injection H as ->. apply list_elem_of_here.
Qed.

(** Records with pairwise distinct Instants are all kept. *)
Lemma drop_repeats_NoDup last_utc l :
  (forall u, last_utc = Some u -> u ∉ map start_including l) ->
  NoDup (map start_including l) ->
  drop_repeats last_utc l = l.
Proof.
  revert last_utc. induction l as [|x l IH]; intros last_utc Hlast Hnd;
    [reflexivity|].
  simpl in *. apply NoDup_cons in Hnd as [Hx Hnd].
  destruct (match last_utc with
            | Some u => start_including x =? u
            | None => false
            end) eqn:E.
  - destruct last_utc as [u|]; [|discriminate E].
    apply Z.eqb_eq in E. destruct (Hlast u eq_refl).
    rewrite E. apply list_elem_of_here.
  - f_equal. apply IH; [|exact Hnd].
    intros u [= <-]. exact Hx.
Qed.

(** Two records kept one after the other never have the same Instant. *)
Lemma drop_repeats_adjacent last_utc l (i : nat) a b :
  drop_repeats last_utc l !! i = Some a ->
  drop_repeats last_utc l !! S i = Some b ->
  start_including a <> start_including b.
Proof.
  assert (Hhead : forall l last_utc x,
            head (drop_repeats last_utc l) = Some x ->
            last_utc <> Some (start_including x)).
  { clear. induction l as [|p l IH]; intros last_utc x; simpl; [discriminate|].
    destruct last_utc as [u|]; [|discriminate].
    destruct (Z.eqb_spec (start_including p) u) as [_|Hne].
    - apply IH.
    - simpl. intros Hx Hu. injection Hx as <-. injection Hu as Hu.
      apply Hne. symmetry. exact Hu. }
  revert last_utc i. induction l as [|p l IH]; intros last_utc i; simpl;
    [discriminate|].
  destruct (match last_utc with
            | Some u => start_including p =? u
            | None => false
            end).
  - apply IH.
  - destruct i as [|i]; simpl.
    + intros [= <-] Hb Heq.
      apply (Hhead l (Some (start_including p)) b).
      * rewrite head_lookup. exact Hb.
      * rewrite Heq. reflexivity.
    + apply IH.
Qed.

Lemma kept_length year l :
  (length (kept year l) <= length (List.filter (in_year year) l))%nat.
Proof. apply drop_repeats_length. Qed.

Lemma filter_concat year (rs : list (list timestamp_price)) :
  List.filter (in_year year) (concat rs)
  = flat_map (List.filter (in_year year)) rs.
Proof.
  induction rs as [|a rs IH]; simpl; [reflexivity|].
  rewrite List.filter_app, IH. reflexivity.
Qed.

Lemma series_prices year rs :
  prices (series year rs) = map to_point (flat_map (kept year) rs).
Proof.
  unfold series. simpl. induction rs as [|a rs IH]; simpl; [reflexivity|].
  rewrite map_app, IH. reflexivity.
Qed.

Lemma series_count year rs :
  count (series year rs) = Z.of_nat (length (flat_map (kept year) rs)).
Proof.
  change (count (series year rs))
    with (Z.of_nat (length (prices (series year rs)))).
  rewrite series_prices, length_map. reflexivity.
Qed.

Lemma kept_all_length year rs :
  (length (flat_map (kept year) rs)
   <= length (List.filter (in_year year) (concat rs)))%nat.
Proof.
  rewrite filter_concat. induction rs as [|a rs IH]; simpl; [lia|].
  rewrite !length_app. pose proof (kept_length year a). lia.
Qed.

Lemma kept_all_instants year rs u :
  u ∈ map start_including (List.filter (in_year year) (concat rs)) ->
  u ∈ map start_including (flat_map (kept year) rs).
Proof.
  rewrite filter_concat. induction rs as [|a rs IH]; simpl; [auto|].
  rewrite !map_app, !elem_of_app. intros [H|H]; [left|right; auto].
  apply list_elem_of_fmap in H as (p & -> & Hp).
  destruct (drop_repeats_instants None _ p Hp) as [H|H];
    [exact H|discriminate H].
Qed.

Lemma kept_all_NoDup year rs :
  NoDup (map start_including (List.filter (in_year year) (concat rs))) ->
  flat_map (kept year) rs = List.filter (in_year year) (concat rs).
Proof.
  rewrite filter_concat. induction rs as [|a rs IH]; simpl; [reflexivity|].
  rewrite map_app. intros Hnd. apply NoDup_app in Hnd as (Ha & _ & Hrs).
  rewrite (IH Hrs). f_equal.
  apply drop_repeats_NoDup; [discriminate|exact Ha].
Qed.

(** A kept record is a fetched record. *)
Lemma drop_repeats_subset last_utc l p :
  p ∈ drop_repeats last_utc l -> p ∈ l.
Proof.
  revert last_utc. induction l as [|x l IH]; intros last_utc; simpl;
    [auto|].
  destruct (match last_utc with
            | Some u => start_including x =? u
            | None => false
            end).
  - intros H. apply list_elem_of_further, (IH _ H).
  - intros H. apply elem_of_cons in H as [->|H].
    + apply list_elem_of_here.
    + apply list_elem_of_further, (IH _ H).
Qed.

Lemma kept_all_subset year rs p :
  p ∈ flat_map (kept year) rs -> p ∈ concat rs.
Proof.
  induction rs as [|a rs IH]; simpl; [auto|].
  rewrite !elem_of_app. intros [H|H]; [left|right; auto].
  apply drop_repeats_subset in H.
  apply list_elem_of_In, List.filter_In in H as [H _].
  apply list_elem_of_In. exact H.
Qed.

(** *** A call that raises *)

Lemma a_fetch_fails (ws : list window) : forall (h : list window) (i : nat) q,
  ws !! i = Some q ->
  get_electricity_prices (h ++ take i ws) q = None ->
  answers h ws = None.
Proof.
  induction ws as [|q0 ws IH]; intros h i q Hq Hnone; [discriminate Hq|].
  simpl. destruct (get_electricity_prices h q0) as [a|] eqn:E; [|reflexivity].
  destruct i as [|i]; simpl in Hq, Hnone.
  - injection Hq as <-. rewrite app_nil_r in Hnone. congruence.
  - rewrite (IH (h ++ [q0]) i q Hq); [reflexivity|].
    rewrite <- app_assoc. exact Hnone.
Qed.

(** *** The per-year loop of [main] *)

(** Whatever happens, a run of [fetch_year] only appends requests and
    console lines, the first of which is its [Started]; it raises only for
    a year [date] refuses or for the last supported year. *)
Lemma fetch_year_shape year w :
  exists r ws tail,
    fetch_year year w
    = (r, {| requests := requests w ++ ws;
             output_dir_exists := output_dir_exists w;
             files := files w;
             console := console w ++ Started year :: tail |})
    /\ runs tail = [] /\ verdicts tail = []
    /\ (Calendar.MINYEAR <= year < Calendar.MAXYEAR -> r <> Raise).
Proof.
  destruct (decide (Calendar.MINYEAR <= year <= Calendar.MAXYEAR)) as [Hy|Hy].
  - rewrite (fetch_year_spec year w Hy).
    destruct (answers (requests w) (year_plan year)) as [rs|].
    + destruct (Z.ltb_spec year Calendar.MAXYEAR) as [Hlt|Hge].
      * eexists _, _, [_]; split; [reflexivity|].
        unfold count_message.
        destruct (count (series year rs) =? expected_count year);
          repeat split; solve [reflexivity | intros _; discriminate].
      * eexists _, _, []; split; [reflexivity|]. repeat split. lia.
    + eexists _, _, [_]; split; [reflexivity|].
      repeat split; solve [reflexivity | intros _; discriminate].
  - rewrite (fetch_year_out_of_range year w Hy).
    exists Raise, [], []. split; [|repeat split; lia].
    unfold print. rewrite app_nil_r. reflexivity.
Qed.

(** A series is returned exactly when every window was answered, and it is
    then the one built from the answers. *)
Lemma fetch_year_returns year w s w' :
  fetch_year year w = (Return (Some s), w') ->
  exists rs,
    answers (requests w) (year_plan year) = Some rs /\ s = series year rs.
Proof.
  destruct (decide (Calendar.MINYEAR <= year <= Calendar.MAXYEAR)) as [Hy|Hy].
  - rewrite (fetch_year_spec year w Hy).
    destruct (answers (requests w) (year_plan year)) as [rs|];
      [|discriminate].
    destruct (year <? Calendar.MAXYEAR); [|discriminate].
    intros H. exists rs. split; [reflexivity|]. congruence.
  - rewrite (fetch_year_out_of_range year w Hy). discriminate.
Qed.


(** For 9999 the step past December 31 raises after the last answer. *)
Lemma fetch_year_last_year w :
  (forall h q, get_electricity_prices h q <> None) ->
  fst (fetch_year Calendar.MAXYEAR w) = Raise.
Proof.
  intros Hget.
  rewrite (fetch_year_spec Calendar.MAXYEAR w);
    [|unfold Calendar.MINYEAR, Calendar.MAXYEAR; lia].
  destruct (answers_always (requests w) (year_plan Calendar.MAXYEAR) Hget)
    as [Hans _].
  destruct (answers (requests w) (year_plan Calendar.MAXYEAR));
    [reflexivity|destruct Hans; reflexivity].
Qed.


End Facts.
End GraphQLFacts.

(** ** Facts about [fetch_energyzero_rest.py] *)

Module RestFacts.
Import Rest.

Section Facts.

Variable astimezone : Z -> datetime.
Variable get : list query -> query -> response.

Local Abbreviation convert := (Rest.convert astimezone).
Local Abbreviation fetch_year_rest := (Rest.fetch_year_rest astimezone get).
Local Abbreviation to_point := (Rest.to_point astimezone).
Local Abbreviation in_year := (Rest.in_year astimezone).
Local Abbreviation arrived := (Rest.arrived astimezone).
Local Abbreviation series := (Rest.series astimezone).

Lemma fold_convert_rest year l : forall prices,
  fold_left (convert year) l prices = prices ++ arrived year l.
Proof.
  unfold arrived.
  induction l as [|e l IH]; intros prices; simpl.
  - symmetry; apply app_nil_r.
  - unfold convert at 2, in_year at 1.
    destruct (DateTime.year (astimezone (readingDate e)) =? year); simpl.
    + rewrite IH, <- app_assoc. reflexivity.
    + apply IH.
Qed.

Lemma fetch_year_rest_spec year w :
  fetch_year_rest year w =
  match get (requests w) (params year) with
  | ClientError =>
      (Raise,
       {| requests := requests w ++ [params year];
          output_dir_exists := output_dir_exists w;
          files := files w;
          console := console w ++ [Started year] |})
  | Answer status Prices =>
      if status =? 200 then
        (Return (Some (series year Prices)),
         {| requests := requests w ++ [params year];
            output_dir_exists := output_dir_exists w;
            files := files w;
            console := console w
                       ++ [Started year;
                           count_message year (count (series year Prices))] |})
      else
        (Return None,
         {| requests := requests w ++ [params year];
            output_dir_exists := output_dir_exists w;
            files := files w;
            console := console w ++ [Started year; HttpError status] |})
  end.
Proof.
  unfold fetch_year_rest. fold (params year). simpl requests.
  destruct (get (requests w) (params year)) as [|status Prices]; [reflexivity|].
  destruct (status =? 200); simpl negb; cbv iota.
  - rewrite fold_convert_rest. simpl app. fold (series year Prices).
    unfold count_message, series at 2. simpl count.
    destruct (Z.of_nat
                (length (sort_by String.ltb timestamp (arrived year Prices)))
              =? expected_count year).
    + f_equal. unfold print, send; simpl. rewrite <- app_assoc. reflexivity.
    + destruct (Z.of_nat
                  (length (sort_by String.ltb timestamp (arrived year Prices)))
                =? expected_count year - 1);
        f_equal; unfold print, send; simpl; rewrite <- app_assoc; reflexivity.
  - f_equal. unfold print, send; simpl. rewrite <- app_assoc. reflexivity.
Qed.

Lemma fetch_year_rest_shape year w :
  exists r ws tail,
    fetch_year_rest year w
    = (r, {| requests := requests w ++ ws;
             output_dir_exists := output_dir_exists w;
             files := files w;
             console := console w ++ Started year :: tail |})
    /\ runs tail = [] /\ verdicts tail = []
    /\ ((forall h q, get h q <> ClientError) -> r <> Raise).
Proof.
  rewrite fetch_year_rest_spec.
  destruct (get (requests w) (params year)) as [|status Prices] eqn:E.
  - eexists _, _, []; split; [reflexivity|]. repeat split.
    intros H. destruct (H _ _ E).
  - destruct (status =? 200).
    + eexists _, _, [_]; split; [reflexivity|]. unfold count_message.
      repeat case_match;
        repeat split; solve [reflexivity | intros _; discriminate].
    + eexists _, _, [_]; split; [reflexivity|].
      repeat split; solve [reflexivity | intros _; discriminate].
Qed.

Lemma series_Permutation year Prices :
  Permutation (prices (series year Prices)) (arrived year Prices).
Proof. apply sort_by_Permutation. Qed.

Lemma series_count_rest year Prices :
  count (series year Prices)
  = Z.of_nat (length (List.filter (in_year year) Prices)).
Proof.
  unfold series, arrived. simpl. rewrite sort_by_length, length_map.
  reflexivity.
Qed.

(** A series is returned exactly when the service answers with status
    200, and it is then the one built from the answer. *)
Lemma fetch_year_rest_returns year w s w' :
  fetch_year_rest year w = (Return (Some s), w') ->
  exists Prices,
    get (requests w) (params year) = Answer 200 Prices
    /\ s = series year Prices.
Proof.
  rewrite fetch_year_rest_spec.
  destruct (get (requests w) (params year)) as [|status Prices];
    [discriminate|].
  destruct (Z.eqb_spec status 200) as [->|_]; [|discriminate].
  intros H. exists Prices. split; [reflexivity|]. congruence.
Qed.

End Facts.
End RestFacts.

(** * The properties of the specification *)

(** C1 (the code does otherwise than its own documentation says).  For
    2023 the requests of [fetch_year] are 46 windows, [Jan 1 - Jan 8],
    [Jan 9 - Jan 16], [Jan 17 - Jan 24], ..., [Dec 27 - Dec 31]: each window
    starts the day after the one before it ends, and no two consecutive
    windows share their boundary date.  In 2021 the clocks-back day,
    October 31, is the last day of its window [Oct 24 - Oct 31]. *)
Theorem C1_windows_of_2023_abut :
  let ws := requests (snd (GraphQL.fetch_year amsterdam quiet 2023 fresh)) in
  length ws = 46%nat
  /\ map window_days (take 3 ws)
     = [((2023, 1, 1), (2023, 1, 8)); ((2023, 1, 9), (2023, 1, 16));
        ((2023, 1, 17), (2023, 1, 24))]
  /\ map window_days (drop 45 ws) = [((2023, 12, 27), (2023, 12, 31))]
  /\ forallb (fun ab => GraphQL.start_date (snd ab)
                        =? GraphQL.end_date (fst ab) + 1) (neighbours ws)
     = true
  /\ existsb (fun ab => GraphQL.start_date (snd ab)
                        =? GraphQL.end_date (fst ab)) (neighbours ws)
     = false
  /\ Calendar.ord2ymd (last_sunday 2021 10) = (2021, 10, 31)
  /\ List.filter
       (fun q => (GraphQL.start_date q <=? last_sunday 2021 10)
                 && (last_sunday 2021 10 <=? GraphQL.end_date q))
       (requests (snd (GraphQL.fetch_year amsterdam quiet 2021 fresh)))
     = [{| GraphQL.start_date := Calendar.ymd2ord 2021 10 24;
           GraphQL.end_date := Calendar.ymd2ord 2021 10 31 |}].
Proof.
  vm_compute. repeat split; reflexivity.
Qed.

(** C2 (the code does otherwise than its own comments say).  With the
    answers of [boundary_twice], five distinct Instants are fetched for
    2023 and six entries are kept: the hour at 23:00 UTC of January 8 is
    kept twice, once from each of the two windows it came with, so its
    timestamp text appears twice although it is no clocks-back hour.  The
    two hours of the repeated 02:00 of October 29 are both kept. *)
Theorem C2_same_instant_kept_twice :
  fst (GraphQL.fetch_year amsterdam boundary_twice 2023 fresh)
  = Return (Some
      {| series_year := 2023;
         count := 6;
         prices :=
           [ {| timestamp := "2023-01-08T23:00:00"; price_mwh := 250 |};
             {| timestamp := "2023-01-09T00:00:00"; price_mwh := 500 |};
             {| timestamp := "2023-01-09T00:00:00"; price_mwh := 500 |};
             {| timestamp := "2023-01-09T01:00:00"; price_mwh := 125 |};
             {| timestamp := "2023-10-29T02:00:00"; price_mwh := 62.5 |};
             {| timestamp := "2023-10-29T02:00:00"; price_mwh := 375 |} ] |})
  /\ option_map
       (fun rs => distinct (map GraphQL.start_including (concat rs)))
       (GraphQL.answers boundary_twice [] (GraphQL.year_plan 2023))
     = Some 5%nat.
Proof.
  vm_compute. split; reflexivity.
Qed.

(** C3, as the claim states it, fails.  [fetch_year] returns the two hours
    of [later_first] in the order they arrived, the later one first, so its
    [prices] are not sorted.  [fetch_year_rest] puts the later of the two
    hours of the repeated 02:00 first when it arrived first. *)
Lemma C3_counterexample :
  (exists s,
     fst (GraphQL.fetch_year amsterdam later_first 2023 fresh)
     = Return (Some s)
     /\ map timestamp (prices s)
        = ["2023-01-02T12:00:00"; "2023-01-02T11:00:00"]%string
     /\ ~ Sorted (fun a b => String.leb (timestamp a) (timestamp b) = true)
          (prices s))
  /\ (exists s,
        fst (Rest.fetch_year_rest amsterdam
               (rest_answering [fallback_late; fallback_early]) 2023 fresh)
        = Return (Some s)
        /\ prices s = [Rest.to_point amsterdam fallback_late;
                       Rest.to_point amsterdam fallback_early]
        /\ timestamp (Rest.to_point amsterdam fallback_late)
           = timestamp (Rest.to_point amsterdam fallback_early)
        /\ Rest.readingDate fallback_early < Rest.readingDate fallback_late).
Proof.
  split.
  - eexists. split; [vm_compute; reflexivity|]. split; [reflexivity|].
    intros H. inversion H as [|? ? _ Hhd]. inversion Hhd as [|? ? Hle].
    vm_compute in Hle. discriminate Hle.
  - eexists. split; [vm_compute; reflexivity|].
    split; [vm_compute; reflexivity|]. split; [vm_compute; reflexivity|].
    vm_compute. reflexivity.
Qed.

(** C3, amended.  The [prices] of [fetch_year_rest] are the points of the
    records of the target year, sorted ascending by timestamp text by a
    stable sort: no point is followed by one with a smaller text, and
    points with the same text (the clocks-back pair) are in the order they
    arrived.  The [prices] of [fetch_year] are the points of the kept
    records in the order they arrived, window after window. *)
Theorem C3_rest_sorted_stable :
  (forall astimezone get year w s w',
     Rest.fetch_year_rest astimezone get year w = (Return (Some s), w') ->
     exists Prices,
       get (requests w) (Rest.params year) = Rest.Answer 200 Prices
       /\ Sorted (fun a b => String.ltb (timestamp b) (timestamp a) = false)
            (prices s)
       /\ Permutation (prices s) (Rest.arrived astimezone year Prices)
       /\ forall text,
            List.filter (fun p => String.eqb (timestamp p) text) (prices s)
            = List.filter (fun p => String.eqb (timestamp p) text)
                (Rest.arrived astimezone year Prices))
  /\ (forall astimezone get_electricity_prices year w s w',
        GraphQL.fetch_year astimezone get_electricity_prices year w
        = (Return (Some s), w') ->
        exists rs,
          GraphQL.answers get_electricity_prices (requests w)
            (GraphQL.year_plan year) = Some rs
          /\ prices s
             = map (GraphQL.to_point astimezone)
                 (flat_map (GraphQL.kept astimezone year) rs)).
Proof.
  split.
  - intros astimezone get year w s w' H.
    apply RestFacts.fetch_year_rest_returns in H as (Prices & Hget & ->).
    exists Prices. split; [exact Hget|]. unfold Rest.series. simpl prices.
    split; [apply sort_by_Sorted, string_ltb_asym|].
    split; [apply sort_by_Permutation|].
    intros text. apply sort_by_filter.
    intros a b Ha Hb. apply String.eqb_eq in Ha, Hb. rewrite Ha, Hb.
    apply string_ltb_irrefl.
  - intros astimezone get_electricity_prices year w s w' H.
    apply GraphQLFacts.fetch_year_returns in H as (rs & Hrs & ->).
    exists rs. split; [exact Hrs|]. apply GraphQLFacts.series_prices.
Qed.

(** The amended C3 at the two hours of the repeated 02:00 arriving later
    first, and at [boundary_twice]. *)
Lemma C3_witness :
  (exists Prices,
     rest_answering [fallback_late; fallback_early] [] (Rest.params 2023)
     = Rest.Answer 200 Prices
     /\ Sorted (fun a b => String.ltb (timestamp b) (timestamp a) = false)
          (prices (Rest.series amsterdam 2023 [fallback_late; fallback_early]))
     /\ Permutation
          (prices (Rest.series amsterdam 2023 [fallback_late; fallback_early]))
          (Rest.arrived amsterdam 2023 Prices)
     /\ forall text,
          List.filter (fun p => String.eqb (timestamp p) text)
            (prices (Rest.series amsterdam 2023 [fallback_late; fallback_early]))
          = List.filter (fun p => String.eqb (timestamp p) text)
              (Rest.arrived amsterdam 2023 Prices))
  /\ (exists rs,
        GraphQL.answers boundary_twice [] (GraphQL.year_plan 2023) = Some rs
        /\ prices (returned (GraphQL.fetch_year amsterdam boundary_twice
                                2023 fresh))
           = map (GraphQL.to_point amsterdam)
               (flat_map (GraphQL.kept amsterdam 2023) rs)).
Proof.
  split.
  - apply (proj1 C3_rest_sorted_stable amsterdam
             (rest_answering [fallback_late; fallback_early]) 2023 fresh
             (Rest.series amsterdam 2023 [fallback_late; fallback_early])
             (snd (Rest.fetch_year_rest amsterdam
                     (rest_answering [fallback_late; fallback_early])
                     2023 fresh))).
    vm_compute. reflexivity.
  - apply (proj2 C3_rest_sorted_stable amsterdam boundary_twice 2023 fresh
             (returned (GraphQL.fetch_year amsterdam boundary_twice 2023 fresh))
             (snd (GraphQL.fetch_year amsterdam boundary_twice 2023 fresh))).
    vm_compute. reflexivity.
Defined.

(** C4, as the claim states it, fails.  [fetch_year] drops the record of
    [with_old_year] that lies in 2022 by Amsterdam time: two distinct
    Instants were fetched for 2023 and [count] is 1.  [fetch_year_rest]
    keeps a record as often as it arrives: one Instant, [count] 2. *)
Lemma C4_counterexample :
  (fst (GraphQL.fetch_year amsterdam with_old_year 2023 fresh)
   = Return (Some
       {| series_year := 2023;
          count := 1;
          prices :=
            [ {| timestamp := "2023-01-01T00:00:00"; price_mwh := 500 |} ] |})
   /\ option_map
        (fun rs => distinct (map GraphQL.start_including (concat rs)))
        (GraphQL.answers with_old_year [] (GraphQL.year_plan 2023))
      = Some 2%nat)
  /\ (fst (Rest.fetch_year_rest amsterdam
             (rest_answering [fallback_early; fallback_early]) 2023 fresh)
      = Return (Some
          {| series_year := 2023;
             count := 2;
             prices :=
               [ {| timestamp := "2023-10-29T02:00:00"; price_mwh := 62.5 |};
                 {| timestamp := "2023-10-29T02:00:00"; price_mwh := 62.5 |} ] |})
      /\ distinct (map Rest.readingDate [fallback_early; fallback_early])
         = 1%nat).
Proof.
  vm_compute. repeat split; reflexivity.
Qed.

(** C4, amended.  Every returned series has [count] equal to the length of
    [prices].  Only the fetched records whose year in Amsterdam is the
    target year are counted: [fetch_year_rest] counts every one of them;
    [fetch_year] counts at most that many and at least as many as they
    have distinct Instants.  When those records have pairwise distinct
    Instants, [count] is their number of distinct Instants in both. *)
Theorem C4_count_of_records_in_year :
  (forall astimezone get year w s w',
     Rest.fetch_year_rest astimezone get year w = (Return (Some s), w') ->
     exists Prices,
       get (requests w) (Rest.params year) = Rest.Answer 200 Prices
       /\ count s = Z.of_nat (length (prices s))
       /\ count s
          = Z.of_nat (length (List.filter (Rest.in_year astimezone year) Prices))
       /\ (NoDup (map Rest.readingDate
                    (List.filter (Rest.in_year astimezone year) Prices)) ->
           count s
           = Z.of_nat
               (distinct
                  (map Rest.readingDate
                     (List.filter (Rest.in_year astimezone year) Prices)))))
  /\ (forall astimezone get_electricity_prices year w s w',
        GraphQL.fetch_year astimezone get_electricity_prices year w
        = (Return (Some s), w') ->
        exists rs,
          GraphQL.answers get_electricity_prices (requests w)
            (GraphQL.year_plan year) = Some rs
          /\ count s = Z.of_nat (length (prices s))
          /\ Z.of_nat
               (distinct
                  (map GraphQL.start_including
                     (List.filter (GraphQL.in_year astimezone year)
                        (concat rs))))
             <= count s
             <= Z.of_nat
                  (length (List.filter (GraphQL.in_year astimezone year)
                             (concat rs)))
          /\ (NoDup (map GraphQL.start_including
                       (List.filter (GraphQL.in_year astimezone year)
                          (concat rs))) ->
              count s
              = Z.of_nat
                  (distinct
                     (map GraphQL.start_including
                        (List.filter (GraphQL.in_year astimezone year)
                           (concat rs)))))).
Proof.
  split.
  - intros astimezone get year w s w' H.
    apply RestFacts.fetch_year_rest_returns in H as (Prices & Hget & ->).
    exists Prices. split; [exact Hget|]. split; [reflexivity|].
    split; [apply RestFacts.series_count_rest|].
    intros Hnd. rewrite RestFacts.series_count_rest.
    rewrite (distinct_NoDup _ Hnd), length_map. reflexivity.
  - intros astimezone get_electricity_prices year w s w' H.
    apply GraphQLFacts.fetch_year_returns in H as (rs & Hrs & ->).
    exists rs. split; [exact Hrs|]. split; [reflexivity|].
    rewrite GraphQLFacts.series_count. split.
    + split; apply inj_le.
      * rewrite <- (length_map GraphQL.start_including
                      (flat_map (GraphQL.kept astimezone year) rs)).
        apply distinct_le. apply GraphQLFacts.kept_all_instants.
      * apply GraphQLFacts.kept_all_length.
    + intros Hnd. rewrite (GraphQLFacts.kept_all_NoDup _ _ _ Hnd).
      rewrite (distinct_NoDup _ Hnd), length_map. reflexivity.
Qed.

(** The amended C4 at the two hours of the repeated 02:00, and at
    [boundary_twice]. *)
Lemma C4_witness :
  (exists Prices,
     rest_answering [fallback_late; fallback_early] [] (Rest.params 2023)
     = Rest.Answer 200 Prices
     /\ count (returned (Rest.fetch_year_rest amsterdam
                 (rest_answering [fallback_late; fallback_early]) 2023 fresh))
        = 2
     /\ 2 = Z.of_nat (length (List.filter (Rest.in_year amsterdam 2023) Prices))
     /\ (NoDup (map Rest.readingDate
                  (List.filter (Rest.in_year amsterdam 2023) Prices)) ->
         2 = Z.of_nat
               (distinct
                  (map Rest.readingDate
                     (List.filter (Rest.in_year amsterdam 2023) Prices)))))
  /\ (exists rs,
        GraphQL.answers boundary_twice [] (GraphQL.year_plan 2023) = Some rs
        /\ count (returned (GraphQL.fetch_year amsterdam boundary_twice
                              2023 fresh)) = 6
        /\ Z.of_nat
             (distinct
                (map GraphQL.start_including
                   (List.filter (GraphQL.in_year amsterdam 2023) (concat rs))))
           <= 6
           <= Z.of_nat
                (length (List.filter (GraphQL.in_year amsterdam 2023)
                           (concat rs)))).
Proof.
  split.
  - destruct (proj1 C4_count_of_records_in_year amsterdam
                (rest_answering [fallback_late; fallback_early]) 2023 fresh
                (returned (Rest.fetch_year_rest amsterdam
                   (rest_answering [fallback_late; fallback_early]) 2023 fresh))
                (snd (Rest.fetch_year_rest amsterdam
                   (rest_answering [fallback_late; fallback_early]) 2023 fresh)))
      as (Prices & Hget & Hlen & Hcount & Hnd); [vm_compute; reflexivity|].
    exists Prices. split; [exact Hget|]. split; [vm_compute; reflexivity|].
    split; [exact Hcount|exact Hnd].
  - destruct (proj2 C4_count_of_records_in_year amsterdam boundary_twice
                2023 fresh
                (returned (GraphQL.fetch_year amsterdam boundary_twice 2023 fresh))
                (snd (GraphQL.fetch_year amsterdam boundary_twice 2023 fresh)))
      as (rs & Hrs & Hlen & Hbounds & _); [vm_compute; reflexivity|].
    exists rs. split; [exact Hrs|]. split; [vm_compute; reflexivity|].
    exact Hbounds.
Defined.

(** C5.  For a year [date] accepts, if the call for one of the year's
    windows raises when it is asked after the windows before it, then
    [fetch_year] returns [None] and has written no file, and the loop of
    [main] prints that it skips the year, still with no file written, and
    goes on with the years that remain. *)
Theorem C5_failed_fetch_skips_the_year :
  forall astimezone get_electricity_prices year rest w (i : nat) q,
    Calendar.MINYEAR <= year <= Calendar.MAXYEAR ->
    GraphQL.year_plan year !! i = Some q ->
    get_electricity_prices (requests w ++ take i (GraphQL.year_plan year)) q
    = None ->
    exists w',
      GraphQL.fetch_year astimezone get_electricity_prices year w
      = (Return None, w')
      /\ files w' = files w
      /\ run_years (GraphQL.fetch_year astimezone get_electricity_prices)
           (year :: rest) w
         = run_years (GraphQL.fetch_year astimezone get_electricity_prices)
             rest (print (Skipped year) w')
      /\ files (print (Skipped year) w') = files w.
Proof.
  intros astimezone get_electricity_prices year rest w i q Hy Hq Hnone.
  pose proof (GraphQLFacts.fetch_year_spec astimezone get_electricity_prices
                year w Hy) as Hspec.
  rewrite (GraphQLFacts.a_fetch_fails get_electricity_prices _ _ i q Hq Hnone)
    in Hspec.
  eexists. split; [exact Hspec|]. split; [reflexivity|].
  split; [|reflexivity]. simpl. rewrite Hspec. reflexivity.
Qed.

(** C5 at 2023 with the call for the third window, [Jan 17 - Jan 24],
    raising, and 2024 still to come. *)
Lemma C5_witness :
  exists w',
    GraphQL.fetch_year amsterdam failing_third 2023 fresh = (Return None, w')
    /\ files w' = files (@fresh GraphQL.window)
    /\ run_years (GraphQL.fetch_year amsterdam failing_third) [2023; 2024]
         fresh
       = run_years (GraphQL.fetch_year amsterdam failing_third) [2024]
           (print (Skipped 2023) w')
    /\ files (print (Skipped 2023) w') = files (@fresh GraphQL.window).
Proof.
  apply (C5_failed_fetch_skips_the_year amsterdam failing_third 2023 [2024]
           fresh 2%nat
           {| GraphQL.start_date := Calendar.ymd2ord 2023 1 17;
              GraphQL.end_date := Calendar.ymd2ord 2023 1 24 |}).
  - unfold Calendar.MINYEAR, Calendar.MAXYEAR. lia.
  - vm_compute. reflexivity.
  - vm_compute. reflexivity.
Defined.

(** C6.  In both scripts a record passes the filter exactly when the year
    of its Instant in Amsterdam is the target year: [fetch_year_rest]
    appends a point for it if so and leaves [prices] as it is if not, so
    its loop yields the points of exactly those records; [fetch_year]
    leaves its state as it is if not, and if so appends a point unless the
    Instant is [last_utc].  At the turn of the year: 23:00 UTC of December
    31, 2022 is in 2023 in Amsterdam and is kept for 2023, and 23:00 UTC of
    December 31, 2023 is in 2024 and is dropped. *)
Theorem C6_year_filter_is_local :
  (forall astimezone year prices entry,
     Rest.convert astimezone year prices entry
     = (if DateTime.year (astimezone (Rest.readingDate entry)) =? year
        then prices ++ [Rest.to_point astimezone entry] else prices)
     /\ (Rest.convert astimezone year prices entry = prices
         <-> DateTime.year (astimezone (Rest.readingDate entry)) <> year))
  /\ (forall astimezone year Prices prices,
        fold_left (Rest.convert astimezone year) Prices prices
        = prices
          ++ map (Rest.to_point astimezone)
               (List.filter
                  (fun e => DateTime.year (astimezone (Rest.readingDate e))
                            =? year) Prices))
  /\ (forall astimezone year last_utc prices price_point,
        GraphQL.convert astimezone year (last_utc, prices) price_point
        = (if DateTime.year
                (astimezone (GraphQL.start_including price_point)) =? year
           then
             if bool_decide
                  (last_utc = Some (GraphQL.start_including price_point))
             then (last_utc, prices)
             else (Some (GraphQL.start_including price_point),
                   prices ++ [GraphQL.to_point astimezone price_point])
           else (last_utc, prices)))
  /\ (forall astimezone year l last_utc prices,
        snd (fold_left (GraphQL.convert astimezone year) l (last_utc, prices))
        = prices
          ++ map (GraphQL.to_point astimezone)
               (GraphQL.drop_repeats last_utc
                  (List.filter
                     (fun p => DateTime.year
                                 (astimezone (GraphQL.start_including p))
                               =? year) l)))
  /\ DateTime.year (datetime_of_seconds (utc_seconds 2022 12 31 23)) = 2022
  /\ DateTime.year (amsterdam (utc_seconds 2022 12 31 23)) = 2023
  /\ DateTime.year (datetime_of_seconds (utc_seconds 2023 12 31 23)) = 2023
  /\ DateTime.year (amsterdam (utc_seconds 2023 12 31 23)) = 2024
  /\ map timestamp
       (Rest.arrived amsterdam 2023
          [rest_hourly 2022 12 31 23 0.25; rest_hourly 2023 12 31 22 0.5;
           rest_hourly 2023 12 31 23 0.125])
     = ["2023-01-01T00:00:00"; "2023-12-31T23:00:00"]%string.
Proof.
  split; [|split; [|split; [|split]]].
  - intros astimezone year prices entry. unfold Rest.convert.
    destruct (Z.eqb_spec (DateTime.year (astimezone (Rest.readingDate entry)))
                year) as [Heq|Hne]; simpl.
    + split; [reflexivity|]. split; [|intros H; destruct (H Heq)].
      intros H. apply (f_equal length) in H.
      rewrite length_app in H. simpl in H. lia.
    + split; [reflexivity|]. split; [intros _; exact Hne|reflexivity].
  - intros astimezone year Prices prices.
    apply (RestFacts.fold_convert_rest astimezone year Prices prices).
  - intros astimezone year last_utc prices price_point.
    unfold GraphQL.convert.
    destruct (DateTime.year
                (astimezone (GraphQL.start_including price_point)) =? year);
      simpl; [|reflexivity].
    destruct last_utc as [u|].
    + destruct (Z.eqb_spec (GraphQL.start_including price_point) u)
        as [->|Hne].
      * rewrite bool_decide_eq_true_2 by reflexivity. reflexivity.
      * rewrite bool_decide_eq_false_2 by congruence. reflexivity.
    + rewrite bool_decide_eq_false_2 by discriminate. reflexivity.
  - intros astimezone year l last_utc prices.
    apply (GraphQLFacts.fold_convert astimezone year l last_utc prices).
  - vm_compute. repeat split; reflexivity.
Qed.



(** C8.  Every point of a returned series comes from one fetched record:
    its price is [round(price * 1000, 1)] of that record's price and its
    timestamp is that record's Instant in Amsterdam.  The conversion looks
    at the price alone, so records with the same price get the same
    converted price.  Three conversions: 0.25 gives 250.0, 0.0625 gives
    62.5, and 0.08521 (whose product with 1000 is not a one-decimal number)
    gives 85.2. *)
Theorem C8_price_is_rounded_product :
  (forall astimezone get year w s w',
     Rest.fetch_year_rest astimezone get year w = (Return (Some s), w') ->
     exists Prices,
       get (requests w) (Rest.params year) = Rest.Answer 200 Prices
       /\ Forall
            (fun pt =>
               exists e,
                 e ∈ Prices
                 /\ price_mwh pt = round1 (PrimFloat.mul (Rest.price e) 1000)
                 /\ timestamp pt = strftime (astimezone (Rest.readingDate e)))
            (prices s))
  /\ (forall astimezone get_electricity_prices year w s w',
        GraphQL.fetch_year astimezone get_electricity_prices year w
        = (Return (Some s), w') ->
        exists rs,
          GraphQL.answers get_electricity_prices (requests w)
            (GraphQL.year_plan year) = Some rs
          /\ Forall
               (fun pt =>
                  exists p,
                    p ∈ concat rs
                    /\ price_mwh pt
                       = round1 (PrimFloat.mul (GraphQL.price p) 1000)
                    /\ timestamp pt
                       = strftime (astimezone (GraphQL.start_including p)))
               (prices s))
  /\ (forall astimezone (e1 e2 : Rest.reading),
        Rest.price e1 = Rest.price e2 ->
        price_mwh (Rest.to_point astimezone e1)
        = price_mwh (Rest.to_point astimezone e2))
  /\ (forall astimezone (p1 p2 : GraphQL.timestamp_price),
        GraphQL.price p1 = GraphQL.price p2 ->
        price_mwh (GraphQL.to_point astimezone p1)
        = price_mwh (GraphQL.to_point astimezone p2))
  /\ eur_mwh 0.25 = 250%float
  /\ eur_mwh 0.0625 = 62.5%float
  /\ eur_mwh 0x1.5d052934acaffp-4 = 0x1.54ccccccccccdp+6%float.
Proof.
  split; [|split; [|split; [|split]]].
  - intros astimezone get year w s w' H.
    apply RestFacts.fetch_year_rest_returns in H as (Prices & Hget & ->).
    exists Prices. split; [exact Hget|].
    apply Forall_forall. intros pt Hpt.
    apply (elem_of_Permutation_proper _ _ _
             (RestFacts.series_Permutation astimezone year Prices)) in Hpt.
    unfold Rest.arrived in Hpt.
    apply list_elem_of_fmap in Hpt as (e & -> & He).
    apply list_elem_of_In, List.filter_In in He as [He _].
    exists e. split; [apply list_elem_of_In; exact He|].
    split; reflexivity.
  - intros astimezone get_electricity_prices year w s w' H.
    apply GraphQLFacts.fetch_year_returns in H as (rs & Hrs & ->).
    exists rs. split; [exact Hrs|].
    rewrite GraphQLFacts.series_prices.
    apply Forall_forall. intros pt Hpt.
    apply list_elem_of_fmap in Hpt as (p & -> & Hp).
    exists p. split; [|split; reflexivity].
    apply (GraphQLFacts.kept_all_subset astimezone year rs p Hp).
  - intros astimezone e1 e2 H. unfold Rest.to_point. simpl. rewrite H.
    reflexivity.
  - intros astimezone p1 p2 H. unfold GraphQL.to_point. simpl. rewrite H.
    reflexivity.
  - vm_compute. repeat split; reflexivity.
Qed.

(** C8 at the two hours of the repeated 02:00, and at [boundary_twice]. *)
Lemma C8_witness :
  (exists Prices,
     rest_answering [fallback_late; fallback_early] [] (Rest.params 2023)
     = Rest.Answer 200 Prices
     /\ Forall
          (fun pt =>
             exists e,
               e ∈ Prices
               /\ price_mwh pt = round1 (PrimFloat.mul (Rest.price e) 1000)
               /\ timestamp pt = strftime (amsterdam (Rest.readingDate e)))
          (prices (returned (Rest.fetch_year_rest amsterdam
                     (rest_answering [fallback_late; fallback_early])
                     2023 fresh))))
  /\ (exists rs,
        GraphQL.answers boundary_twice [] (GraphQL.year_plan 2023) = Some rs
        /\ Forall
             (fun pt =>
                exists p,
                  p ∈ concat rs
                  /\ price_mwh pt
                     = round1 (PrimFloat.mul (GraphQL.price p) 1000)
                  /\ timestamp pt
                     = strftime (amsterdam (GraphQL.start_including p)))
             (prices (returned (GraphQL.fetch_year amsterdam boundary_twice
                                  2023 fresh)))).
Proof.
  split.
  - apply (proj1 C8_price_is_rounded_product amsterdam
             (rest_answering [fallback_late; fallback_early]) 2023 fresh
             (returned (Rest.fetch_year_rest amsterdam
                (rest_answering [fallback_late; fallback_early]) 2023 fresh))
             (snd (Rest.fetch_year_rest amsterdam
                (rest_answering [fallback_late; fallback_early]) 2023 fresh))).
    vm_compute. reflexivity.
  - apply (proj1 (proj2 C8_price_is_rounded_product) amsterdam boundary_twice
             2023 fresh
             (returned (GraphQL.fetch_year amsterdam boundary_twice 2023 fresh))
             (snd (GraphQL.fetch_year amsterdam boundary_twice 2023 fresh))).
    vm_compute. reflexivity.
Defined.

(** C9.  When some token of the argument list is not an integer for
    [int], [main] of either script ends in [sys.exit(1)] with no request
    sent, no file written and no per-year run started. *)
Theorem C9_invalid_year_aborts_the_batch :
  forall astimezone get_electricity_prices get int (args : list string)
         (wg : world GraphQL.window) (wr : world Rest.query),
    (exists arg, arg ∈ args /\ int arg = None) ->
    (exists w',
       GraphQL.main astimezone get_electricity_prices int args wg
       = (Exit1, w')
       /\ requests w' = requests wg
       /\ files w' = files wg
       /\ runs (console w') = runs (console wg))
    /\ (exists w',
          Rest.main astimezone get int args wr = (Exit1, w')
          /\ requests w' = requests wr
          /\ files w' = files wr
          /\ runs (console w') = runs (console wr)).
Proof.
  intros astimezone get_electricity_prices get int args wg wr Hbad.
  split; apply batch_invalid; exact Hbad.
Qed.

(** C9 at the arguments [2023 twenty 2024]. *)
Lemma C9_witness :
  (exists w',
     GraphQL.main amsterdam quiet int_ascii ["2023"; "twenty"; "2024"]%string
       fresh
     = (Exit1, w')
     /\ requests w' = requests (@fresh GraphQL.window)
     /\ files w' = files (@fresh GraphQL.window)
     /\ runs (console w') = runs (console (@fresh GraphQL.window)))
  /\ (exists w',
        Rest.main amsterdam (rest_answering []) int_ascii
          ["2023"; "twenty"; "2024"]%string fresh
        = (Exit1, w')
        /\ requests w' = requests (@fresh Rest.query)
        /\ files w' = files (@fresh Rest.query)
        /\ runs (console w') = runs (console (@fresh Rest.query))).
Proof.
  apply (C9_invalid_year_aborts_the_batch amsterdam quiet (rest_answering [])
           int_ascii ["2023"; "twenty"; "2024"]%string fresh fresh).
  exists "twenty"%string. split; [|vm_compute; reflexivity].
  apply list_elem_of_further, list_elem_of_here.
Defined.



(** * Further properties of the two fetch scripts *)

(** ** The argument loop and the loop over the years, once more *)

Lemma warned_app (c1 c2 : list message) :
  warned (c1 ++ c2) = warned c1 ++ warned c2.
Proof.
  induction c1 as [|m c1 IH]; [reflexivity|].
  destruct m; simpl; rewrite IH; reflexivity.
Qed.

Section ParseYearsMore.
Context {Req : Type} (int : string -> option Z) (floor : Z).

(** However the argument loop ends, only the console has changed, and no
    run was started. *)
Lemma parse_years_frame (args : list string) :
  forall (years : list Z) (w : world Req),
    requests (snd (parse_years int floor args years w)) = requests w
    /\ output_dir_exists (snd (parse_years int floor args years w))
       = output_dir_exists w
    /\ files (snd (parse_years int floor args years w)) = files w
    /\ runs (console (snd (parse_years int floor args years w)))
       = runs (console w).
Proof.
  induction args as [|a args IH]; intros years w; simpl.
  - repeat split.
  - destruct (int a) as [y|]; simpl.
    + destruct (IH (years ++ [y])
                  (if y <? floor then print (WarnNoData y) w else w))
        as (Hr & Hd & Hf & Hc).
      rewrite Hr, Hd, Hf, Hc.
      destruct (y <? floor); simpl; rewrite ?runs_app, ?app_nil_r;
        repeat split.
    + rewrite runs_app, app_nil_r. repeat split.
Qed.

(** The years the loop hands on come from the tokens. *)
Lemma parse_years_elements (args : list string) :
  forall (years ys : list Z) (w w' : world Req) (y : Z),
    parse_years int floor args years w = (Some ys, w') ->
    y ∈ ys ->
    y ∈ years \/ exists arg, arg ∈ args /\ int arg = Some y.
Proof.
  induction args as [|a args IH]; intros years ys w w' y; simpl.
  - intros [= <- _] Hy. left. exact Hy.
  - destruct (int a) as [v|] eqn:Ha; [|discriminate].
    intros Hp Hy. destruct (IH _ _ _ _ _ Hp Hy) as [Hin|(arg & Hin & Harg)].
    + apply elem_of_app in Hin as [Hin|Hin]; [left; exact Hin|].
      apply list_elem_of_singleton in Hin as ->.
      right. exists a. split; [apply list_elem_of_here|exact Ha].
    + right. exists arg. split; [apply list_elem_of_further; exact Hin|exact Harg].
Qed.

(** The loop warns once for every year below the floor, in the order of
    the arguments. *)
Lemma parse_years_warned (args : list string) :
  forall (years vs : list Z) (w : world Req),
    mapM int args = Some vs ->
    fst (parse_years int floor args years w) = Some (years ++ vs)
    /\ warned (console (snd (parse_years int floor args years w)))
       = warned (console w) ++ List.filter (fun y => y <? floor) vs.
Proof.
  induction args as [|a args IH]; intros years vs w Hm.
  - injection Hm as <-. simpl. rewrite !app_nil_r. split; reflexivity.
  - simpl in Hm. destruct (int a) as [y|] eqn:Ha; [|discriminate Hm].
    simpl in Hm. destruct (mapM int args) as [vs'|] eqn:Hm'; [|discriminate Hm].
    injection Hm as <-. simpl. rewrite Ha.
    destruct (IH (years ++ [y]) vs'
                (if y <? floor then print (WarnNoData y) w else w) eq_refl)
      as [Hf Hw].
    rewrite Hf, Hw, <- app_assoc. split; [reflexivity|].
    destruct (y <? floor); simpl; rewrite ?warned_app; simpl;
      rewrite <- ?app_assoc; reflexivity.
Qed.

End ParseYearsMore.

Section DriverMore.
Context {Req : Type} (int : string -> option Z) (floor : Z).
Context (fetch : Z -> world Req -> result (option year_series) * world Req).

(** The per-year function leaves the files alone. *)
Hypothesis fetch_files : forall year w, files (snd (fetch year w)) = files w.

(** The loop touches the file of no year other than those it runs. *)
Lemma run_years_files_frame (years : list Z) : forall (w : world Req) (y : Z),
  y ∉ years ->
  files (snd (run_years fetch years w)) !! y = files w !! y.
Proof.
  induction years as [|y0 years IH]; intros w y Hy; [reflexivity|].
  apply not_elem_of_cons in Hy as [Hne Hy]. simpl.
  pose proof (fetch_files y0 w) as Hf.
  destruct (fetch y0 w) as [[|[data|]] w1]; simpl in Hf.
  - simpl. rewrite Hf. reflexivity.
  - rewrite (IH _ y Hy). simpl. rewrite Hf. apply lookup_insert_ne.
    intros ->. apply Hne. reflexivity.
  - rewrite (IH _ y Hy). simpl. rewrite Hf. reflexivity.
Qed.

(** A file found after the loop was there before it, or is a series that a
    run of its year returned. *)
Lemma run_years_files_written (P : Z -> year_series -> Prop) (years : list Z) :
  (forall year w s w', fetch year w = (Return (Some s), w') -> P year s) ->
  forall (w : world Req) (y : Z) (s : year_series),
    files (snd (run_years fetch years w)) !! y = Some s ->
    files w !! y = Some s \/ (y ∈ years /\ P y s).
Proof.
  intros HP. induction years as [|y0 years IH]; intros w y s; [left; assumption|].
  simpl. pose proof (fetch_files y0 w) as Hf.
  destruct (fetch y0 w) as [[|[data|]] w1] eqn:E; simpl in Hf.
  - simpl. rewrite Hf. left. assumption.
  - intros H. destruct (IH _ _ _ H) as [Hw|[Hin Hs]].
    + simpl in Hw. rewrite Hf in Hw.
      destruct (decide (y0 = y)) as [->|Hne].
      * rewrite lookup_insert_eq in Hw. injection Hw as <-.
        right. split; [apply list_elem_of_here|apply (HP _ _ _ _ E)].
      * rewrite lookup_insert_ne in Hw by exact Hne. left. exact Hw.
    + right. split; [apply list_elem_of_further; exact Hin|exact Hs].
  - intros H. destruct (IH _ _ _ H) as [Hw|[Hin Hs]].
    + simpl in Hw. rewrite Hf in Hw. left. exact Hw.
    + right. split; [apply list_elem_of_further; exact Hin|exact Hs].
Qed.

(** When a run of one of the years is sure to raise, the loop does not
    reach its end. *)
Lemma run_years_raises (bad : Z -> Prop) (years : list Z) :
  (forall year w, bad year -> fst (fetch year w) = Raise) ->
  forall w : world Req,
    (exists y, y ∈ years /\ bad y) ->
    fst (run_years fetch years w) = Uncaught.
Proof.
  intros Hbad. induction years as [|y0 years IH]; intros w (y & Hin & Hy).
  - apply elem_of_nil in Hin. destruct Hin.
  - simpl. destruct (fetch y0 w) as [[|[data|]] w1] eqn:E; [reflexivity| |].
    + apply IH. exists y. split; [|exact Hy].
      apply elem_of_cons in Hin as [->|Hin]; [|exact Hin].
      pose proof (Hbad y0 w Hy) as H. rewrite E in H. discriminate H.
    + apply IH. exists y. split; [|exact Hy].
      apply elem_of_cons in Hin as [->|Hin]; [|exact Hin].
      pose proof (Hbad y0 w Hy) as H. rewrite E in H. discriminate H.
Qed.

(** Without the output directory [main] leaves through [sys.exit(1)]
    whatever its arguments, having sent and written nothing. *)
Lemma batch_without_output_dir (args : list string) (w : world Req) :
  output_dir_exists w = false ->
  exists w',
    batch int floor fetch args w = (Exit1, w')
    /\ requests w' = requests w
    /\ files w' = files w
    /\ runs (console w') = runs (console w).
Proof.
  intros Hdir. unfold batch. destruct args as [|a args].
  - eexists. split; [reflexivity|]. simpl. rewrite runs_app, app_nil_r.
    repeat split.
  - destruct (parse_years_frame int floor (a :: args) [] w)
      as (Hr & Hd & Hf & Hc).
    destruct (parse_years int floor (a :: args) [] w) as [[years|] w1];
      simpl in Hr, Hd, Hf, Hc.
    + destruct years as [|y years].
      * eexists. split; [reflexivity|]. simpl.
        rewrite runs_app, app_nil_r. auto.
      * rewrite Hd, Hdir. eexists. split; [reflexivity|]. simpl.
        rewrite runs_app, app_nil_r. auto.
    + eexists. split; [reflexivity|]. auto.
Qed.

(** [main] touches the file of no year that is not the value of one of
    its arguments. *)
Lemma batch_files_frame (args : list string) (w : world Req) (y : Z) :
  (forall arg, arg ∈ args -> int arg <> Some y) ->
  files (snd (batch int floor fetch args w)) !! y = files w !! y.
Proof.
  intros Hy. unfold batch. destruct args as [|a args]; [reflexivity|].
  destruct (parse_years_frame int floor (a :: args) [] w)
    as (Hr & Hd & Hf & Hc).
  destruct (parse_years int floor (a :: args) [] w) as [[years|] w1] eqn:E;
    simpl in Hr, Hd, Hf, Hc; [|simpl; rewrite Hf; reflexivity].
  destruct years as [|y1 years]; [simpl; rewrite Hf; reflexivity|].
  destruct (output_dir_exists w1); simpl negb; cbv iota;
    [|simpl; rewrite Hf; reflexivity].
  rewrite run_years_files_frame; [rewrite Hf; reflexivity|].
  intros Hin.
  apply (elem_of_Permutation_proper _ _ _ (sorted_Permutation (y1 :: years)))
    in Hin.
  destruct (parse_years_elements int floor _ _ _ _ _ y E Hin)
    as [Hnil|(arg & Harg & Hint)].
  - apply elem_of_nil in Hnil. destruct Hnil.
  - apply (Hy arg Harg Hint).
Qed.

(** A file found after [main] was there before it, or is a series that a
    run of its year returned. *)
Lemma batch_files_written (P : Z -> year_series -> Prop)
  (args : list string) (w : world Req) (y : Z) (s : year_series) :
  (forall year w s w', fetch year w = (Return (Some s), w') -> P year s) ->
  files (snd (batch int floor fetch args w)) !! y = Some s ->
  files w !! y = Some s \/ P y s.
Proof.
  intros HP. unfold batch. destruct args as [|a args]; [left; assumption|].
  destruct (parse_years_frame int floor (a :: args) [] w)
    as (Hr & Hd & Hf & Hc).
  destruct (parse_years int floor (a :: args) [] w) as [[years|] w1] eqn:E;
    simpl in Hr, Hd, Hf, Hc; [|simpl; rewrite Hf; left; assumption].
  destruct years as [|y1 years]; [simpl; rewrite Hf; left; assumption|].
  destruct (output_dir_exists w1); simpl negb; cbv iota;
    [|simpl; rewrite Hf; left; assumption].
  intros H.
  destruct (run_years_files_written P _ HP _ _ _ H) as [Hw|[_ Hs]].
  - left. rewrite <- Hf. exact Hw.
  - right. exact Hs.
Qed.

End DriverMore.

(** ** The per-year functions and the files *)

Lemma fetch_year_files astimezone get_electricity_prices year
  (w : world GraphQL.window) :
  files (snd (GraphQL.fetch_year astimezone get_electricity_prices year w))
  = files w.
Proof.
  destruct (GraphQLFacts.fetch_year_shape astimezone get_electricity_prices
              year w) as (r & ws & tail & -> & _).
  reflexivity.
Qed.

Lemma fetch_year_rest_files astimezone get year (w : world Rest.query) :
  files (snd (Rest.fetch_year_rest astimezone get year w)) = files w.
Proof.
  destruct (RestFacts.fetch_year_rest_shape astimezone get year w)
    as (r & ws & tail & -> & _).
  reflexivity.
Qed.

Lemma fetch_year_well_formed astimezone get_electricity_prices year
  (w w' : world GraphQL.window) (s : year_series) :
  GraphQL.fetch_year astimezone get_electricity_prices year w
  = (Return (Some s), w') ->
  series_year s = year /\ count s = Z.of_nat (length (prices s)).
Proof.
  intros H. apply GraphQLFacts.fetch_year_returns in H as (rs & _ & ->).
  split; reflexivity.
Qed.

Lemma fetch_year_rest_well_formed astimezone get year
  (w w' : world Rest.query) (s : year_series) :
  Rest.fetch_year_rest astimezone get year w = (Return (Some s), w') ->
  series_year s = year /\ count s = Z.of_nat (length (prices s)).
Proof.
  intros H. apply RestFacts.fetch_year_rest_returns in H as (Prices & _ & ->).
  split; reflexivity.
Qed.

(** X1.  When the output directory does not exist, [main] of either script
    ends in [sys.exit(1)] whatever its arguments are: no request is sent,
    no file is written and no per-year run is started. *)
Theorem X1_no_output_directory_no_effect :
  forall astimezone get_electricity_prices get int (args : list string)
         (wg : world GraphQL.window) (wr : world Rest.query),
    output_dir_exists wg = false ->
    output_dir_exists wr = false ->
    (exists w',
       GraphQL.main astimezone get_electricity_prices int args wg
       = (Exit1, w')
       /\ requests w' = requests wg
       /\ files w' = files wg
       /\ runs (console w') = runs (console wg))
    /\ (exists w',
          Rest.main astimezone get int args wr = (Exit1, w')
          /\ requests w' = requests wr
          /\ files w' = files wr
          /\ runs (console w') = runs (console wr)).
Proof.
  intros astimezone get_electricity_prices get int args wg wr Hg Hr.
  split; apply batch_without_output_dir; assumption.
Qed.

(** X1 at the arguments [2023 2024]. *)
Lemma X1_witness :
  (exists w',
     GraphQL.main amsterdam quiet int_ascii ["2023"; "2024"]%string without_dir
     = (Exit1, w')
     /\ requests w' = requests (@without_dir GraphQL.window)
     /\ files w' = files (@without_dir GraphQL.window)
     /\ runs (console w') = runs (console (@without_dir GraphQL.window)))
  /\ (exists w',
        Rest.main amsterdam (rest_answering []) int_ascii
          ["2023"; "2024"]%string without_dir
        = (Exit1, w')
        /\ requests w' = requests (@without_dir Rest.query)
        /\ files w' = files (@without_dir Rest.query)
        /\ runs (console w') = runs (console (@without_dir Rest.query))).
Proof.
  apply (X1_no_output_directory_no_effect amsterdam quiet (rest_answering [])
           int_ascii ["2023"; "2024"]%string without_dir without_dir);
    reflexivity.
Defined.

(** X2.  [main] of either script touches the file of no year that is not
    the value of one of its arguments: whatever happens, that file is after
    the run what it was before. *)
Theorem X2_files_of_other_years_untouched :
  forall astimezone get_electricity_prices get int (args : list string)
         (wg : world GraphQL.window) (wr : world Rest.query) (y : Z),
    (forall arg, arg ∈ args -> int arg <> Some y) ->
    files (snd (GraphQL.main astimezone get_electricity_prices int args wg))
      !! y = files wg !! y
    /\ files (snd (Rest.main astimezone get int args wr)) !! y
       = files wr !! y.
Proof.
  intros astimezone get_electricity_prices get int args wg wr y Hy. split.
  - apply batch_files_frame; [|exact Hy].
    intros year w. apply fetch_year_files.
  - apply batch_files_frame; [|exact Hy].
    intros year w. apply fetch_year_rest_files.
Qed.

(** X2 at the arguments [2023 2024] with a file of 2020 in place. *)
Lemma X2_witness :
  files (snd (GraphQL.main amsterdam quiet int_ascii ["2023"; "2024"]%string
                (with_file 2020 earlier_2020))) !! 2020
  = files (@with_file GraphQL.window 2020 earlier_2020) !! 2020
  /\ files (snd (Rest.main amsterdam (rest_answering []) int_ascii
                   ["2023"; "2024"]%string (with_file 2020 earlier_2020)))
       !! 2020
     = files (@with_file Rest.query 2020 earlier_2020) !! 2020.
Proof.
  apply (X2_files_of_other_years_untouched amsterdam quiet (rest_answering [])
           int_ascii ["2023"; "2024"]%string).
  intros arg Harg.
  apply elem_of_cons in Harg as [->|Harg]; [vm_compute; discriminate|].
  apply list_elem_of_singleton in Harg as ->. vm_compute. discriminate.
Defined.

(** X3.  Every file found after [main] of either script either was there
    before the run with the same content, or holds a series whose [year]
    is the year of the file's name and whose [count] is the length of its
    [prices]. *)
Theorem X3_written_file_is_series_of_its_year :
  forall astimezone get_electricity_prices get int (args : list string)
         (wg : world GraphQL.window) (wr : world Rest.query)
         (y : Z) (s : year_series),
    (files (snd (GraphQL.main astimezone get_electricity_prices int args wg))
       !! y = Some s ->
     files wg !! y = Some s
     \/ (series_year s = y /\ count s = Z.of_nat (length (prices s))))
    /\ (files (snd (Rest.main astimezone get int args wr)) !! y = Some s ->
        files wr !! y = Some s
        \/ (series_year s = y /\ count s = Z.of_nat (length (prices s)))).
Proof.
  intros astimezone get_electricity_prices get int args wg wr y s. split.
  - apply (batch_files_written int 2019 _
             (fun year w => fetch_year_files astimezone get_electricity_prices
                              year w)
             (fun y s => series_year s = y
                         /\ count s = Z.of_nat (length (prices s)))).
    intros year w s' w'. apply fetch_year_well_formed.
  - apply (batch_files_written int 2015 _
             (fun year w => fetch_year_rest_files astimezone get year w)
             (fun y s => series_year s = y
                         /\ count s = Z.of_nat (length (prices s)))).
    intros year w s' w'. apply fetch_year_rest_well_formed.
Qed.

(** X3 at the argument [2023] with a file of 2020 in place: the file of
    2020 is the earlier one, the file of 2023 is a series of 2023. *)
Lemma X3_witness :
  (files (snd (GraphQL.main amsterdam quiet int_ascii ["2023"]%string
                 (with_file 2020 earlier_2020))) !! 2023
   = Some (GraphQL.series amsterdam 2023 (repeat [] 46)) ->
   files (@with_file GraphQL.window 2020 earlier_2020) !! 2023
   = Some (GraphQL.series amsterdam 2023 (repeat [] 46))
   \/ (series_year (GraphQL.series amsterdam 2023 (repeat [] 46)) = 2023
       /\ count (GraphQL.series amsterdam 2023 (repeat [] 46))
          = Z.of_nat
              (length (prices (GraphQL.series amsterdam 2023 (repeat [] 46))))))
  /\ files (snd (GraphQL.main amsterdam quiet int_ascii ["2023"]%string
                   (with_file 2020 earlier_2020))) !! 2023
     = Some (GraphQL.series amsterdam 2023 (repeat [] 46)).
Proof.
  split; [|vm_compute; reflexivity].
  apply (proj1 (X3_written_file_is_series_of_its_year amsterdam quiet
                  (rest_answering []) int_ascii ["2023"]%string
                  (with_file 2020 earlier_2020) (with_file 2020 earlier_2020)
                  2023 (GraphQL.series amsterdam 2023 (repeat [] 46)))).
Defined.

(** ** Warnings, and years that [date] refuses *)

Section DriverWarned.
Context {Req : Type} (int : string -> option Z) (floor : Z).
Context (fetch : Z -> world Req -> result (option year_series) * world Req).

Hypothesis fetch_warned : forall year w,
  warned (console (snd (fetch year w))) = warned (console w).

Lemma run_years_warned (years : list Z) : forall w : world Req,
  warned (console (snd (run_years fetch years w))) = warned (console w).
Proof.
  induction years as [|y years IH]; intros w; [reflexivity|]. simpl.
  pose proof (fetch_warned y w) as Hw.
  destruct (fetch y w) as [[|[data|]] w1]; simpl in Hw.
  - exact Hw.
  - rewrite IH. simpl. rewrite warned_app, Hw. simpl. apply app_nil_r.
  - rewrite IH. simpl. rewrite warned_app, Hw. simpl. apply app_nil_r.
Qed.

Lemma batch_warned (args : list string) (vs : list Z) (w : world Req) :
  mapM int args = Some vs ->
  warned (console (snd (batch int floor fetch args w)))
  = warned (console w) ++ List.filter (fun y => y <? floor) vs.
Proof.
  intros Hm. unfold batch. destruct args as [|a args].
  - injection Hm as <-. simpl. rewrite warned_app. reflexivity.
  - destruct (parse_years_warned int floor (a :: args) [] vs w Hm) as [Hf Hw].
    destruct (parse_years int floor (a :: args) [] w) as [r w1].
    simpl in Hf, Hw. subst r. simpl app.
    destruct vs as [|v vs].
    + simpl. rewrite warned_app, Hw. simpl. rewrite !app_nil_r. reflexivity.
    + destruct (output_dir_exists w1); simpl negb; cbv iota.
      * rewrite run_years_warned. exact Hw.
      * simpl. rewrite warned_app, Hw. simpl. apply app_nil_r.
Qed.

End DriverWarned.

Lemma fetch_year_warned astimezone get_electricity_prices year
  (w : world GraphQL.window) :
  warned (console
            (snd (GraphQL.fetch_year astimezone get_electricity_prices year w)))
  = warned (console w).
Proof.
  destruct (decide (Calendar.MINYEAR <= year <= Calendar.MAXYEAR)) as [Hy|Hy].
  - rewrite (GraphQLFacts.fetch_year_spec _ _ year w Hy).
    destruct (GraphQL.answers _ _ _) as [rs|].
    + destruct (year <? Calendar.MAXYEAR); simpl; rewrite warned_app; simpl;
        [|apply app_nil_r].
      unfold GraphQL.count_message.
      destruct (_ =? _); simpl; apply app_nil_r.
    + simpl. rewrite warned_app. simpl. apply app_nil_r.
  - rewrite (GraphQLFacts.fetch_year_out_of_range _ _ year w Hy). simpl.
    rewrite warned_app. simpl. apply app_nil_r.
Qed.

Lemma fetch_year_rest_warned astimezone get year (w : world Rest.query) :
  warned (console (snd (Rest.fetch_year_rest astimezone get year w)))
  = warned (console w).
Proof.
  rewrite RestFacts.fetch_year_rest_spec.
  destruct (get _ _) as [|status Prices].
  - simpl. rewrite warned_app. simpl. apply app_nil_r.
  - destruct (status =? 200); simpl; rewrite warned_app; simpl;
      [|apply app_nil_r].
    unfold Rest.count_message.
    repeat (destruct (_ =? _)); simpl; apply app_nil_r.
Qed.

(** X4.  When every argument parses, [main] warns exactly once for each
    argument whose year is below the script's floor (2019 for
    [fetch_energyzero_data.py], 2015 for [fetch_energyzero_rest.py]), in the
    order of the arguments; nothing else it does adds such a warning. *)
Theorem X4_one_warning_per_year_below_floor :
  forall astimezone get_electricity_prices get int (args : list string)
         (vs : list Z) (wg : world GraphQL.window) (wr : world Rest.query),
    mapM int args = Some vs ->
    warned (console
              (snd (GraphQL.main astimezone get_electricity_prices int args wg)))
    = warned (console wg) ++ List.filter (fun y => y <? 2019) vs
    /\ warned (console (snd (Rest.main astimezone get int args wr)))
       = warned (console wr) ++ List.filter (fun y => y <? 2015) vs.
Proof.
  intros astimezone get_electricity_prices get int args vs wg wr Hm. split.
  - apply batch_warned; [|exact Hm].
    intros year w. apply fetch_year_warned.
  - apply batch_warned; [|exact Hm].
    intros year w. apply fetch_year_rest_warned.
Qed.

(** X4 at the arguments [2018 2023 2014 2016]. *)
Lemma X4_witness :
  warned (console
            (snd (GraphQL.main amsterdam quiet int_ascii
                    ["2018"; "2023"; "2014"; "2016"]%string fresh)))
  = warned (console (@fresh GraphQL.window))
    ++ List.filter (fun y => y <? 2019) [2018; 2023; 2014; 2016]
  /\ warned (console
               (snd (Rest.main amsterdam (rest_answering []) int_ascii
                       ["2018"; "2023"; "2014"; "2016"]%string fresh)))
     = warned (console (@fresh Rest.query))
       ++ List.filter (fun y => y <? 2015) [2018; 2023; 2014; 2016].
Proof.
  apply (X4_one_warning_per_year_below_floor amsterdam quiet
           (rest_answering []) int_ascii
           ["2018"; "2023"; "2014"; "2016"]%string [2018; 2023; 2014; 2016]
           fresh fresh).
  vm_compute. reflexivity.
Defined.

Lemma sorted_head_least (vs : list Z) (h : Z) (t : list Z) (y : Z) :
  sorted vs = h :: t -> y ∈ vs -> h <= y.
Proof.
  intros Hs Hy.
  apply (elem_of_Permutation_proper _ _ _ (sorted_Permutation vs)) in Hy.
  assert (Hss : StronglySorted Z.le (sorted vs)).
  { apply Sorted_StronglySorted; [|apply sorted_Sorted].
    intros a b c Hab Hbc. exact (Z.le_trans a b c Hab Hbc). }
  rewrite Hs in Hy, Hss.
  apply StronglySorted_inv in Hss as [_ Hall].
  apply elem_of_cons in Hy as [->|Hy]; [lia|].
  apply (proj1 (Forall_forall _ _) Hall y Hy).
Qed.

(** X5.  In [fetch_energyzero_data.py], a year [date] refuses (below 1 or
    above 9999) among parseable arguments makes [main] end with an
    exception that nothing catches, whatever the other years are; when a
    year is below 1, this happens before any request is sent and before any
    file is written. *)
Theorem X5_year_refused_by_date_ends_the_batch :
  forall astimezone get_electricity_prices int (args : list string)
         (vs : list Z) (w : world GraphQL.window) (y : Z),
    mapM int args = Some vs ->
    output_dir_exists w = true ->
    y ∈ vs ->
    ~ (Calendar.MINYEAR <= y <= Calendar.MAXYEAR) ->
    fst (GraphQL.main astimezone get_electricity_prices int args w) = Uncaught
    /\ (y < Calendar.MINYEAR ->
        requests
          (snd (GraphQL.main astimezone get_electricity_prices int args w))
        = requests w
        /\ files
             (snd (GraphQL.main astimezone get_electricity_prices int args w))
           = files w).
Proof.
  intros astimezone get_electricity_prices int args vs w y Hm Hdir Hy Hbad.
  assert (Hargs : args <> []).
  { intros ->. injection Hm as <-. apply elem_of_nil in Hy. exact Hy. }
  destruct (batch_valid int 2019
              (GraphQL.fetch_year astimezone get_electricity_prices)
              args vs w Hm Hargs Hdir) as (w0 & Hb & Hr & Hf & _).
  unfold GraphQL.main. rewrite Hb. split.
  - apply (run_years_raises _
             (fun y => ~ (Calendar.MINYEAR <= y <= Calendar.MAXYEAR))).
    + intros year w1 Hyear.
      rewrite (GraphQLFacts.fetch_year_out_of_range _ _ year w1 Hyear).
      reflexivity.
    + exists y. split; [|exact Hbad].
      apply (elem_of_Permutation_proper _ _ _ (sorted_Permutation vs)).
      exact Hy.
  - intros Hlow. destruct (sorted vs) as [|h t] eqn:Hs.
    + apply (elem_of_Permutation_proper _ _ _ (sorted_Permutation vs)) in Hy.
      rewrite Hs in Hy. apply elem_of_nil in Hy. destruct Hy.
    + pose proof (sorted_head_least vs h t y Hs Hy) as Hh. simpl.
      rewrite (GraphQLFacts.fetch_year_out_of_range _ _ h w0) by lia.
      simpl. split; assumption.
Qed.

(** X5 at the arguments [2023 0 2024]: the run of year 0 comes first and
    raises. *)
Lemma X5_witness :
  fst (GraphQL.main amsterdam quiet int_ascii ["2023"; "0"; "2024"]%string
         fresh) = Uncaught
  /\ (0 < Calendar.MINYEAR ->
      requests (snd (GraphQL.main amsterdam quiet int_ascii
                       ["2023"; "0"; "2024"]%string fresh))
      = requests (@fresh GraphQL.window)
      /\ files (snd (GraphQL.main amsterdam quiet int_ascii
                       ["2023"; "0"; "2024"]%string fresh))
         = files (@fresh GraphQL.window)).
Proof.
  apply (X5_year_refused_by_date_ends_the_batch amsterdam quiet int_ascii
           ["2023"; "0"; "2024"]%string [2023; 0; 2024] fresh 0).
  - vm_compute. reflexivity.
  - reflexivity.
  - apply list_elem_of_further, list_elem_of_here.
  - unfold Calendar.MINYEAR. lia.
Defined.



(** X7.  In [fetch_energyzero_rest.py] an answer whose status is not 200
    makes [fetch_year_rest] return [None] after its one request: no file is
    written, and the loop of [main] prints that it skips the year and goes
    on with the years that remain. *)
Theorem X7_rest_status_not_200_skips_the_year :
  forall astimezone get year rest (w : world Rest.query) status Prices,
    get (requests w) (Rest.params year) = Rest.Answer status Prices ->
    status <> 200 ->
    exists w',
      Rest.fetch_year_rest astimezone get year w = (Return None, w')
      /\ requests w' = requests w ++ [Rest.params year]
      /\ files w' = files w
      /\ run_years (Rest.fetch_year_rest astimezone get) (year :: rest) w
         = run_years (Rest.fetch_year_rest astimezone get) rest
             (print (Skipped year) w')
      /\ files (print (Skipped year) w') = files w.
Proof.
  intros astimezone get year rest w status Prices Hget Hstatus.
  pose proof (RestFacts.fetch_year_rest_spec astimezone get year w) as Hspec.
  rewrite Hget in Hspec.
  destruct (Z.eqb_spec status 200) as [?|_]; [contradiction|].
  eexists. split; [exact Hspec|]. split; [reflexivity|].
  split; [reflexivity|]. split; [|reflexivity].
  simpl. rewrite Hspec. reflexivity.
Qed.

(** X7 at 2023 with a service that answers 503, and 2024 still to come. *)
Lemma X7_witness :
  exists w',
    Rest.fetch_year_rest amsterdam rest_unavailable 2023 fresh
    = (Return None, w')
    /\ requests w' = requests (@fresh Rest.query) ++ [Rest.params 2023]
    /\ files w' = files (@fresh Rest.query)
    /\ run_years (Rest.fetch_year_rest amsterdam rest_unavailable)
         (2023 :: [2024]) fresh
       = run_years (Rest.fetch_year_rest amsterdam rest_unavailable) [2024]
           (print (Skipped 2023) w')
    /\ files (print (Skipped 2023) w') = files (@fresh Rest.query).
Proof.
  apply (X7_rest_status_not_200_skips_the_year amsterdam rest_unavailable 2023
           [2024] fresh 503 []).
  - reflexivity.
  - discriminate.
Defined.

(** X8.  In [fetch_energyzero_rest.py] a call to the service that raises is
    caught nowhere: [fetch_year_rest] raises, and the loop of [main] ends
    with the exception.  The run of that year was started and its request
    sent, no file was written for it, and no run is started for the years
    that remain. *)
Theorem X8_rest_raising_call_ends_the_batch :
  forall astimezone get year rest (w : world Rest.query),
    get (requests w) (Rest.params year) = Rest.ClientError ->
    exists w',
      run_years (Rest.fetch_year_rest astimezone get) (year :: rest) w
      = (Uncaught, w')
      /\ requests w' = requests w ++ [Rest.params year]
      /\ files w' = files w
      /\ runs (console w') = runs (console w) ++ [year].
Proof.
  intros astimezone get year rest w Hget.
  pose proof (RestFacts.fetch_year_rest_spec astimezone get year w) as Hspec.
  rewrite Hget in Hspec.
  eexists. split; [simpl; rewrite Hspec; reflexivity|].
  split; [reflexivity|]. split; [reflexivity|].
  simpl. rewrite runs_app. simpl. reflexivity.
Qed.

(** X8 at 2023 with 2024 still to come: the run of 2024 is never
    started. *)
Lemma X8_witness :
  exists w',
    run_years (Rest.fetch_year_rest amsterdam rest_raising_2023)
      (2023 :: [2024]) fresh
    = (Uncaught, w')
    /\ requests w' = requests (@fresh Rest.query) ++ [Rest.params 2023]
    /\ files w' = files (@fresh Rest.query)
    /\ runs (console w') = runs (console (@fresh Rest.query)) ++ [2023].
Proof.
  apply (X8_rest_raising_call_ends_the_batch amsterdam rest_raising_2023 2023
           [2024] fresh).
  vm_compute. reflexivity.
Defined.

Lemma runs_count_message_rest (year n : Z) :
  runs [Started year; Rest.count_message year n] = [year].
Proof.
  unfold Rest.count_message. repeat (destruct (_ =? _)); reflexivity.
Qed.

(** The requests of the loop of [fetch_energyzero_rest.py]: one for each
    run started, that of the run's year. *)
Lemma rest_run_years_requests astimezone get (years : list Z) :
  forall w : world Rest.query,
  exists done,
    done `prefix_of` years
    /\ runs (console
               (snd (run_years (Rest.fetch_year_rest astimezone get) years w)))
       = runs (console w) ++ done
    /\ requests
         (snd (run_years (Rest.fetch_year_rest astimezone get) years w))
       = requests w ++ map Rest.params done.
Proof.
  induction years as [|y years IH]; intros w.
  - exists []. simpl. rewrite !app_nil_r. split; [reflexivity|]. split; reflexivity.
  - simpl. rewrite (RestFacts.fetch_year_rest_spec astimezone get y w).
    destruct (get (requests w) (Rest.params y)) as [|status Prices].
    + exists [y]. split; [exists years; reflexivity|]. simpl.
      rewrite runs_app. split; reflexivity.
    + destruct (status =? 200).
      * match goal with |- context [run_years _ years ?w1] =>
          destruct (IH w1) as (done & Hp & Hruns & Hreq) end.
        exists (y :: done). split; [apply prefix_cons; exact Hp|].
        rewrite Hruns, Hreq. unfold print, dump. cbn [console requests].
        rewrite !runs_app, runs_count_message_rest. simpl.
        rewrite app_nil_r, <- !app_assoc. split; reflexivity.
      * match goal with |- context [run_years _ years ?w1] =>
          destruct (IH w1) as (done & Hp & Hruns & Hreq) end.
        exists (y :: done). split; [apply prefix_cons; exact Hp|].
        rewrite Hruns, Hreq. unfold print. cbn [console requests].
        rewrite !runs_app. simpl.
        rewrite <- !app_assoc. split; reflexivity.
Qed.

(** X9.  [main] of [fetch_energyzero_rest.py] sends exactly one request
    for each per-year run it starts, in the order of the runs, and that
    request is the one for the run's year; whatever the arguments and the
    service do, it sends no other request. *)
Theorem X9_rest_one_request_per_run :
  forall astimezone get int (args : list string) (w : world Rest.query),
    exists done,
      runs (console (snd (Rest.main astimezone get int args w)))
      = runs (console w) ++ done
      /\ requests (snd (Rest.main astimezone get int args w))
         = requests w ++ map Rest.params done.
Proof.
  intros astimezone get int args w. unfold Rest.main, batch.
  destruct args as [|a args].
  - exists []. simpl. rewrite runs_app, !app_nil_r. split; reflexivity.
  - destruct (parse_years_frame int 2015 (a :: args) [] w)
      as (Hr & Hd & Hf & Hc).
    destruct (parse_years int 2015 (a :: args) [] w) as [[years|] w1];
      simpl in Hr, Hd, Hf, Hc.
    + destruct years as [|y years].
      * exists []. simpl. rewrite runs_app, Hr, Hc, !app_nil_r.
        split; reflexivity.
      * destruct (output_dir_exists w1); simpl negb; cbv iota.
        -- destruct (rest_run_years_requests astimezone get
                       (sorted (y :: years)) w1) as (done & _ & Hruns & Hreq).
           exists done. rewrite Hruns, Hreq, Hr, Hc. split; reflexivity.
        -- exists []. simpl. rewrite runs_app, Hr, Hc, !app_nil_r.
           split; reflexivity.
    + exists []. simpl. rewrite Hr, Hc, !app_nil_r. split; reflexivity.
Qed.




(** ** The number of windows of a year *)





(** ** The text of a date-time and its order *)

Lemma N_of_digit (d : Z) : N_of_ascii (digit d) = Z.to_N (48 + d mod 10).
Proof.
  unfold digit. apply N_ascii_embedding.
  assert (0 <= d mod 10 < 10) by (apply Z.mod_pos_bound; lia). lia.
Qed.

Lemma digit_compare (a b : Z) :
  Ascii.compare (digit a) (digit b) = (a mod 10 ?= b mod 10).
Proof.
  unfold Ascii.compare. rewrite !N_of_digit.
  assert (0 <= a mod 10 < 10) by (apply Z.mod_pos_bound; lia).
  assert (0 <= b mod 10 < 10) by (apply Z.mod_pos_bound; lia).
  rewrite Z2N.inj_compare by lia.
  rewrite Z.add_compare_mono_l. reflexivity.
Qed.

Lemma compare_pad2 (m n : Z) (s t : string) :
  0 <= m <= 99 -> 0 <= n <= 99 ->
  String.compare (pad2 m ++ s) (pad2 n ++ t)
  = match m ?= n with Eq => String.compare s t | c => c end.
Proof.
  intros Hm Hn. unfold pad2. simpl. rewrite !digit_compare.
  destruct (Z.compare_spec ((m / 10) mod 10) ((n / 10) mod 10)) as [E1|L1|L1];
    [destruct (Z.compare_spec (m mod 10) (n mod 10)) as [E2|L2|L2]|..];
    destruct (Z.compare_spec m n) as [E|L|L]; try reflexivity;
    exfalso; Z.div_mod_to_equations; lia.
Qed.

Lemma compare_pad4 (m n : Z) (s t : string) :
  0 <= m <= 9999 -> 0 <= n <= 9999 ->
  String.compare (pad4 m ++ s) (pad4 n ++ t)
  = match m ?= n with Eq => String.compare s t | c => c end.
Proof.
  intros Hm Hn. unfold pad4, pad2. simpl. rewrite !digit_compare.
  destruct (Z.compare_spec ((m / 1000) mod 10) ((n / 1000) mod 10)) as [E1|L1|L1];
    [destruct (Z.compare_spec ((m / 100) mod 10) ((n / 100) mod 10)) as [E2|L2|L2];
     [destruct (Z.compare_spec ((m / 10) mod 10) ((n / 10) mod 10)) as [E3|L3|L3];
      [destruct (Z.compare_spec (m mod 10) (n mod 10)) as [E4|L4|L4]|..]|..]|..];
    destruct (Z.compare_spec m n) as [E|L|L]; try reflexivity;
    exfalso; Z.div_mod_to_equations; lia.
Qed.

Lemma strftime_compare (a b : datetime) :
  fields_in_range a -> fields_in_range b ->
  String.compare (strftime a) (strftime b) = datetime_compare a b.
Proof.
  intros (Hy & Hm & Hd & Hh & Hmi & Hs) (Hy' & Hm' & Hd' & Hh' & Hmi' & Hs').
  unfold strftime, datetime_compare.
  rewrite compare_pad4 by lia.
  destruct (year a ?= year b); try reflexivity.
  change (String.compare ("-" ++ ?s) ("-" ++ ?t)) with (String.compare s t).
  rewrite compare_pad2 by lia.
  destruct (month a ?= month b); try reflexivity.
  change (String.compare ("-" ++ ?s) ("-" ++ ?t)) with (String.compare s t).
  rewrite compare_pad2 by lia.
  destruct (day a ?= day b); try reflexivity.
  change (String.compare ("T" ++ ?s) ("T" ++ ?t)) with (String.compare s t).
  rewrite compare_pad2 by lia.
  destruct (hour a ?= hour b); try reflexivity.
  change (String.compare (":" ++ ?s) (":" ++ ?t)) with (String.compare s t).
  rewrite compare_pad2 by lia.
  destruct (minute a ?= minute b); try reflexivity.
  change (String.compare (":" ++ ?s) (":" ++ ?t)) with (String.compare s t).
  change (pad2 (second a)) with (pad2 (second a) ++ "")%string.
  change (pad2 (second b)) with (pad2 (second b) ++ "")%string.
  rewrite compare_pad2 by lia.
  destruct (second a ?= second b); reflexivity.
Qed.

Lemma strftime_ltb (a b : datetime) :
  fields_in_range a -> fields_in_range b ->
  String.ltb (strftime a) (strftime b) = datetime_ltb a b.
Proof.
  intros Ha Hb. unfold String.ltb, datetime_ltb.
  rewrite strftime_compare by assumption. reflexivity.
Qed.

Section SortMap.
Context {A B K K' : Type} (ltb : K -> K -> bool) (key : B -> K).
Context (ltb' : K' -> K' -> bool) (key' : A -> K') (f : A -> B).

Lemma insert_by_map (x : A) (l : list A) :
  Forall (fun y => ltb (key (f y)) (key (f x)) = ltb' (key' y) (key' x)) l ->
  insert_by ltb key (f x) (map f l) = map f (insert_by ltb' key' x l).
Proof.
  induction 1 as [|y l Hy Hl IH]; [reflexivity|].
  simpl. rewrite Hy. destruct (ltb' (key' y) (key' x)); [|reflexivity].
  rewrite IH. reflexivity.
Qed.

Lemma sort_by_map (l : list A) :
  (forall x y, x ∈ l -> y ∈ l ->
     ltb (key (f y)) (key (f x)) = ltb' (key' y) (key' x)) ->
  sort_by ltb key (map f l) = map f (sort_by ltb' key' l).
Proof.
  induction l as [|x l IH]; intros H; [reflexivity|].
  simpl. rewrite IH.
  - apply insert_by_map. apply Forall_forall. intros y Hy.
    rewrite (sort_by_Permutation ltb' key' l) in Hy.
    apply H; [left|right; exact Hy].
  - intros a b Ha Hb. apply H; right; assumption.
Qed.

End SortMap.

Lemma datetime_compare_antisym (a b : datetime) :
  datetime_compare b a = CompOpp (datetime_compare a b).
Proof.
  unfold datetime_compare.
  rewrite (Z.compare_antisym (year a) (year b)),
    (Z.compare_antisym (month a) (month b)),
    (Z.compare_antisym (day a) (day b)),
    (Z.compare_antisym (hour a) (hour b)),
    (Z.compare_antisym (minute a) (minute b)),
    (Z.compare_antisym (second a) (second b)).
  destruct (year a ?= year b), (month a ?= month b), (day a ?= day b),
    (hour a ?= hour b), (minute a ?= minute b), (second a ?= second b);
    reflexivity.
Qed.

Lemma datetime_ltb_asym (a b : datetime) :
  datetime_ltb a b = true -> datetime_ltb b a = false.
Proof.
  unfold datetime_ltb. rewrite (datetime_compare_antisym a b).
  destruct (datetime_compare a b); simpl; congruence.
Qed.

(** X14.  Because the timestamp text has fixed width, sorting by the text
    is sorting by local wall-clock time: the series of
    [fetch_energyzero_rest.py] consists of the points of the kept records
    in ascending order of their local date and time, records with the same
    local time in the order of arrival. *)
Theorem X14_rest_series_is_in_wall_clock_order :
  forall astimezone year (Prices : list Rest.reading),
    Forall (fun r => fields_in_range (astimezone (Rest.readingDate r))) Prices ->
    prices (Rest.series astimezone year Prices)
    = map (Rest.to_point astimezone)
        (sort_by datetime_ltb (fun r => astimezone (Rest.readingDate r))
           (List.filter (Rest.in_year astimezone year) Prices))
    /\ Sorted (fun a b =>
                 datetime_compare (astimezone (Rest.readingDate a))
                                  (astimezone (Rest.readingDate b)) <> Gt)
         (sort_by datetime_ltb (fun r => astimezone (Rest.readingDate r))
            (List.filter (Rest.in_year astimezone year) Prices)).
Proof.
  intros astimezone year Prices Hwf. split.
  - unfold Rest.series, Rest.arrived. cbn [prices].
    apply sort_by_map. intros x y Hx Hy.
    unfold Rest.to_point. cbn [timestamp].
    apply strftime_ltb.
    + apply list_elem_of_In, filter_In in Hy as [Hy _].
      exact (proj1 (Forall_forall _ _) Hwf y (proj2 (list_elem_of_In _ _) Hy)).
    + apply list_elem_of_In, filter_In in Hx as [Hx _].
      exact (proj1 (Forall_forall _ _) Hwf x (proj2 (list_elem_of_In _ _) Hx)).
  - eapply Sorted_weaken;
      [|apply (sort_by_Sorted datetime_ltb
                 (fun r => astimezone (Rest.readingDate r)));
        exact datetime_ltb_asym].
    intros a b. simpl. unfold datetime_ltb.
    rewrite (datetime_compare_antisym (astimezone (Rest.readingDate a))).
    destruct (datetime_compare _ _); simpl; congruence.
Qed.

(** X14 for three records of 2023 that arrive latest first. *)
Lemma X14_witness :
  prices (Rest.series amsterdam 2023
            [rest_hourly 2023 1 2 11 0.5; fallback_late; fallback_early])
  = map (Rest.to_point amsterdam)
      (sort_by datetime_ltb (fun r => amsterdam (Rest.readingDate r))
         (List.filter (Rest.in_year amsterdam 2023)
            [rest_hourly 2023 1 2 11 0.5; fallback_late; fallback_early])).
Proof.
  apply (X14_rest_series_is_in_wall_clock_order amsterdam 2023
           [rest_hourly 2023 1 2 11 0.5; fallback_late; fallback_early]).
  repeat constructor; vm_compute; discriminate.
Defined.

(** ** The hours counted per day *)

Section DaysByDateFacts.
Context {V : Type}.

Lemma list_to_map_setdefault_update (init : V) f day (d : list (string * V)) :
  (list_to_map (setdefault_update init f day d) : gmap string V)
  = <[day := f (default init ((list_to_map d : gmap string V) !! day))]>
      (list_to_map d).
Proof.
  induction d as [|[k v] d IH]; simpl; [reflexivity|].
  destruct (String.eqb_spec k day) as [->|Hne]; simpl.
  - rewrite lookup_insert_eq. simpl. rewrite insert_insert_eq. reflexivity.
  - rewrite IH, lookup_insert_ne by exact Hne.
    apply insert_insert_ne. exact Hne.
Qed.

Lemma keys_setdefault_update (init : V) f day (d : list (string * V)) :
  map fst (setdefault_update init f day d)
  = if decide (day ∈ map fst d) then map fst d else map fst d ++ [day].
Proof.
  induction d as [|[k v] d IH]; [reflexivity|].
  cbn [setdefault_update map fst].
  destruct (String.eqb_spec k day) as [->|Hne]; cbn [map fst].
  - rewrite decide_True by left. reflexivity.
  - rewrite IH. destruct (decide (day ∈ map fst d)) as [Hin|Hn].
    + rewrite decide_True by (right; exact Hin). reflexivity.
    + rewrite decide_False; [reflexivity|].
      intros Hin'. apply elem_of_cons in Hin' as [E|Hin'];
        [congruence|contradiction].
Qed.

Lemma NoDup_setdefault_update (init : V) f day (d : list (string * V)) :
  NoDup (map fst d) -> NoDup (map fst (setdefault_update init f day d)).
Proof.
  intros H. rewrite keys_setdefault_update.
  destruct (decide _) as [Hin|Hn]; [exact H|].
  apply NoDup_app. split; [exact H|]. split; [|apply NoDup_singleton].
  intros x Hx Hx'. apply list_elem_of_singleton in Hx'. subst x. contradiction.
Qed.

Lemma getitem_list_to_map day (d : list (string * V)) :
  getitem day d = (list_to_map d : gmap string V) !! day.
Proof.
  induction d as [|[k v] d IH]; simpl; [reflexivity|].
  destruct (String.eqb_spec k day) as [->|Hne].
  - rewrite lookup_insert_eq. reflexivity.
  - rewrite lookup_insert_ne by exact Hne. exact IH.
Qed.

Context {P : Type} (key : P -> string) (init : V) (f : P -> V -> V).
Lemma tally_snoc ps p :
  tally key init f (ps ++ [p])
  = setdefault_update init (f p) (key p) (tally key init f ps).
Proof. unfold tally. rewrite fold_left_app. reflexivity. Qed.

Lemma NoDup_tally ps : NoDup (map fst (tally key init f ps)).
Proof.
  induction ps as [|p ps IH] using rev_ind; [constructor|].
  rewrite tally_snoc. apply NoDup_setdefault_update, IH.
Qed.

Lemma getitem_tally ps day :
  getitem day (tally key init f ps)
  = match List.filter (fun p => String.eqb (key p) day) ps with
    | [] => None
    | l => Some (fold_left (fun v p => f p v) l init)
    end.
Proof.
  induction ps as [|p ps IH] using rev_ind; [reflexivity|].
  rewrite tally_snoc, getitem_list_to_map, list_to_map_setdefault_update.
  rewrite <- getitem_list_to_map. rewrite List.filter_app. simpl.
  destruct (String.eqb_spec (key p) day) as [->|Hne].
  - rewrite lookup_insert_eq, IH.
    destruct (List.filter _ ps) as [|q l] eqn:E; simpl; [reflexivity|].
    rewrite fold_left_app. reflexivity.
  - rewrite lookup_insert_ne by exact Hne.
    rewrite <- getitem_list_to_map, IH, app_nil_r. reflexivity.
Qed.

Lemma elem_of_tally ps day v :
  (day, v) ∈ tally key init f ps
  <-> getitem day (tally key init f ps) = Some v.
Proof.
  rewrite getitem_list_to_map. apply elem_of_list_to_map.
  apply NoDup_tally.
Qed.

End DaysByDateFacts.

Lemma NoDup_keys_filter {V : Type} (p : string * V -> bool)
  (d : list (string * V)) :
  NoDup (map fst d) -> NoDup (map fst (List.filter p d)).
Proof.
  induction d as [|x d IH]; simpl; [constructor|].
  intros H. apply NoDup_cons in H as [Hx Hd].
  destruct (p x); [|apply IH, Hd].
  simpl. apply NoDup_cons. split; [|apply IH, Hd].
  intros Hin. apply Hx.
  apply list_elem_of_fmap in Hin as (y & -> & Hy).
  apply list_elem_of_fmap. exists y. split; [reflexivity|].
  apply list_elem_of_In in Hy. apply filter_In in Hy as [Hy _].
  apply list_elem_of_In, Hy.
Qed.

Lemma elem_of_keys_filter {V : Type} (p : string * V -> bool)
  (d : list (string * V)) (day : string) :
  day ∈ map fst (List.filter p d) <-> exists v, (day, v) ∈ d /\ p (day, v) = true.
Proof.
  rewrite list_elem_of_fmap. split.
  - intros ([k v] & -> & H). apply list_elem_of_In, filter_In in H as [H1 H2].
    exists v. split; [apply list_elem_of_In, H1|exact H2].
  - intros (v & H1 & H2). exists (day, v). split; [reflexivity|].
    apply list_elem_of_In, filter_In. split; [apply list_elem_of_In, H1|exact H2].
Qed.

Lemma fold_left_count {P : Type} (l : list P) (c : Z) :
  fold_left (fun v _ => v + 1) l c = c + Z.of_nat (length l).
Proof.
  revert c. induction l as [|p l IH]; intros c; simpl fold_left.
  - simpl. lia.
  - rewrite IH. simpl length. lia.
Qed.

Lemma sum_setdefault_update (day : string) (d : list (string * Z)) :
  foldr Z.add 0 (map snd (setdefault_update 0 (fun c => c + 1) day d))
  = foldr Z.add 0 (map snd d) + 1.
Proof.
  induction d as [|[k c] d IH]; simpl; [reflexivity|].
  destruct (String.eqb k day); simpl; lia.
Qed.

Lemma days_by_date_count prices day c :
  (day, c) ∈ GraphQLReport.days_by_date prices
  <-> entries_on day prices <> [] /\ c = Z.of_nat (length (entries_on day prices)).
Proof.
  change (GraphQLReport.days_by_date prices)
    with (tally (fun p => substring 0 10 (timestamp p)) 0
            (fun (_ : PricePoint) c => c + 1) prices).
  rewrite elem_of_tally, getitem_tally. fold (entries_on day prices).
  destruct (entries_on day prices) as [|q l] eqn:E.
  - split; [discriminate|]. intros [H _]. destruct H. reflexivity.
  - rewrite (fold_left_count (q :: l) 0). split.
    + intros [= <-]. split; [discriminate|]. simpl length. lia.
    + intros [_ ->]. simpl length. f_equal; lia.
Qed.

Lemma days_by_date_sum (prices : list PricePoint) :
  foldr Z.add 0 (map snd (GraphQLReport.days_by_date prices))
  = Z.of_nat (length prices).
Proof.
  unfold GraphQLReport.days_by_date.
  induction prices as [|p prices IH] using rev_ind; [reflexivity|].
  rewrite fold_left_app. simpl fold_left.
  rewrite sum_setdefault_update, IH, length_app. simpl. lia.
Qed.

(** X12.  The check of [fetch_energyzero_data.py] for clock changes lists a
    date under the 23-hour (25-hour) days exactly when 23 (25) entries of
    the series carry that date in the first ten characters of their
    timestamp; it lists no date twice, and the counts of all the dates add
    up to the number of entries. *)
Theorem X12_days_counted_by_date :
  forall (prices : list PricePoint) (day : string),
    (day ∈ GraphQLReport.days_23h prices
     <-> length (entries_on day prices) = 23%nat)
    /\ (day ∈ GraphQLReport.days_25h prices
        <-> length (entries_on day prices) = 25%nat)
    /\ NoDup (GraphQLReport.days_23h prices)
    /\ NoDup (GraphQLReport.days_25h prices)
    /\ foldr Z.add 0 (map snd (GraphQLReport.days_by_date prices))
       = Z.of_nat (length prices).
Proof.
  intros prices day.
  assert (Hkeys : NoDup (map fst (GraphQLReport.days_by_date prices))).
  { apply (NoDup_tally (fun p => substring 0 10 (timestamp p)) 0
             (fun (_ : PricePoint) c => c + 1)). }
  assert (Hin : forall n : nat, (0 < n)%nat ->
            day ∈ map fst (List.filter (fun dc => snd dc =? Z.of_nat n)
                             (GraphQLReport.days_by_date prices))
            <-> length (entries_on day prices) = n).
  { intros n Hn. rewrite elem_of_keys_filter. split.
    - intros (c & Hc & E). apply days_by_date_count in Hc as [_ ->].
      cbn [snd] in E. apply Z.eqb_eq in E. lia.
    - intros E. exists (Z.of_nat n). split; [|cbn [snd]; apply Z.eqb_refl].
      apply days_by_date_count. rewrite E. split; [|reflexivity].
      intros E'. rewrite E' in E. simpl in E. lia. }
  split; [|split; [|split; [|split]]].
  - apply (Hin 23%nat). lia.
  - apply (Hin 25%nat). lia.
  - apply NoDup_keys_filter, Hkeys.
  - apply NoDup_keys_filter, Hkeys.
  - apply days_by_date_sum.
Qed.

Lemma strftime_date_slice (dt : datetime) :
  substring 0 10 (strftime dt)
  = (pad4 (year dt) ++ "-" ++ pad2 (month dt) ++ "-" ++ pad2 (day dt))%string.
Proof. reflexivity. Qed.

Lemma strftime_hour_slice (dt : datetime) :
  substring 11 2 (strftime dt) = pad2 (hour dt).
Proof. reflexivity. Qed.

Lemma filter_Permutation_bool {A : Type} (p : A -> bool) (l k : list A) :
  Permutation l k -> Permutation (List.filter p l) (List.filter p k).
Proof.
  induction 1 as [|x l k H IH|x y l|l k m H1 IH1 H2 IH2]; simpl.
  - constructor.
  - destruct (p x); [constructor|]; exact IH.
  - destruct (p x), (p y); try reflexivity. apply perm_swap.
  - etransitivity; eassumption.
Qed.

Lemma existsb_Permutation {A : Type} (p : A -> bool) (l k : list A) :
  Permutation l k -> existsb p l = existsb p k.
Proof.
  induction 1 as [|x l k H IH|x y l|l k m H1 IH1 H2 IH2]; simpl.
  - reflexivity.
  - rewrite IH. reflexivity.
  - destruct (p x), (p y); reflexivity.
  - congruence.
Qed.

Lemma existsb_map {A B : Type} (p : B -> bool) (f : A -> B) (l : list A) :
  existsb p (map f l) = existsb (fun x => p (f x)) l.
Proof. induction l as [|x l IH]; simpl; [|rewrite IH]; reflexivity. Qed.

Lemma filter_map_bool {A B : Type} (p : B -> bool) (f : A -> B) (l : list A) :
  List.filter p (map f l) = map f (List.filter (fun x => p (f x)) l).
Proof.
  induction l as [|x l IH]; simpl; [reflexivity|].
  destruct (p (f x)); simpl; rewrite IH; reflexivity.
Qed.

Lemma mapM_total {A B : Type} (f : A -> option B) (g : A -> B) (l : list A) :
  Forall (fun x => f x = Some (g x)) l -> mapM f l = Some (map g l).
Proof.
  induction 1 as [|x l Hx Hl IH]; [reflexivity|].
  simpl. rewrite Hx. simpl. rewrite IH. reflexivity.
Qed.

Lemma mapM_map {A B C : Type} (f : B -> option C) (g : A -> B) (l : list A) :
  mapM f (map g l) = mapM (fun x => f (g x)) l.
Proof.
  induction l as [|x l IH]; [reflexivity|]. simpl. rewrite IH. reflexivity.
Qed.

Lemma fold_left_snoc_map {A B : Type} (f : A -> B) (l : list A) (acc : list B) :
  fold_left (fun v p => v ++ [f p]) l acc = acc ++ map f l.
Proof.
  revert acc. induction l as [|x l IH]; intros acc; simpl.
  - symmetry. apply app_nil_r.
  - rewrite IH, <- app_assoc. reflexivity.
Qed.

Lemma days_by_date_times prices day times :
  (day, times) ∈ RestReport.days_by_date prices
  <-> entries_on day prices <> []
      /\ times = map timestamp (entries_on day prices).
Proof.
  change (RestReport.days_by_date prices)
    with (tally (fun p => substring 0 10 (timestamp p)) []
            (fun (p : PricePoint) times => times ++ [timestamp p]) prices).
  rewrite elem_of_tally, getitem_tally. fold (entries_on day prices).
  destruct (entries_on day prices) as [|q l] eqn:E.
  - split; [discriminate|]. intros [H _]. destruct H. reflexivity.
  - rewrite (fold_left_snoc_map timestamp (q :: l) []). split.
    + intros [= <-]. split; [discriminate|reflexivity].
    + intros [_ ->]. reflexivity.
Qed.

Lemma getitem_days_by_date prices day :
  entries_on day prices <> [] ->
  getitem day (RestReport.days_by_date prices)
  = Some (map timestamp (entries_on day prices)).
Proof.
  intros H.
  change (RestReport.days_by_date prices)
    with (tally (fun p => substring 0 10 (timestamp p)) []
            (fun (p : PricePoint) times => times ++ [timestamp p]) prices).
  apply elem_of_tally. apply days_by_date_times. split; [exact H|reflexivity].
Qed.

Section IncompleteLines.
Variable astimezone : Z -> datetime.
Variable int : string -> option Z.
Variables (year : Z) (Prices : list Rest.reading).

Hypothesis hours_in_range :
  Forall (fun r => 0 <= hour (astimezone (Rest.readingDate r)) <= 23) Prices.
Hypothesis int_two_digits : forall h, 0 <= h <= 23 -> int (pad2 h) = Some h.

Local Abbreviation prices' := (prices (Rest.series astimezone year Prices)).

Lemma series_of_readings :
  exists l, prices' = map (Rest.to_point astimezone) l
            /\ Permutation l (List.filter (Rest.in_year astimezone year) Prices).
Proof.
  destruct (Permutation_map_inv (Rest.to_point astimezone)
              (List.filter (Rest.in_year astimezone year) Prices)
              (l1 := prices')) as (l & Hl & Hp).
  - apply RestFacts.series_Permutation.
  - exists l. split; [exact Hl|symmetry; exact Hp].
Qed.

Lemma entries_on_series day :
  exists l, entries_on day prices' = map (Rest.to_point astimezone) l
            /\ Permutation l (readings_on astimezone year day Prices).
Proof.
  destruct series_of_readings as (l & Hl & Hp).
  exists (List.filter
            (fun r => String.eqb
               (substring 0 10 (strftime (astimezone (Rest.readingDate r))))
               day) l).
  split.
  - unfold entries_on. rewrite Hl, filter_map_bool. reflexivity.
  - apply filter_Permutation_bool, Hp.
Qed.

Lemma entries_on_series_length day :
  length (entries_on day prices')
  = length (readings_on astimezone year day Prices).
Proof.
  destruct (entries_on_series day) as (l & -> & Hp).
  rewrite length_map. apply Permutation_length, Hp.
Qed.

Lemma missing_hours_series day :
  RestReport.missing_hours int (map timestamp (entries_on day prices'))
  = Some (hours_without astimezone (readings_on astimezone year day Prices)).
Proof.
  destruct (entries_on_series day) as (l & -> & Hp).
  unfold RestReport.missing_hours.
  rewrite map_map, mapM_map.
  rewrite (mapM_total _ (fun r => hour (astimezone (Rest.readingDate r)))).
  - f_equal. unfold hours_without. apply filter_ext. intros h.
    rewrite existsb_map, (existsb_Permutation _ _ _ Hp). reflexivity.
  - apply Forall_forall. intros r Hr. unfold Rest.to_point. cbn [timestamp].
    rewrite strftime_hour_slice. apply int_two_digits.
    assert (Hin : r ∈ Prices).
    { rewrite Hp in Hr. unfold readings_on in Hr.
      apply list_elem_of_In, filter_In in Hr as [Hr _].
      apply filter_In in Hr as [Hr _]. apply list_elem_of_In, Hr. }
    exact (proj1 (Forall_forall _ _) hours_in_range r Hin).
Qed.

End IncompleteLines.

Lemma int_ascii_pad2 (h : Z) : 0 <= h <= 99 -> int_ascii (pad2 h) = Some h.
Proof.
  intros Hh.
  assert (Hall : forallb (fun n => match int_ascii (pad2 (Z.of_nat n)) with
                                   | Some v => v =? Z.of_nat n
                                   | None => false
                                   end) (seq 0 100) = true)
    by (vm_compute; reflexivity).
  rewrite forallb_forall in Hall.
  specialize (Hall (Z.to_nat h)).
  rewrite Z2Nat.id in Hall by lia.
  destruct (int_ascii (pad2 h)) as [v|].
  - f_equal. apply Z.eqb_eq, Hall, in_seq. lia.
  - discriminate Hall. apply in_seq. lia.
Qed.

(** X13.  For a year of four digits, the report of incomplete days of
    [fetch_energyzero_rest.py] never fails on a series the script built:
    the year fills its four places, so [int] is only applied to the two
    digits of an hour.  It has one line for each date that between 1
    and 22 kept records carry, with the number of those records and, in
    ascending order, the hours from 0 to 23 at which none of them falls in
    local time. *)
Theorem X13_incomplete_days_are_listed_with_their_missing_hours :
  forall astimezone int year (Prices : list Rest.reading),
    1000 <= year <= 9999 ->
    Forall (fun r => 0 <= hour (astimezone (Rest.readingDate r)) <= 23) Prices ->
    (forall h, 0 <= h <= 23 -> int (pad2 h) = Some h) ->
    RestReport.incomplete_lines int
      (prices (Rest.series astimezone year Prices))
    = Some (map (fun day =>
                   (day,
                    Z.of_nat (length (readings_on astimezone year day Prices)),
                    hours_without astimezone
                      (readings_on astimezone year day Prices)))
              (RestReport.days_incomplete
                 (prices (Rest.series astimezone year Prices))))
    /\ NoDup (RestReport.days_incomplete
                (prices (Rest.series astimezone year Prices)))
    /\ (forall day,
          day ∈ RestReport.days_incomplete
                  (prices (Rest.series astimezone year Prices))
          <-> (0 < length (readings_on astimezone year day Prices) < 23)%nat).
Proof.
  intros astimezone int year Prices _ Hhours Hint.
  assert (Hday : forall day,
            day ∈ RestReport.days_incomplete
                    (prices (Rest.series astimezone year Prices))
            <-> (0 < length (readings_on astimezone year day Prices) < 23)%nat).
  { intros day. unfold RestReport.days_incomplete.
    rewrite elem_of_keys_filter.
    rewrite <- (entries_on_series_length astimezone year Prices day).
    split.
    - intros (times & Ht & E). apply days_by_date_times in Ht as [Hne ->].
      cbn [snd] in E. apply Z.ltb_lt in E. rewrite length_map in E.
      destruct (entries_on day _); [destruct Hne; reflexivity|].
      simpl length in *. lia.
    - intros Hlen. exists (map timestamp
        (entries_on day (prices (Rest.series astimezone year Prices)))).
      split.
      + apply days_by_date_times. split; [|reflexivity].
        intros E. rewrite E in Hlen. simpl in Hlen. lia.
      + cbn [snd]. rewrite length_map. apply Z.ltb_lt. lia. }
  split; [|split; [|exact Hday]].
  - unfold RestReport.incomplete_lines. apply mapM_total.
    apply Forall_forall. intros day Hin. apply Hday in Hin.
    rewrite <- (entries_on_series_length astimezone year Prices day) in Hin.
    rewrite getitem_days_by_date
      by (intros E; rewrite E in Hin; simpl in Hin; lia).
    rewrite (missing_hours_series astimezone int year Prices Hhours Hint day).
    rewrite length_map.
    rewrite (entries_on_series_length astimezone year Prices day).
    reflexivity.
  - apply NoDup_keys_filter.
    apply (NoDup_tally (fun p => substring 0 10 (timestamp p)) []
             (fun (p : PricePoint) times => times ++ [timestamp p])).
Qed.

(** X13 for the two hours of the repeated 02:00 of October 29, 2023. *)
Lemma X13_witness :
  RestReport.incomplete_lines int_ascii
    (prices (Rest.series amsterdam 2023 [fallback_early; fallback_late]))
  = Some (map (fun day =>
                 (day,
                  Z.of_nat (length (readings_on amsterdam 2023 day
                                      [fallback_early; fallback_late])),
                  hours_without amsterdam
                    (readings_on amsterdam 2023 day
                       [fallback_early; fallback_late])))
            (RestReport.days_incomplete
               (prices (Rest.series amsterdam 2023
                          [fallback_early; fallback_late])))).
Proof.
  apply (X13_incomplete_days_are_listed_with_their_missing_hours
           amsterdam int_ascii 2023 [fallback_early; fallback_late]).
  - lia.
  - repeat constructor; vm_compute; discriminate.
  - intros h Hh. apply int_ascii_pad2. lia.
Defined.

(** ** The year filter under the Europe/Amsterdam rule *)

Lemma days_before_year_succ (y : Z) :
  Calendar.days_before_year (y + 1)
  = Calendar.days_before_year y + (if Calendar.is_leap y then 366 else 365).
Proof.
  pose proof (days_of_year y) as H.
  unfold Calendar.ymd2ord, Calendar.days_before_month in H. simpl in H. lia.
Qed.

Lemma days_before_year_mono (y y' : Z) :
  y <= y' -> Calendar.days_before_year y <= Calendar.days_before_year y'.
Proof.
  intros H. unfold Calendar.days_before_year.
  Z.div_mod_to_equations. lia.
Qed.

Lemma ord2ymd_year_bounds (n : Z) :
  1 <= n ->
  Calendar.days_before_year (fst (fst (Calendar.ord2ymd n))) < n
  /\ n <= Calendar.days_before_year (fst (fst (Calendar.ord2ymd n)) + 1).
Proof.
  intros Hn. unfold Calendar.ord2ymd. cbv zeta.
  set (N := n - 1).
  set (a := N / 146097). set (r0 := N mod 146097).
  set (b := r0 / 36524). set (r1 := r0 mod 36524).
  set (c := r1 / 1461). set (r2 := r1 mod 1461).
  set (d := r2 / 365). set (r3 := r2 mod 365).
  assert (Ha : N = 146097 * a + r0 /\ 0 <= r0 < 146097)
    by (subst a r0; Z.div_mod_to_equations; lia).
  assert (Hb : r0 = 36524 * b + r1 /\ 0 <= r1 < 36524)
    by (subst b r1; Z.div_mod_to_equations; lia).
  assert (Hc : r1 = 1461 * c + r2 /\ 0 <= r2 < 1461)
    by (subst c r2; Z.div_mod_to_equations; lia).
  assert (Hd : r2 = 365 * d + r3 /\ 0 <= r3 < 365)
    by (subst d r3; Z.div_mod_to_equations; lia).
  assert (HN : N = n - 1) by reflexivity.
  clearbody N a r0 b r1 c r2 d r3.
  assert (Hbr : 0 <= b <= 4 /\ 0 <= c <= 24 /\ 0 <= d <= 4) by lia.
  destruct (Z.eqb_spec d 4) as [Hd4|Hd4]; [|destruct (Z.eqb_spec b 4) as [Hb4|Hb4]];
    cbn [orb].
  - cbn [fst]. unfold Calendar.days_before_year.
    Z.div_mod_to_equations; lia.
  - cbn [fst]. unfold Calendar.days_before_year.
    Z.div_mod_to_equations; lia.
  - match goal with |- context [if ?c then _ else _] => destruct c end;
      cbn [fst]; unfold Calendar.days_before_year;
      Z.div_mod_to_equations; lia.
Qed.

Lemma ord2ymd_year (n y : Z) :
  1 <= n ->
  fst (fst (Calendar.ord2ymd n)) = y
  <-> Calendar.days_before_year y < n <= Calendar.days_before_year (y + 1).
Proof.
  intros Hn. destruct (ord2ymd_year_bounds n Hn) as [Hlo Hhi].
  set (Y := fst (fst (Calendar.ord2ymd n))) in *. clearbody Y.
  split; [intros <-; lia|]. intros [Hlo' Hhi'].
  destruct (Z.lt_trichotomy Y y) as [Hlt|[E|Hgt]]; [|exact E|].
  - pose proof (days_before_year_mono (Y + 1) y). lia.
  - pose proof (days_before_year_mono (y + 1) Y). lia.
Qed.

Lemma year_of_seconds (s y : Z) :
  1 - EPOCH_ORDINAL <= s / 86400 ->
  year (datetime_of_seconds s) = y <-> year_start y <= s < year_start (y + 1).
Proof.
  intros Hs. unfold datetime_of_seconds.
  pose proof (ord2ymd_year (s / 86400 + EPOCH_ORDINAL) y) as H.
  destruct (Calendar.ord2ymd (s / 86400 + EPOCH_ORDINAL)) as [[y' m] d].
  cbn [year fst] in *. rewrite H by lia.
  unfold year_start, Calendar.ymd2ord, Calendar.days_before_month.
  cbn [Calendar.DAYS_BEFORE_MONTH Z.ltb Z.compare Pos.compare Pos.compare_cont andb].
  unfold EPOCH_ORDINAL.
  generalize (Calendar.days_before_year y) (Calendar.days_before_year (y + 1)).
  intros d0 d1. Z.div_mod_to_equations. lia.
Qed.

Lemma year_start_mono (y y' : Z) : y <= y' -> year_start y <= year_start y'.
Proof.
  intros H. pose proof (days_before_year_mono y y' H).
  unfold year_start, Calendar.ymd2ord, Calendar.days_before_month. simpl. lia.
Qed.

Lemma year_start_succ (y : Z) :
  year_start (y + 1) = year_start y + 3600 * expected_count y.
Proof.
  pose proof (days_of_year y) as H. rewrite expected_count_is_leap.
  unfold year_start. destruct (Calendar.is_leap y); lia.
Qed.

Lemma dst_end_before_new_year (y : Z) : dst_end y + 7200 < year_start (y + 1).
Proof.
  rewrite year_start_succ, expected_count_is_leap.
  unfold dst_end, last_sunday, year_start, Calendar.ymd2ord,
    Calendar.days_before_month.
  cbn [Calendar.DAYS_BEFORE_MONTH Z.ltb Z.compare Pos.compare Pos.compare_cont andb].
  generalize (Calendar.days_before_year y). intros d0.
  destruct (Calendar.is_leap y); Z.div_mod_to_equations; lia.
Qed.

Lemma amsterdam_offset_cases (u : Z) :
  (amsterdam_offset u = 3600
   \/ (amsterdam_offset u = 7200
       /\ u < dst_end (year (datetime_of_seconds u)))).
Proof.
  unfold amsterdam_offset.
  destruct (dst_start _ <=? u); simpl; [|left; reflexivity].
  destruct (Z.ltb_spec u (dst_end (year (datetime_of_seconds u))));
    [right; split; [reflexivity|assumption]|left; reflexivity].
Qed.

Lemma amsterdam_offset_winter (u : Z) :
  dst_end (year (datetime_of_seconds u)) <= u -> amsterdam_offset u = 3600.
Proof.
  intros H. unfold amsterdam_offset.
  destruct (Z.ltb_spec u (dst_end (year (datetime_of_seconds u)))); [lia|].
  rewrite andb_false_r. reflexivity.
Qed.

Lemma amsterdam_year (u y : Z) :
  0 <= u -> 1970 <= y ->
  year (amsterdam u) = y <-> year_start y - 3600 <= u < year_start (y + 1) - 3600.
Proof.
  intros Hu Hy. unfold amsterdam.
  assert (H1970 : year_start 1970 = 0) by reflexivity.
  assert (Hdiv : forall s, 0 <= s -> 1 - EPOCH_ORDINAL <= s / 86400).
  { intros s Hs. unfold EPOCH_ORDINAL. Z.div_mod_to_equations. lia. }
  pose proof (amsterdam_offset_cases u) as Hoff.
  rewrite year_of_seconds by (apply Hdiv; lia).
  (* the UTC year of [u] *)
  set (Y := year (datetime_of_seconds u)) in *.
  assert (HY : year_start Y <= u < year_start (Y + 1)).
  { apply year_of_seconds; [apply Hdiv, Hu|reflexivity]. }
  pose proof (dst_end_before_new_year Y) as Hend.
  split.
  - intros [Hlo Hhi]. split; [|lia].
    destruct Hoff as [E|[E Hlt]]; rewrite E in *; [lia|].
    destruct (Z_lt_le_dec Y y) as [HYy|HYy]; [|pose proof (year_start_mono y Y HYy); lia].
    pose proof (year_start_mono (Y + 1) y). lia.
  - intros [Hlo Hhi].
    destruct (Z_lt_le_dec u (year_start y)) as [Hbefore|Hin].
    + assert (HYy : Y = y - 1).
      { destruct (Z.lt_trichotomy Y (y - 1)) as [Hlt|[E|Hgt]]; [|exact E|].
        - pose proof (year_start_mono (Y + 1) (y - 1)).
          pose proof (year_start_succ (y - 1)) as Hs.
          replace (y - 1 + 1) with y in Hs by lia.
          assert (0 < expected_count (y - 1))
            by (rewrite expected_count_is_leap;
                destruct (Calendar.is_leap (y - 1)); lia).
          lia.
        - pose proof (year_start_mono y Y). lia. }
      rewrite HYy in Hend. replace (y - 1 + 1) with y in Hend by lia.
      rewrite amsterdam_offset_winter; [lia|]. fold Y. rewrite HYy. lia.
    + assert (HYy : Y = y).
      { destruct (Z.lt_trichotomy Y y) as [Hlt|[E|Hgt]]; [|exact E|].
        - pose proof (year_start_mono (Y + 1) y). lia.
        - pose proof (year_start_mono (y + 1) Y). lia. }
      rewrite HYy in Hend.
      destruct Hoff as [->|[-> Hlt]]; [lia|]. rewrite HYy in Hlt. lia.
Qed.

Lemma year_start_first_hour (y : Z) :
  utc_seconds (y - 1) 12 31 23 = year_start y - 3600.
Proof.
  pose proof (days_of_year (y - 1)) as H.
  replace (y - 1 + 1) with y in H by lia.
  unfold utc_seconds, year_start. rewrite dec31_after_jan1.
  destruct (Calendar.is_leap (y - 1)); lia.
Qed.

Lemma year_start_last_hour (y : Z) :
  utc_seconds y 12 31 23 = year_start (y + 1) - 3600.
Proof.
  rewrite <- year_start_first_hour. f_equal. lia.
Qed.

(** X15.  Under the Europe/Amsterdam rule, the year filter of both scripts
    keeps exactly the Instants from 23:00 UTC on December 31 of the year
    before up to, and not including, 23:00 UTC on December 31 of the year:
    the range that [fetch_year_rest] asks for with [fromDate] and
    [tillDate]. *)
Theorem X15_year_filter_keeps_the_requested_range :
  forall year : Z,
    1996 <= year ->
    (forall r : Rest.reading,
       0 <= Rest.readingDate r ->
       Rest.in_year amsterdam year r = true
       <-> utc_seconds (year - 1) 12 31 23 <= Rest.readingDate r
           < utc_seconds year 12 31 23)
    /\ (forall p : GraphQL.timestamp_price,
          0 <= GraphQL.start_including p ->
          GraphQL.in_year amsterdam year p = true
          <-> utc_seconds (year - 1) 12 31 23 <= GraphQL.start_including p
              < utc_seconds year 12 31 23).
Proof.
  intros year Hy.
  rewrite year_start_first_hour, year_start_last_hour.
  split.
  - intros r Hr. unfold Rest.in_year. rewrite Z.eqb_eq.
    apply amsterdam_year; lia.
  - intros p Hp. unfold GraphQL.in_year. rewrite Z.eqb_eq.
    apply amsterdam_year; lia.
Qed.

(** X15 at 2024. *)
Lemma X15_witness :
  (forall r : Rest.reading,
     0 <= Rest.readingDate r ->
     Rest.in_year amsterdam 2024 r = true
     <-> utc_seconds (2024 - 1) 12 31 23 <= Rest.readingDate r
         < utc_seconds 2024 12 31 23)
  /\ (forall p : GraphQL.timestamp_price,
        0 <= GraphQL.start_including p ->
        GraphQL.in_year amsterdam 2024 p = true
        <-> utc_seconds (2024 - 1) 12 31 23 <= GraphQL.start_including p
            < utc_seconds 2024 12 31 23).
Proof.
  apply (X15_year_filter_keeps_the_requested_range 2024). lia.
Defined.

Lemma expected_count_pos (year : Z) : 0 < expected_count year.
Proof.
  rewrite expected_count_is_leap. destruct (Calendar.is_leap year); lia.
Qed.

Lemma elem_of_hours_of_year (year u : Z) :
  u ∈ hours_of_year year
  <-> u mod 3600 = 0
      /\ utc_seconds (year - 1) 12 31 23 <= u < utc_seconds year 12 31 23.
Proof.
  unfold hours_of_year.
  rewrite year_start_first_hour, (year_start_last_hour year), year_start_succ.
  pose proof (expected_count_pos year) as Hpos.
  assert (Hbase : (year_start year - 3600) mod 3600 = 0).
  { unfold year_start. Z.div_mod_to_equations. lia. }
  rewrite list_elem_of_fmap. split.
  - intros (i & -> & Hi). apply list_elem_of_In, in_seq in Hi. split; [|lia].
    Z.div_mod_to_equations. lia.
  - intros [Hmod Hrange].
    exists (Z.to_nat ((u - (year_start year - 3600)) / 3600)). split.
    + Z.div_mod_to_equations. lia.
    + apply list_elem_of_In, in_seq. Z.div_mod_to_equations. lia.
Qed.

Lemma NoDup_hours_of_year (year : Z) : NoDup (hours_of_year year).
Proof.
  unfold hours_of_year. apply NoDup_fmap_2; [|apply NoDup_seq].
  intros i j H. lia.
Qed.

Lemma length_hours_of_year (year : Z) :
  Z.of_nat (length (hours_of_year year)) = expected_count year.
Proof.
  unfold hours_of_year. rewrite length_map, length_seq.
  pose proof (expected_count_pos year). lia.
Qed.

(** Distinct whole hours: those of the year are at most the expected
    count, and as many exactly when none is missing. *)
Lemma whole_hours_count (year : Z) (us : list Z) :
  1996 <= year ->
  NoDup us ->
  Forall (fun u => 0 <= u /\ u mod 3600 = 0) us ->
  Z.of_nat (length (List.filter (fun u => DateTime.year (amsterdam u) =? year) us))
  <= expected_count year
  /\ (Z.of_nat (length (List.filter (fun u => DateTime.year (amsterdam u) =? year) us))
      = expected_count year
      <-> forall u, u ∈ hours_of_year year -> u ∈ us).
Proof.
  intros Hy Hnd Hus.
  set (K := List.filter (fun u => DateTime.year (amsterdam u) =? year) us).
  assert (HK : forall u, u ∈ K <-> u ∈ us /\ u ∈ hours_of_year year).
  { intros u. unfold K.
    rewrite (list_elem_of_In (List.filter _ us) u), filter_In,
      <- (list_elem_of_In us u).
    rewrite elem_of_hours_of_year, year_start_first_hour, year_start_last_hour.
    split.
    - intros [Hin E]. split; [exact Hin|].
      destruct (proj1 (Forall_forall _ _) Hus u Hin) as [H0 Hmod].
      split; [exact Hmod|]. apply amsterdam_year; [lia|lia|].
      apply Z.eqb_eq, E.
    - intros [Hin [Hmod Hr]]. split; [exact Hin|].
      destruct (proj1 (Forall_forall _ _) Hus u Hin) as [H0 _].
      apply Z.eqb_eq. apply amsterdam_year; [lia|lia|exact Hr]. }
  assert (HndK : NoDup K).
  { unfold K. apply NoDup_ListNoDup, List.NoDup_filter, NoDup_ListNoDup, Hnd. }
  assert (Hsub : K ⊆+ hours_of_year year).
  { apply NoDup_submseteq; [exact HndK|]. intros u Hu. apply HK in Hu. tauto. }
  pose proof (submseteq_length _ _ Hsub) as Hle.
  pose proof (length_hours_of_year year) as Hlen.
  split; [lia|]. split.
  - intros E u Hu.
    assert (Hp : K ≡ₚ hours_of_year year)
      by (apply submseteq_length_Permutation; [exact Hsub|lia]).
    rewrite <- Hp in Hu. apply HK in Hu. tauto.
  - intros Hall.
    assert (Hsub' : hours_of_year year ⊆+ K).
    { apply NoDup_submseteq; [apply NoDup_hours_of_year|].
      intros u Hu. apply HK. split; [apply Hall, Hu|exact Hu]. }
    pose proof (submseteq_length _ _ Hsub'). lia.
Qed.

(** X16.  When the answer to [fetch_year_rest] consists of distinct whole
    hours, the count of the series is at most the expected count, and it
    is the expected count exactly when every hour of the year in
    Europe/Amsterdam is in the answer: under the zone rule, one day of 23
    hours and one of 25 make [days * 24] right. *)
Theorem X16_rest_count_is_expected_iff_no_hour_is_missing :
  forall (year : Z) (Prices : list Rest.reading),
    1996 <= year ->
    NoDup (map Rest.readingDate Prices) ->
    Forall (fun r => 0 <= Rest.readingDate r /\ Rest.readingDate r mod 3600 = 0)
      Prices ->
    count (Rest.series amsterdam year Prices) <= expected_count year
    /\ (count (Rest.series amsterdam year Prices) = expected_count year
        <-> forall u, u ∈ hours_of_year year -> u ∈ map Rest.readingDate Prices).
Proof.
  intros year Prices Hy Hnd Hwhole.
  rewrite RestFacts.series_count_rest.
  replace (length (List.filter (Rest.in_year amsterdam year) Prices))
    with (length (List.filter (fun u => DateTime.year (amsterdam u) =? year)
                    (map Rest.readingDate Prices)))
    by (rewrite filter_map_bool, length_map; reflexivity).
  apply whole_hours_count; [exact Hy|exact Hnd|].
  apply Forall_fmap. exact Hwhole.
Qed.

(** X16 for the two hours of the repeated 02:00 of October 29, 2023. *)
Lemma X16_witness :
  count (Rest.series amsterdam 2023 [fallback_early; fallback_late])
  <= expected_count 2023.
Proof.
  apply (X16_rest_count_is_expected_iff_no_hour_is_missing 2023
           [fallback_early; fallback_late]).
  - lia.
  - apply (bool_decide_unpack _). vm_compute. exact I.
  - repeat constructor; vm_compute; congruence.
Defined.

(** X17.  The same for [fetch_year]: when the answers to its windows
    consist together of distinct whole hours, the count of the series is at
    most the expected count, and it is the expected count exactly when
    every hour of the year in Europe/Amsterdam is in some answer. *)
Theorem X17_windowed_count_is_expected_iff_no_hour_is_missing :
  forall (year : Z) (rs : list (list GraphQL.timestamp_price)),
    1996 <= year ->
    NoDup (map GraphQL.start_including (concat rs)) ->
    Forall (fun p => 0 <= GraphQL.start_including p
                     /\ GraphQL.start_including p mod 3600 = 0)
      (concat rs) ->
    count (GraphQL.series amsterdam year rs) <= expected_count year
    /\ (count (GraphQL.series amsterdam year rs) = expected_count year
        <-> forall u, u ∈ hours_of_year year ->
                      u ∈ map GraphQL.start_including (concat rs)).
Proof.
  intros year rs Hy Hnd Hwhole.
  assert (Hmap : map GraphQL.start_including
                   (List.filter (GraphQL.in_year amsterdam year) (concat rs))
                 = List.filter (fun u => DateTime.year (amsterdam u) =? year)
                     (map GraphQL.start_including (concat rs)))
    by (rewrite filter_map_bool; reflexivity).
  rewrite GraphQLFacts.series_count, GraphQLFacts.kept_all_NoDup.
  - rewrite <- (length_map GraphQL.start_including), Hmap.
    apply whole_hours_count; [exact Hy|exact Hnd|].
    apply Forall_fmap. exact Hwhole.
  - rewrite Hmap. apply NoDup_ListNoDup, List.NoDup_filter, NoDup_ListNoDup, Hnd.
Qed.

(** X17 for three hours of January 2023 in two answers. *)
Lemma X17_witness :
  count (GraphQL.series amsterdam 2023
           [[hourly 2023 1 8 22 0.25; hourly 2023 1 8 23 0.5];
            [hourly 2023 1 9 0 0.125]])
  <= expected_count 2023.
Proof.
  apply (X17_windowed_count_is_expected_iff_no_hour_is_missing 2023
           [[hourly 2023 1 8 22 0.25; hourly 2023 1 8 23 0.5];
            [hourly 2023 1 9 0 0.125]]).
  - lia.
  - apply (bool_decide_unpack _). vm_compute. exact I.
  - repeat constructor; vm_compute; congruence.
Defined.

(** ** The synthetic profiles of [generate_test_data.py] *)

Module GeneratorFacts.
Import Generator.

(** The days of 2024 and January 1, 2025, read back from their ordinals. *)
Lemma days_of_2024 (d : Z) :
  0 <= d <= 366 ->
  exists y m dd,
    Calendar.ord2ymd (Calendar.ymd2ord Generator.YEAR 1 1 + d) = (y, m, dd)
    /\ 0 <= y <= 9999 /\ 1 <= m <= 12 /\ 1 <= dd <= 31
    /\ Calendar.ymd2ord y m dd = Calendar.ymd2ord Generator.YEAR 1 1 + d
    /\ (d <= 365 ->
        y = Generator.YEAR /\ Calendar.days_before_month y m + dd = d + 1).
Proof.
  intros Hd.
  assert (H : forallb
                (fun d =>
                   let '(y, m, dd) :=
                     Calendar.ord2ymd (Calendar.ymd2ord Generator.YEAR 1 1 + d) in
                   (0 <=? y) && (y <=? 9999) && (1 <=? m) && (m <=? 12)
                   && (1 <=? dd) && (dd <=? 31)
                   && (Calendar.ymd2ord y m dd
                       =? Calendar.ymd2ord Generator.YEAR 1 1 + d)
                   && ((365 <? d)
                       || ((y =? Generator.YEAR)
                           && (Calendar.days_before_month y m + dd =? d + 1))))
                (seqZ 0 367) = true)
    by (vm_compute; reflexivity).
  rewrite forallb_forall in H. specialize (H d).
  destruct (Calendar.ord2ymd (Calendar.ymd2ord Generator.YEAR 1 1 + d))
    as [[y m] dd].
  exists y, m, dd. split; [reflexivity|].
  assert (Hin : In d (seqZ 0 367)) by (apply list_elem_of_In, elem_of_seqZ; lia).
  specialize (H Hin).
  repeat match type of H with
         | (_ && _) = true => apply andb_true_iff in H as [H ?]
         end.
  repeat match goal with
         | H : (_ <=? _) = true |- _ => apply Z.leb_le in H
         | H : (_ =? _) = true |- _ => apply Z.eqb_eq in H
         end.
  repeat split; try assumption.
  - match goal with H : (_ || _) = true |- _ => rename H into Hor end.
    apply orb_true_iff in Hor as [Hor|Hor]; [apply Z.ltb_lt in Hor; lia|].
    apply andb_true_iff in Hor as [Hor _]. apply Z.eqb_eq, Hor.
  - match goal with H : (_ || _) = true |- _ => rename H into Hor end.
    apply orb_true_iff in Hor as [Hor|Hor]; [apply Z.ltb_lt in Hor; lia|].
    apply andb_true_iff in Hor as [_ Hor]. apply Z.eqb_eq, Hor.
Qed.

Lemma hour_text_of_day (i : Z) (y m dd : Z) :
  Calendar.ord2ymd (Calendar.ymd2ord Generator.YEAR 1 1 + i / 24) = (y, m, dd) ->
  Generator.hour_text i
  = strftime {| DateTime.year := y; month := m; day := dd;
                hour := i mod 24; minute := 0; second := 0 |}.
Proof. intros E. unfold Generator.hour_text. rewrite E. reflexivity. Qed.

Lemma add_hours_of_2024 (i : Z) :
  0 <= i < Generator.HOURS_IN_YEAR ->
  exists y m dd,
    Calendar.ord2ymd (Calendar.ymd2ord Generator.YEAR 1 1 + i / 24) = (y, m, dd)
    /\ Generator.add_hours Generator.start_date i
       = Some {| DateTime.year := y; month := m; day := dd;
                 hour := i mod 24; minute := 0; second := 0 |}.
Proof.
  unfold Generator.HOURS_IN_YEAR. intros Hi.
  destruct (days_of_2024 (i / 24)) as (y & m & dd & E & _);
    [Z.div_mod_to_equations; lia|].
  exists y, m, dd. split; [exact E|].
  unfold Generator.add_hours, Generator.start_date.
  cbn [DateTime.year month day hour minute second].
  replace (0 * 3600 + 0 * 60 + 0 + i * 3600) with (i * 3600) by lia.
  replace (i * 3600 / 86400) with (i / 24) by (Z.div_mod_to_equations; lia).
  replace ((i * 3600) mod 86400) with (i mod 24 * 3600)
    by (Z.div_mod_to_equations; lia).
  rewrite E.
  assert (Hbase : Calendar.ymd2ord Generator.YEAR 1 1 = 738886) by reflexivity.
  rewrite Hbase. unfold Calendar.MAXORDINAL.
  assert (0 <= i / 24 <= 365) by (Z.div_mod_to_equations; lia).
  destruct (Z.ltb_spec 0 (738886 + i / 24)); [|lia].
  destruct (Z.leb_spec (738886 + i / 24) 3652059); [|lia].
  cbn [andb]. do 2 f_equal.
  - Z.div_mod_to_equations; lia.
  - Z.div_mod_to_equations; lia.
  - Z.div_mod_to_equations; lia.
Qed.

Lemma hours_of_2024 :
  Forall (fun i => exists dt, Generator.add_hours Generator.start_date i = Some dt
                              /\ Generator.isoformat dt = Generator.hour_text i)
         (seqZ 0 Generator.HOURS_IN_YEAR).
Proof.
  apply Forall_forall. intros i Hi. apply elem_of_seqZ in Hi.
  destruct (add_hours_of_2024 i) as (y & m & dd & E & Hadd); [lia|].
  eexists. split; [exact Hadd|].
  rewrite (hour_text_of_day i y m dd E). reflexivity.
Qed.

Section Facts.
Context {Random : Type}.
Variable generate_consumption_power :
  datetime -> string -> Random -> float * Random.
Variable generate_solar_power : datetime -> Z -> Random -> float * Random.

Lemma hours_loop_texts (power : datetime -> Random -> float * Random)
  (start : datetime) (text : Z -> string) (hours : list Z) :
  Forall (fun i => exists dt, add_hours start i = Some dt
                              /\ isoformat dt = text i) hours ->
  forall data g,
    exists data' g',
      hours_loop power start hours data g = Some (data ++ data', g')
      /\ map timestamp data' = map text hours.
Proof.
  induction 1 as [|i hours (dt & Hdt & Htext) _ IH]; intros data g.
  - exists [], g. rewrite app_nil_r. split; reflexivity.
  - simpl. rewrite Hdt. destruct (power dt g) as [kwh g1].
    destruct (IH (data ++ [{| timestamp := isoformat dt; kwh := kwh |}]) g1)
      as (data' & g' & Hloop & Hts).
    exists ({| timestamp := isoformat dt; kwh := kwh |} :: data'), g'. split.
    + rewrite Hloop, <- app_assoc. reflexivity.
    + simpl. rewrite Htext, Hts. reflexivity.
Qed.

End Facts.
End GeneratorFacts.

Lemma string_compare_Lt_trans (a b c : string) :
  String.compare a b = Lt -> String.compare b c = Lt -> String.compare a c = Lt.
Proof.
  revert b c. induction a as [|x a IH]; intros [|y b] [|z c]; simpl;
    try congruence.
  unfold Ascii.compare.
  destruct (N.compare_spec (N_of_ascii x) (N_of_ascii y)) as [E1|L1|L1];
    destruct (N.compare_spec (N_of_ascii y) (N_of_ascii z)) as [E2|L2|L2];
    try congruence; intros H1 H2.
  - rewrite E1, E2, N.compare_refl. exact (IH b c H1 H2).
  - rewrite E1. apply N.compare_lt_iff in L2. rewrite L2. reflexivity.
  - rewrite <- E2. apply N.compare_lt_iff in L1. rewrite L1. reflexivity.
  - assert (L : (N_of_ascii x < N_of_ascii z)%N) by lia.
    apply N.compare_lt_iff in L. rewrite L. reflexivity.
Qed.

Lemma string_ltb_trans (a b c : string) :
  String.ltb a b = true -> String.ltb b c = true -> String.ltb a c = true.
Proof.
  unfold String.ltb. intros H1 H2.
  destruct (String.compare a b) eqn:E1; try discriminate.
  destruct (String.compare b c) eqn:E2; try discriminate.
  rewrite (string_compare_Lt_trans a b c E1 E2). reflexivity.
Qed.

Lemma Sorted_ltb_NoDup (l : list string) :
  Sorted (fun a b => String.ltb a b = true) l -> NoDup l.
Proof.
  intros H. apply Sorted_StronglySorted in H;
    [|intros a b c; apply string_ltb_trans].
  induction H as [|a l Hl IH Ha]; constructor; [|exact IH].
  intros Hin. rewrite Forall_forall in Ha.
  specialize (Ha a Hin). rewrite string_ltb_irrefl in Ha. discriminate Ha.
Qed.

Lemma next_day_of_2024 (d : Z) :
  0 <= d <= 364 ->
  date_ltb (Calendar.ord2ymd (Calendar.ymd2ord Generator.YEAR 1 1 + d))
           (Calendar.ord2ymd (Calendar.ymd2ord Generator.YEAR 1 1 + (d + 1)))
  = true.
Proof.
  intros Hd.
  assert (H : forallb
                (fun d =>
                   date_ltb
                     (Calendar.ord2ymd (Calendar.ymd2ord Generator.YEAR 1 1 + d))
                     (Calendar.ord2ymd
                        (Calendar.ymd2ord Generator.YEAR 1 1 + (d + 1))))
                (seqZ 0 365) = true)
    by (vm_compute; reflexivity).
  rewrite forallb_forall in H. apply H.
  apply list_elem_of_In, elem_of_seqZ. lia.
Qed.

Lemma datetime_compare_dates (a b : datetime) :
  date_ltb (DateTime.year a, month a, day a) (DateTime.year b, month b, day b)
  = true ->
  datetime_compare a b = Lt.
Proof.
  unfold date_ltb, datetime_compare.
  destruct (DateTime.year a ?= DateTime.year b); try congruence.
  destruct (month a ?= month b); try congruence.
  intros H. apply Z.ltb_lt in H. apply Z.compare_lt_iff in H. rewrite H.
  reflexivity.
Qed.

Lemma hour_text_step (i : Z) :
  0 <= i < Generator.HOURS_IN_YEAR - 1 ->
  String.ltb (Generator.hour_text i) (Generator.hour_text (i + 1)) = true.
Proof.
  unfold Generator.HOURS_IN_YEAR. intros Hi.
  destruct (GeneratorFacts.days_of_2024 (i / 24)) as (y & m & dd & E & Hy & Hm & Hdd & _);
    [Z.div_mod_to_equations; lia|].
  destruct (GeneratorFacts.days_of_2024 ((i + 1) / 24))
    as (y' & m' & dd' & E' & Hy' & Hm' & Hdd' & _);
    [Z.div_mod_to_equations; lia|].
  rewrite (GeneratorFacts.hour_text_of_day i y m dd E), (GeneratorFacts.hour_text_of_day (i + 1) y' m' dd' E').
  assert (Hh : 0 <= i mod 24 <= 23) by (Z.div_mod_to_equations; lia).
  assert (Hh' : 0 <= (i + 1) mod 24 <= 23) by (Z.div_mod_to_equations; lia).
  rewrite strftime_ltb
    by (unfold fields_in_range; cbn [DateTime.year month day hour minute second];
        lia).
  unfold datetime_ltb.
  destruct (Z.eq_dec ((i + 1) / 24) (i / 24)) as [Esame|Enext].
  - rewrite Esame in E'. rewrite E in E'. injection E' as <- <- <-.
    unfold datetime_compare.
    cbn [DateTime.year month day hour minute second].
    rewrite !Z.compare_refl.
    assert (Hlt : i mod 24 < (i + 1) mod 24) by (Z.div_mod_to_equations; lia).
    apply Z.compare_lt_iff in Hlt. rewrite Hlt. reflexivity.
  - assert (Enext' : (i + 1) / 24 = i / 24 + 1)
      by (Z.div_mod_to_equations; lia).
    rewrite datetime_compare_dates; [reflexivity|].
    cbn [DateTime.year month day].
    rewrite <- E, <- E', Enext'. apply next_day_of_2024.
    Z.div_mod_to_equations; lia.
Qed.

Lemma Sorted_map_seq {A : Type} (R : A -> A -> Prop) (f : Z -> A) (n : nat) :
  forall m : Z,
    (forall i, m <= i < m + Z.of_nat n - 1 -> R (f i) (f (i + 1))) ->
    Sorted R (map f (seqZ m (Z.of_nat n))).
Proof.
  induction n as [|n IH]; intros m H; [constructor|].
  rewrite seqZ_cons by lia.
  replace (Z.pred (Z.of_nat (S n))) with (Z.of_nat n) by lia.
  cbn [map]. constructor.
  - apply IH. intros i Hi. apply H. lia.
  - destruct n as [|n]; [constructor|].
    rewrite seqZ_cons by lia. cbn [map]. constructor.
    replace (Z.succ m) with (m + 1) by lia. apply H. lia.
Qed.

Lemma hour_texts_ascending :
  Sorted (fun a b => String.ltb a b = true)
    (map Generator.hour_text (seqZ 0 Generator.HOURS_IN_YEAR)).
Proof.
  rewrite <- (Z2Nat.id Generator.HOURS_IN_YEAR)
    by (unfold Generator.HOURS_IN_YEAR; lia).
  apply Sorted_map_seq. intros i Hi. apply hour_text_step.
  rewrite Z2Nat.id in Hi by (unfold Generator.HOURS_IN_YEAR; lia). lia.
Qed.

(** X18.  Whatever the power functions and the random generator do,
    [generate_consumption_profile] and [generate_solar_profile] return
    8784 records, the expected count of 2024, whose timestamps are the
    hours of 2024 counted without a clock change: record [i] is hour
    [i mod 24] of the day [i / 24] days after January 1, from
    2024-01-01T00:00:00 to 2024-12-31T23:00:00.  The timestamps ascend
    strictly, so none occurs twice. *)
Theorem X18_profiles_walk_the_hours_of_2024_without_clock_change :
  forall (Random : Type)
         (generate_consumption_power :
            datetime -> string -> Random -> float * Random)
         (generate_solar_power : datetime -> Z -> Random -> float * Random)
         (profile_name : string) (kwp : Z) (g : Random),
    (exists data g',
       Generator.generate_consumption_profile generate_consumption_power
         profile_name g = Some (data, g')
       /\ map Generator.timestamp data
          = map Generator.hour_text (seqZ 0 Generator.HOURS_IN_YEAR))
    /\ (exists data g',
          Generator.generate_solar_profile generate_solar_power kwp g
          = Some (data, g')
          /\ map Generator.timestamp data
             = map Generator.hour_text (seqZ 0 Generator.HOURS_IN_YEAR))
    /\ Z.of_nat (length (map Generator.hour_text
                           (seqZ 0 Generator.HOURS_IN_YEAR)))
       = expected_count Generator.YEAR
    /\ Generator.hour_text 0 = "2024-01-01T00:00:00"%string
    /\ Generator.hour_text 8783 = "2024-12-31T23:00:00"%string
    /\ Sorted (fun a b => String.ltb a b = true)
         (map Generator.hour_text (seqZ 0 Generator.HOURS_IN_YEAR))
    /\ NoDup (map Generator.hour_text (seqZ 0 Generator.HOURS_IN_YEAR)).
Proof.
  intros Random generate_consumption_power generate_solar_power
    profile_name kwp g.
  split; [|split; [|split; [|split; [|split; [|split]]]]].
  - destruct (GeneratorFacts.hours_loop_texts
                (fun dt => generate_consumption_power dt profile_name)
                Generator.start_date Generator.hour_text _
                GeneratorFacts.hours_of_2024 [] g)
      as (data & g' & Hloop & Hts).
    exists data, g'. split; [exact Hloop|exact Hts].
  - destruct (GeneratorFacts.hours_loop_texts
                (fun dt => generate_solar_power dt kwp)
                Generator.start_date Generator.hour_text _
                GeneratorFacts.hours_of_2024 [] g)
      as (data & g' & Hloop & Hts).
    exists data, g'. split; [exact Hloop|exact Hts].
  - rewrite length_map, length_seqZ. reflexivity.
  - reflexivity.
  - reflexivity.
  - exact hour_texts_ascending.
  - apply Sorted_ltb_NoDup, hour_texts_ascending.
Qed.

Section GeneratorMain.
Context {Random : Type}.
Variable generate_consumption_power :
  datetime -> string -> Random -> float * Random.
Variable generate_solar_power : datetime -> Z -> Random -> float * Random.

Local Abbreviation consumption_loop :=
  (Generator.consumption_loop generate_consumption_power).
Local Abbreviation solar_loop := (Generator.solar_loop generate_solar_power).

Lemma save_json_profile (data : list Generator.sample) (field filename : string)
  (w : Generator.disk) :
  Generator.data_dir_exists w = true ->
  map Generator.timestamp data
  = map Generator.hour_text (seqZ 0 Generator.HOURS_IN_YEAR) ->
  exists w',
    Generator.save_json data field filename w = Some w'
    /\ Generator.data_dir_exists w' = true
    /\ (exists o, Generator.files w' !! filename = Some o /\ profile_file field o)
    /\ (forall name, name <> filename ->
          Generator.files w' !! name = Generator.files w !! name).
Proof.
  intros Hdir Hts. unfold Generator.save_json. rewrite Hdir.
  eexists. split; [reflexivity|]. split; [reflexivity|]. split.
  - eexists. split; [apply lookup_insert_eq|].
    assert (Hlen : Z.of_nat (length data) = Generator.HOURS_IN_YEAR).
    { rewrite <- (length_map Generator.timestamp), Hts, length_map, length_seqZ.
      reflexivity. }
    unfold profile_file.
    cbn [Generator.year Generator.count Generator.field_name Generator.data].
    split; [reflexivity|]. split; [exact Hlen|]. split; [reflexivity|].
    split; [exact Hlen|exact Hts].
  - intros name Hne. cbn [Generator.files]. apply lookup_insert_ne. congruence.
Qed.

Lemma consumption_loop_files (keys : list string) :
  forall (g : Random) (w : Generator.disk),
    Generator.data_dir_exists w = true ->
    exists g' w',
      consumption_loop keys g w = Some (g', w')
      /\ Generator.data_dir_exists w' = true
      /\ (forall key, key ∈ keys ->
            exists o, Generator.files w' !! Generator.consumption_filename key
                      = Some o
                      /\ profile_file "consumption" o)
      /\ (forall name,
            name ∉ map Generator.consumption_filename keys ->
            Generator.files w' !! name = Generator.files w !! name).
Proof.
  induction keys as [|k keys IH]; intros g w Hdir.
  - exists g, w. split; [reflexivity|]. split; [exact Hdir|]. split.
    + intros key Hkey. apply elem_of_nil in Hkey. destruct Hkey.
    + reflexivity.
  - cbn [Generator.consumption_loop].
    destruct (GeneratorFacts.hours_loop_texts
                (fun dt => generate_consumption_power dt k)
                Generator.start_date Generator.hour_text _
                GeneratorFacts.hours_of_2024 [] g)
      as (data & g1 & Hloop & Hts).
    unfold Generator.generate_consumption_profile. rewrite Hloop. simpl app.
    destruct (save_json_profile data "consumption"
                (Generator.consumption_filename k) w Hdir Hts)
      as (w1 & Hsave & Hdir1 & Hfile & Hframe).
    rewrite Hsave.
    destruct (IH g1 w1 Hdir1) as (g' & w' & Hrest & Hdir' & Hgood & Hframe').
    exists g', w'. split; [exact Hrest|]. split; [exact Hdir'|]. split.
    + intros key Hkey.
      destruct (decide (Generator.consumption_filename key
                        ∈ map Generator.consumption_filename keys))
        as [Hin|Hnin].
      * apply list_elem_of_fmap in Hin as (key' & E & Hkey').
        rewrite E. apply Hgood, Hkey'.
      * rewrite (Hframe' _ Hnin).
        apply elem_of_cons in Hkey as [->|Hkey]; [exact Hfile|].
        destruct Hnin. apply list_elem_of_fmap. exists key.
        split; [reflexivity|exact Hkey].
    + intros name Hname. cbn [map] in Hname.
      rewrite not_elem_of_cons in Hname.
      destruct Hname as [Hne Hnin].
      rewrite (Hframe' _ Hnin). apply Hframe, Hne.
Qed.

Lemma solar_loop_files (kwps : list Z) :
  forall (g : Random) (w : Generator.disk),
    Generator.data_dir_exists w = true ->
    exists g' w',
      solar_loop kwps g w = Some (g', w')
      /\ Generator.data_dir_exists w' = true
      /\ (forall kwp, kwp ∈ kwps ->
            exists o, Generator.files w' !! Generator.solar_filename kwp
                      = Some o
                      /\ profile_file "solar" o)
      /\ (forall name,
            name ∉ map Generator.solar_filename kwps ->
            Generator.files w' !! name = Generator.files w !! name).
Proof.
  induction kwps as [|k kwps IH]; intros g w Hdir.
  - exists g, w. split; [reflexivity|]. split; [exact Hdir|]. split.
    + intros kwp Hkwp. apply elem_of_nil in Hkwp. destruct Hkwp.
    + reflexivity.
  - cbn [Generator.solar_loop].
    destruct (GeneratorFacts.hours_loop_texts
                (fun dt => generate_solar_power dt k)
                Generator.start_date Generator.hour_text _
                GeneratorFacts.hours_of_2024 [] g)
      as (data & g1 & Hloop & Hts).
    unfold Generator.generate_solar_profile. rewrite Hloop. simpl app.
    destruct (save_json_profile data "solar"
                (Generator.solar_filename k) w Hdir Hts)
      as (w1 & Hsave & Hdir1 & Hfile & Hframe).
    rewrite Hsave.
    destruct (IH g1 w1 Hdir1) as (g' & w' & Hrest & Hdir' & Hgood & Hframe').
    exists g', w'. split; [exact Hrest|]. split; [exact Hdir'|]. split.
    + intros kwp Hkwp.
      destruct (decide (Generator.solar_filename kwp
                        ∈ map Generator.solar_filename kwps))
        as [Hin|Hnin].
      * apply list_elem_of_fmap in Hin as (kwp' & E & Hkwp').
        rewrite E. apply Hgood, Hkwp'.
      * rewrite (Hframe' _ Hnin).
        apply elem_of_cons in Hkwp as [->|Hkwp]; [exact Hfile|].
        destruct Hnin. apply list_elem_of_fmap. exists kwp.
        split; [reflexivity|exact Hkwp].
    + intros name Hname. cbn [map] in Hname.
      rewrite not_elem_of_cons in Hname.
      destruct Hname as [Hne Hnin].
      rewrite (Hframe' _ Hnin). apply Hframe, Hne.
Qed.

End GeneratorMain.

Lemma generator_filenames_distinct :
  NoDup (map Generator.consumption_filename Generator.consumption_profiles
         ++ map Generator.solar_filename Generator.solar_profiles).
Proof. apply (bool_decide_unpack _). vm_compute. exact I. Qed.

(** X19.  Without the directory [data], [main] of the generator ends with
    the exception of its first [open].  With it, [main] returns and
    leaves fifteen files, four of consumption and eleven of solar power
    under pairwise distinct names: each holds the year 2024, the count
    8784, that many records under its field, and the timestamps of X18;
    no other file is touched. *)
Theorem X19_generator_writes_fifteen_files_of_8784_hours :
  forall (Random : Type)
         (generate_consumption_power :
            datetime -> string -> Random -> float * Random)
         (generate_solar_power : datetime -> Z -> Random -> float * Random)
         (g : Random) (w : Generator.disk),
    (Generator.data_dir_exists w = false ->
     Generator.main generate_consumption_power generate_solar_power g w = None)
    /\ (Generator.data_dir_exists w = true ->
        exists g' w',
          Generator.main generate_consumption_power generate_solar_power g w
          = Some (g', w')
          /\ (forall key, key ∈ Generator.consumption_profiles ->
                exists o,
                  Generator.files w' !! Generator.consumption_filename key
                  = Some o
                  /\ profile_file "consumption" o)
          /\ (forall kwp, kwp ∈ Generator.solar_profiles ->
                exists o,
                  Generator.files w' !! Generator.solar_filename kwp = Some o
                  /\ profile_file "solar" o)
          /\ (forall name,
                name ∉ map Generator.consumption_filename
                         Generator.consumption_profiles
                       ++ map Generator.solar_filename Generator.solar_profiles ->
                Generator.files w' !! name = Generator.files w !! name))
    /\ length (map Generator.consumption_filename Generator.consumption_profiles
               ++ map Generator.solar_filename Generator.solar_profiles)
       = 15%nat
    /\ NoDup (map Generator.consumption_filename Generator.consumption_profiles
              ++ map Generator.solar_filename Generator.solar_profiles).
Proof.
  intros Random generate_consumption_power generate_solar_power g w.
  split; [|split; [|split; [reflexivity|exact generator_filenames_distinct]]].
  - intros Hdir. unfold Generator.main, Generator.consumption_profiles.
    cbn [Generator.consumption_loop].
    destruct (GeneratorFacts.hours_loop_texts
                (fun dt => generate_consumption_power dt "basis"%string)
                Generator.start_date Generator.hour_text _
                GeneratorFacts.hours_of_2024 [] g)
      as (data & g1 & Hloop & _).
    unfold Generator.generate_consumption_profile. rewrite Hloop.
    unfold Generator.save_json. rewrite Hdir. reflexivity.
  - intros Hdir. unfold Generator.main.
    destruct (consumption_loop_files generate_consumption_power
                Generator.consumption_profiles g w Hdir)
      as (g1 & w1 & Hc & Hdir1 & Hgood1 & Hframe1).
    rewrite Hc.
    destruct (solar_loop_files generate_solar_power
                Generator.solar_profiles g1 w1 Hdir1)
      as (g' & w' & Hs & _ & Hgood2 & Hframe2).
    exists g', w'. split; [exact Hs|]. split; [|split; [exact Hgood2|]].
    + intros key Hkey. rewrite Hframe2; [apply Hgood1, Hkey|].
      pose proof generator_filenames_distinct as Hnd.
      apply NoDup_app in Hnd as (_ & Hdisj & _).
      apply Hdisj. apply list_elem_of_fmap. exists key.
      split; [reflexivity|exact Hkey].
    + intros name Hname. rewrite not_elem_of_app in Hname.
      destruct Hname as [Hn1 Hn2].
      rewrite (Hframe2 _ Hn2). apply Hframe1, Hn1.
Qed.

Lemma strftime_hour_of_2024 (k : Z) :
  0 <= k ->
  strftime (datetime_of_seconds (year_start Generator.YEAR + 3600 * k))
  = Generator.hour_text k.
Proof.
  intros Hk. unfold datetime_of_seconds, Generator.hour_text.
  assert (Hstart : year_start Generator.YEAR
                   = (Calendar.ymd2ord Generator.YEAR 1 1 - EPOCH_ORDINAL) * 86400)
    by reflexivity.
  rewrite Hstart.
  generalize (Calendar.ymd2ord Generator.YEAR 1 1). intros b.
  replace (((b - EPOCH_ORDINAL) * 86400 + 3600 * k) / 86400 + EPOCH_ORDINAL)
    with (b + k / 24) by (unfold EPOCH_ORDINAL; Z.div_mod_to_equations; lia).
  destruct (Calendar.ord2ymd (b + k / 24)) as [[y m] d].
  replace (((b - EPOCH_ORDINAL) * 86400 + 3600 * k) mod 86400 / 3600)
    with (k mod 24) by (unfold EPOCH_ORDINAL; Z.div_mod_to_equations; lia).
  replace (((b - EPOCH_ORDINAL) * 86400 + 3600 * k) mod 86400 mod 3600 / 60)
    with 0 by (unfold EPOCH_ORDINAL; Z.div_mod_to_equations; lia).
  replace (((b - EPOCH_ORDINAL) * 86400 + 3600 * k) mod 86400 mod 60)
    with 0 by (unfold EPOCH_ORDINAL; Z.div_mod_to_equations; lia).
  reflexivity.
Qed.

Lemma amsterdam_offset_2024 (i : Z) :
  0 <= i < Generator.HOURS_IN_YEAR ->
  amsterdam_offset (utc_seconds 2023 12 31 23 + 3600 * i)
  = if (2162 <=? i) && (i <? 7202) then 7200 else 3600.
Proof.
  unfold Generator.HOURS_IN_YEAR. intros Hi.
  assert (Hu : utc_seconds 2023 12 31 23 = 1704063600) by reflexivity.
  assert (H23 : year_start 2023 = 1672531200) by reflexivity.
  assert (H24 : year_start 2024 = 1704067200) by reflexivity.
  assert (H25 : year_start (2024 + 1) = 1735689600) by reflexivity.
  assert (Hdiv : forall s, 0 <= s -> 1 - EPOCH_ORDINAL <= s / 86400).
  { intros s Hs. unfold EPOCH_ORDINAL. Z.div_mod_to_equations. lia. }
  rewrite Hu. unfold amsterdam_offset.
  destruct (Z.eq_dec i 0) as [->|Hne].
  - assert (HY : year (datetime_of_seconds (1704063600 + 3600 * 0)) = 2023).
    { apply year_of_seconds; [apply Hdiv; lia|].
      change (2023 + 1) with 2024. lia. }
    cbv zeta. rewrite HY. reflexivity.
  - assert (HY : year (datetime_of_seconds (1704063600 + 3600 * i)) = 2024).
    { apply year_of_seconds; [apply Hdiv; lia|]. lia. }
    cbv zeta. rewrite HY.
    assert (Hs : dst_start 2024 = 1704063600 + 3600 * 2162) by reflexivity.
    assert (He : dst_end 2024 = 1704063600 + 3600 * 7202) by reflexivity.
    rewrite Hs, He.
    destruct (Z.leb_spec 2162 i), (Z.ltb_spec i 7202);
      destruct (Z.leb_spec (1704063600 + 3600 * 2162) (1704063600 + 3600 * i));
      destruct (Z.ltb_spec (1704063600 + 3600 * i) (1704063600 + 3600 * 7202));
      try reflexivity; lia.
Qed.

Lemma hours_of_2024_in_amsterdam (i : Z) :
  0 <= i < Generator.HOURS_IN_YEAR ->
  DateTime.year (amsterdam (utc_seconds 2023 12 31 23 + 3600 * i))
  = Generator.YEAR
  /\ strftime (amsterdam (utc_seconds 2023 12 31 23 + 3600 * i))
     = Generator.hour_text (if (2162 <=? i) && (i <? 7202) then i + 1 else i).
Proof.
  intros Hi. pose proof Hi as Hi'. unfold Generator.HOURS_IN_YEAR in Hi'.
  assert (Hu : utc_seconds 2023 12 31 23 = year_start Generator.YEAR - 3600)
    by reflexivity.
  split.
  - apply amsterdam_year.
    + rewrite Hu. assert (year_start Generator.YEAR = 1704067200) by reflexivity.
      lia.
    + unfold Generator.YEAR. lia.
    + rewrite Hu, year_start_succ.
      assert (expected_count Generator.YEAR = 8784) by reflexivity. lia.
  - unfold amsterdam. rewrite (amsterdam_offset_2024 i Hi), Hu.
    destruct ((2162 <=? i) && (i <? 7202)).
    + replace (year_start Generator.YEAR - 3600 + 3600 * i + 7200)
        with (year_start Generator.YEAR + 3600 * (i + 1)) by lia.
      apply strftime_hour_of_2024. lia.
    + replace (year_start Generator.YEAR - 3600 + 3600 * i + 3600)
        with (year_start Generator.YEAR + 3600 * i) by lia.
      apply strftime_hour_of_2024. lia.
Qed.

(** X20.  Hour [i] of the year 2024 in Europe/Amsterdam, counted from
    23:00 UTC on December 31, 2023, is kept by the year filter and carries
    the timestamp of record [i] of a synthetic profile only outside summer
    time: from index 2162 (2024-03-31T03:00:00) to index 7201 it carries
    the timestamp of record [i + 1].  The price series and the profiles of
    2024 have the same length, but they pair by index only before the
    clocks go forward and after they go back. *)
Theorem X20_prices_and_profiles_pair_by_index_outside_summer_time :
  forall (i : Z) (p : float),
    0 <= i < Generator.HOURS_IN_YEAR ->
    Rest.in_year amsterdam Generator.YEAR
      {| Rest.readingDate := utc_seconds 2023 12 31 23 + 3600 * i;
         Rest.price := p |} = true
    /\ timestamp
         (Rest.to_point amsterdam
            {| Rest.readingDate := utc_seconds 2023 12 31 23 + 3600 * i;
               Rest.price := p |})
       = Generator.hour_text
           (if (2162 <=? i) && (i <? 7202) then i + 1 else i)
    /\ timestamp
         (GraphQL.to_point amsterdam
            {| GraphQL.start_including := utc_seconds 2023 12 31 23 + 3600 * i;
               GraphQL.price := p |})
       = Generator.hour_text
           (if (2162 <=? i) && (i <? 7202) then i + 1 else i).
Proof.
  intros i p Hi. destruct (hours_of_2024_in_amsterdam i Hi) as [Hy Ht].
  unfold Rest.in_year, Rest.to_point, GraphQL.to_point.
  cbn [Rest.readingDate GraphQL.start_including timestamp].
  split; [apply Z.eqb_eq, Hy|]. split; exact Ht.
Qed.

(** X20 at index 5000, an hour of July. *)
Lemma X20_witness :
  timestamp
    (Rest.to_point amsterdam
       {| Rest.readingDate := utc_seconds 2023 12 31 23 + 3600 * 5000;
          Rest.price := 0.25 |})
  = Generator.hour_text
      (if (2162 <=? 5000) && (5000 <? 7202) then 5000 + 1 else 5000).
Proof.
  apply (X20_prices_and_profiles_pair_by_index_outside_summer_time 5000 0.25).
  unfold Generator.HOURS_IN_YEAR. lia.
Defined.

(** X21.  The date-time of turn [i] of the loop of either profile function,
    which is handed to the power function, has the hour [i mod 24], the
    day of the year [i / 24 + 1] (from 1 to 366, as [day_of_year]
    documents) and the weekday [(i / 24) mod 7], 2024 starting on a
    Monday. *)
Theorem X21_hours_handed_to_the_power_functions :
  forall i : Z,
    0 <= i < Generator.HOURS_IN_YEAR ->
    exists dt,
      Generator.add_hours Generator.start_date i = Some dt
      /\ hour dt = i mod 24
      /\ Generator.day_of_year dt = i / 24 + 1
      /\ 1 <= Generator.day_of_year dt <= 366
      /\ Generator.weekday dt = (i / 24) mod 7.
Proof.
  intros i Hi. pose proof Hi as Hi'. unfold Generator.HOURS_IN_YEAR in Hi'.
  destruct (GeneratorFacts.add_hours_of_2024 i Hi) as (y & m & dd & E & Hadd).
  destruct (GeneratorFacts.days_of_2024 (i / 24))
    as (y' & m' & dd' & E' & _ & _ & _ & Hord & Hdoy);
    [Z.div_mod_to_equations; lia|].
  rewrite E in E'. injection E' as <- <- <-.
  destruct Hdoy as [_ Hdoy]; [Z.div_mod_to_equations; lia|].
  eexists. split; [exact Hadd|].
  unfold Generator.day_of_year, Generator.weekday, Calendar.toordinal.
  cbn [DateTime.year month day hour].
  split; [reflexivity|]. split; [exact Hdoy|]. split.
  - rewrite Hdoy. Z.div_mod_to_equations; lia.
  - rewrite Hord.
    assert (Hbase : Calendar.ymd2ord Generator.YEAR 1 1 = 738886)
      by reflexivity.
    rewrite Hbase. Z.div_mod_to_equations; lia.
Qed.

(** X21 at turn 100, 04:00 on Friday, January 5. *)
Lemma X21_witness :
  exists dt,
    Generator.add_hours Generator.start_date 100 = Some dt
    /\ hour dt = 100 mod 24
    /\ Generator.day_of_year dt = 100 / 24 + 1
    /\ 1 <= Generator.day_of_year dt <= 366
    /\ Generator.weekday dt = (100 / 24) mod 7.
Proof.
  apply (X21_hours_handed_to_the_power_functions 100).
  unfold Generator.HOURS_IN_YEAR. lia.
Defined.
